(** * Shallow embedding of the ARCAT / SWEETS scrapers

    Sources: [src/arcat_scraper.py] and [src/sweets_scraper.py].

    Page markup is an input of the model.  Where the code runs a regular
    expression over free page text (a [soup.get_text()] search or a
    [find_all] with an [href] pattern) the model receives the result of that
    search; where the code matches a fixed, field-by-field layout (the NUXT
    serialized data blob) the model parses it token by token. *)

From Stdlib Require Import String Ascii List Bool Arith Lia.
From Stdlib Require ZArith QArith Qround Lqa.
Import ListNotations.
Local Open Scope string_scope.

(** ** String helpers (Python [str] methods used by the scrapers) *)
Module Str.

(** [c.lower()] on one ASCII character. *)
Definition lower_char (c : ascii) : ascii :=
  let n := nat_of_ascii c in
  if Nat.leb 65 n && Nat.leb n 90 then ascii_of_nat (n + 32) else c.

(** [s.lower()] *)
Fixpoint lower (s : string) : string :=
  match s with
  | EmptyString => EmptyString
  | String c t => String (lower_char c) (lower t)
  end.

(** [needle in hay] *)
Fixpoint contains (needle hay : string) : bool :=
  prefix needle hay ||
  match hay with
  | EmptyString => false
  | String _ t => contains needle t
  end.

(** [s.split(c)[0]] *)
Fixpoint before (c : ascii) (s : string) : string :=
  match s with
  | EmptyString => EmptyString
  | String x t => if Ascii.eqb x c then EmptyString else String x (before c t)
  end.

(** [s.startswith(p)] *)
Definition startswith (p s : string) : bool := prefix p s.

Definition is_digit (c : ascii) : bool :=
  let n := nat_of_ascii c in Nat.leb 48 n && Nat.leb n 57.

Definition is_upper (c : ascii) : bool :=
  let n := nat_of_ascii c in Nat.leb 65 n && Nat.leb n 90.

Definition is_alpha (c : ascii) : bool :=
  let n := nat_of_ascii c in
  (Nat.leb 65 n && Nat.leb n 90) || (Nat.leb 97 n && Nat.leb n 122).

Definition is_space (c : ascii) : bool :=
  let n := nat_of_ascii c in Nat.eqb n 32 || (Nat.leb 9 n && Nat.leb n 13).

End Str.

(** ** ARCAT scraper ([src/arcat_scraper.py]) *)
Module Arcat.

Definition BASE_URL := "https://www.arcat.com".

(** [ASSOCIATION_KEYWORDS] *)
Definition ASSOCIATION_KEYWORDS : list string :=
  ["association"; "institute"; "society"; "council"; "foundation";
   "federation"; "board"; "committee"; "organization"; "alliance";
   "coalition"; "consortium"; "forum"; "guild"; "league"; "union"].

(** [ARCATScraper._is_association] *)
Definition _is_association (company_name : string) : bool :=
  let name_lower := Str.lower company_name in
  existsb (fun keyword => Str.contains keyword name_lower) ASSOCIATION_KEYWORDS.

(** The [Company] dataclass. *)
Record Company := mkCompany {
  name : string;
  url : string;
  company_id : string;
  address : string;
  state : string;
  phone : string;
  website : string;
  email : string;
  product_expert_name : string;
  product_expert_phone : string;
  product_expert_email : string;
  building_product_category : string
}.

(** A new [Company(name=..., url=..., company_id=..., building_product_category=...)]:
    every other field has its default [""]. *)
Definition new_company (n u i cat : string) : Company :=
  mkCompany n u i "" "" "" "" "" "" "" "" cat.

(** The [Division] dataclass (the fields the CSI-only crawl uses). *)
Record Division := mkDivision {
  code : string;
  dname : string;
  durl : string;
  companies : list Company
}.

Definition with_companies (d : Division) (cs : list Company) : Division :=
  mkDivision (code d) (dname d) (durl d) cs.

(** An anchor of a listing page: its [href] attribute and
    [link.get_text(strip=True)].  The listing markup is the list of anchors
    returned by [soup.find_all('a', href=re.compile(...))]. *)
Record Link := mkLink { href : string; text : string }.

(** [re.search(r'-(\d+)(?:\?|$)', href)]: the digits, when the maximal run of
    digits after a ['-'] ends the string or is followed by ['?']. *)
Fixpoint digit_run (s : string) : string * string :=
  match s with
  | String c t =>
      if Str.is_digit c then let '(d, r) := digit_run t in (String c d, r)
      else ("", s)
  | EmptyString => ("", "")
  end.

Fixpoint id_search (s : string) : option string :=
  match s with
  | EmptyString => None
  | String c t =>
      let here :=
        if Ascii.eqb c "-" then
          let '(d, r) := digit_run t in
          match d, r with
          | EmptyString, _ => None
          | _, EmptyString => Some d
          | _, String q _ => if Ascii.eqb q "?" then Some d else None
          end
        else None in
      match here with Some d => Some d | None => id_search t end
  end.

(** [f"{BASE_URL}{href}" if href.startswith('/') else href] *)
Definition full_url (h : string) : string :=
  if Str.startswith "/" h then BASE_URL ++ h else h.

(** The canonical key of an entity: its URL with the query stripped. *)
Definition canonical_key (u : string) : string := Str.before "?" u.

(** The loop state of [scrape_division_manufacturers]: the dict
    [seen_companies] (insertion ordered) and [skipped_associations]. *)
Definition ListingState := (list (string * Company) * nat)%type.

Definition seen_mem (k : string) (seen : list (string * Company)) : bool :=
  existsb (fun p => String.eqb (fst p) k) seen.

(** One iteration of the [for link in company_links] loop of
    [ARCATScraper.scrape_division_manufacturers]. *)
Definition manufacturers_step (cat : string) (st : ListingState) (l : Link)
  : ListingState :=
  let '(seen, skipped) := st in
  let h := href l in
  let company_name := text l in
  if String.eqb company_name "" || Str.contains "/cad" h
     || Str.contains "/bim" h || Str.contains "/spec" h then st
  else
    let base_href := Str.before "?" h in
    if seen_mem base_href seen then st
    else if _is_association company_name then (seen, S skipped)
    else
      let cid := match id_search h with Some d => d | None => "" end in
      (app seen [(base_href, new_company company_name (full_url h) cid cat)], skipped).

Definition manufacturers_loop (cat : string) (links : list Link) : ListingState :=
  fold_left (manufacturers_step cat) links ([], 0).

(** [ARCATScraper.scrape_division_manufacturers]: [None] is a failed
    [_make_request] ([if not soup: return division]).  Returns the division
    and the [skipped_associations] counter. *)
Definition scrape_division_manufacturers (listing : option (list Link)) (d : Division)
  : Division * nat :=
  match listing with
  | None => (d, 0)
  | Some links =>
      let cat := code d ++ " - " ++ dname d in
      let '(seen, skipped) := manufacturers_loop cat links in
      (with_companies d (map snd seen), skipped)
  end.

(** All companies of the store, in traversal order. *)
Definition companies_of (store : list Division) : list Company :=
  flat_map companies store.

End Arcat.

(** ** Fetch client: [_make_request] (identical in both scrapers) *)
Module Fetch.

Definition MAX_RETRIES := 3.
Definition RETRY_DELAY_BASE := 5.

(** What [self.session.get(url, timeout=REQUEST_TIMEOUT)] followed by
    [response.raise_for_status()] does on one attempt: a body, a
    [requests.exceptions.Timeout], a [requests.exceptions.ConnectionError],
    or any other [requests.RequestException] (a non-2xx status among them). *)
Inductive Attempt :=
| Ok (body : string)
| Timeout
| ConnectionError
| OtherRequestException.

(** The observable effects of the routine, in order. *)
Inductive Event :=
| SleepRequestDelay            (** [time.sleep(REQUEST_DELAY)] *)
| Get (attempt : nat)          (** [self.session.get(...)] *)
| SleepBackoff (seconds : nat). (** [time.sleep(retry_delay)] *)

Section MakeRequest.
Variable max_retries : nat.
Variable retry_delay_base : nat.
(** The response of the server to the attempt with a given index. *)
Variable resp : nat -> Attempt.

(** The [for attempt in range(MAX_RETRIES)] loop; [todo] is the rest of the
    range.  [Some body] is the parsed page, [None] the classified failure. *)
Fixpoint request_loop (todo : list nat) : option string * list Event :=
  match todo with
  | [] => (None, [])
  | attempt :: rest =>
      let pre := [SleepRequestDelay; Get attempt] in
      match resp attempt with
      | Ok body => (Some body, pre)
      | Timeout | ConnectionError =>
          let retry_delay := retry_delay_base * 2 ^ attempt in
          if Nat.ltb attempt (max_retries - 1) then
            let '(r, ev) := request_loop rest in
            (r, app pre (SleepBackoff retry_delay :: ev))
          else (None, pre)
      | OtherRequestException => (None, pre)
      end
  end.

(** [_make_request(url)] *)
Definition _make_request : option string * list Event :=
  request_loop (seq 0 max_retries).

End MakeRequest.

Definition is_get (e : Event) : bool :=
  match e with Get _ => true | _ => false end.

Definition backoffs (ev : list Event) : list nat :=
  flat_map (fun e => match e with SleepBackoff d => [d] | _ => [] end) ev.

Definition transient (a : Attempt) : Prop :=
  a = Timeout \/ a = ConnectionError.

End Fetch.

(** ** Progress tracker ([ProgressTracker], identical in both scrapers) *)
Module Progress.
Import ZArith QArith.

(** Durations are rationals; totals and counters are Python ints. *)
Record ProgressTracker := mkTracker {
  total_companies : Z;
  scraped_companies : Z;
  scrape_times : list Q
}.

(** Python's [a / b]: [ZeroDivisionError] (here [None]) when [b == 0]. *)
Definition py_div (a b : Q) : option Q :=
  if Qeq_bool b 0 then None else Some (a / b).

Definition sumQ (l : list Q) : Q := fold_right Qplus 0 l.

Definition get_percentage (t : ProgressTracker) : option Q :=
  if Z.eqb (total_companies t) 0 then Some 0
  else match py_div (inject_Z (scraped_companies t)) (inject_Z (total_companies t)) with
       | Some q => Some (q * 100)
       | None => None
       end.

Definition get_eta_seconds (t : ProgressTracker) : option Q :=
  match scrape_times t with
  | [] => Some 0
  | times =>
      if Z.eqb (scraped_companies t) 0 then Some 0
      else match py_div (sumQ times) (inject_Z (Z.of_nat (length times))) with
           | Some avg_time =>
               Some (avg_time * inject_Z (total_companies t - scraped_companies t))
           | None => None
           end
  end.

Definition get_speed (t : ProgressTracker) : option Q :=
  match scrape_times t with
  | [] => Some 0
  | times =>
      match py_div (sumQ times) (inject_Z (Z.of_nat (length times))) with
      | Some avg_time => if Qeq_bool avg_time 0 then Some 0 else py_div 60 avg_time
      | None => None
      end
  end.

End Progress.

(** ** More string helpers *)
Module Str2.
Import Str.

Definition upper_char (c : ascii) : ascii :=
  let n := nat_of_ascii c in
  if Nat.leb 97 n && Nat.leb n 122 then ascii_of_nat (n - 32) else c.

(** [s.upper()] *)
Fixpoint upper (s : string) : string :=
  match s with
  | EmptyString => EmptyString
  | String c t => String (upper_char c) (upper t)
  end.

Fixpoint lstrip_by (p : ascii -> bool) (s : string) : string :=
  match s with
  | String c t => if p c then lstrip_by p t else s
  | EmptyString => EmptyString
  end.

Definition rev_string (s : string) : string :=
  string_of_list_ascii (rev (list_ascii_of_string s)).

(** [s.strip(chars)], the characters given by [p]. *)
Definition strip_by (p : ascii -> bool) (s : string) : string :=
  rev_string (lstrip_by p (rev_string (lstrip_by p s))).

(** [s.strip()] *)
Definition strip (s : string) : string := strip_by is_space s.

(** [s.strip(', ')] *)
Definition strip_comma_space (s : string) : string :=
  strip_by (fun c => Ascii.eqb c "," || Ascii.eqb c " ") s.

Fixpoint all_chars (p : ascii -> bool) (s : string) : bool :=
  match s with
  | EmptyString => true
  | String c t => p c && all_chars p t
  end.

End Str2.

(** ** ARCAT company detail extraction ([scrape_company_details]) *)
Module ArcatDetail.
Import Arcat.

(** [STATE_ABBREV_TO_FULL] *)
Definition STATE_ABBREV_TO_FULL : list (string * string) :=
  [("AL", "Alabama"); ("AK", "Alaska"); ("AZ", "Arizona"); ("AR", "Arkansas");
   ("CA", "California"); ("CO", "Colorado"); ("CT", "Connecticut"); ("DE", "Delaware");
   ("FL", "Florida"); ("GA", "Georgia"); ("HI", "Hawaii"); ("ID", "Idaho");
   ("IL", "Illinois"); ("IN", "Indiana"); ("IA", "Iowa"); ("KS", "Kansas");
   ("KY", "Kentucky"); ("LA", "Louisiana"); ("ME", "Maine"); ("MD", "Maryland");
   ("MA", "Massachusetts"); ("MI", "Michigan"); ("MN", "Minnesota"); ("MS", "Mississippi");
   ("MO", "Missouri"); ("MT", "Montana"); ("NE", "Nebraska"); ("NV", "Nevada");
   ("NH", "New Hampshire"); ("NJ", "New Jersey"); ("NM", "New Mexico"); ("NY", "New York");
   ("NC", "North Carolina"); ("ND", "North Dakota"); ("OH", "Ohio"); ("OK", "Oklahoma");
   ("OR", "Oregon"); ("PA", "Pennsylvania"); ("RI", "Rhode Island"); ("SC", "South Carolina");
   ("SD", "South Dakota"); ("TN", "Tennessee"); ("TX", "Texas"); ("UT", "Utah");
   ("VT", "Vermont"); ("VA", "Virginia"); ("WA", "Washington"); ("WV", "West Virginia");
   ("WI", "Wisconsin"); ("WY", "Wyoming"); ("DC", "District of Columbia");
   ("AB", "Alberta"); ("BC", "British Columbia"); ("MB", "Manitoba"); ("NB", "New Brunswick");
   ("NL", "Newfoundland and Labrador"); ("NS", "Nova Scotia"); ("NT", "Northwest Territories");
   ("NU", "Nunavut"); ("ON", "Ontario"); ("PE", "Prince Edward Island"); ("QC", "Quebec");
   ("SK", "Saskatchewan"); ("YT", "Yukon")].

(** [STATE_ABBREV_TO_FULL.get(k, default)] *)
Fixpoint state_get (k default : string) (tbl : list (string * string)) : string :=
  match tbl with
  | [] => default
  | (a, full) :: rest => if String.eqb a k then full else state_get k default rest
  end.

(** A token of the serialized NUXT data blob: a quoted string, [null], or
    anything else (numbers, brackets). *)
Inductive Tok := TStr (s : string) | TNull | TOther.

Definition STREET_SUFFIXES : list string :=
  ["Rd"; "St"; "Ave"; "Dr"; "Blvd"; "Way"; "Ln"; "Pkwy"; "Place"; "Pl"; "Circle";
   "Ct"; "Court"; "Road"; "Street"; "Avenue"; "Drive"; "Boulevard"; "Lane"; "Parkway"].

(** [\d+[^"]*(?:Rd|St|...)\.?[^"]*] on a whole quoted field, [re.IGNORECASE]. *)
Definition street_ok (s : string) : bool :=
  match s with
  | String c t =>
      Str.is_digit c &&
      existsb (fun suf => Str.contains (Str.lower suf) (Str.lower t)) STREET_SUFFIXES
  | EmptyString => false
  end.

(** [[A-Z]{2}] under [re.IGNORECASE]. *)
Definition two_letters (s : string) : bool :=
  (String.length s =? 2)%nat && Str2.all_chars Str.is_alpha s.

Definition digits (n : nat) (s : string) : bool :=
  (String.length s =? n)%nat && Str2.all_chars Str.is_digit s.

(** [\d{5}(?:-\d{4})?] *)
Definition zip_ok (s : string) : bool :=
  digits 5 s ||
  (digits 5 (substring 0 5 s) && String.eqb (substring 5 1 s) "-"
   && digits 4 (substring 6 4 s) && (String.length s =? 10)%nat).

(** [[^"]*@[^"]*] *)
Definition email_ok (s : string) : bool := Str.contains "@" s.

Definition sep_ok (c : string) : bool := String.eqb c "-" || String.eqb c ".".

(** What may follow an optional [[-.]]: the string itself, or its tail
    when it starts with a separator. *)
Definition opt_sep (s : string) : list string :=
  s :: (if sep_ok (substring 0 1 s) then [substring 1 (String.length s - 1) s] else []).

Definition drop (n : nat) (s : string) : string := substring n (String.length s - n) s.

(** [\d{3}[-.]?\d{3}[-.]?\d{4}] on a whole quoted field. *)
Definition phone3_ok (s : string) : bool :=
  digits 3 (substring 0 3 s) &&
  existsb (fun r => digits 3 (substring 0 3 r) && existsb (digits 4) (opt_sep (drop 3 r)))
          (opt_sep (drop 3 s)).

(** [([A-Z]{2}),?\s*Canada] (case-insensitive): the two letters. *)
Definition canada_state (s : string) : option string :=
  let st := substring 0 2 s in
  let r := substring 2 (String.length s - 2) s in
  let r := if String.eqb (substring 0 1 r) "," then substring 1 (String.length r - 1) r else r in
  let r := Str2.lstrip_by Str.is_space r in
  if two_letters st && String.eqb (Str.lower r) "canada" then Some st else None.

(** [[A-Z]\d[A-Z]\s*\d[A-Z]\d] (case-insensitive) *)
Definition canada_zip_ok (s : string) : bool :=
  let a := substring 0 3 s in
  let b := Str2.lstrip_by Str.is_space (substring 3 (String.length s - 3) s) in
  let ch i x := substring i 1 x in
  (String.length a =? 3)%nat && Str2.all_chars Str.is_alpha (ch 0 a)
  && Str2.all_chars Str.is_digit (ch 1 a) && Str2.all_chars Str.is_alpha (ch 2 a)
  && (String.length b =? 3)%nat && Str2.all_chars Str.is_digit (ch 0 b)
  && Str2.all_chars Str.is_alpha (ch 1 b) && Str2.all_chars Str.is_digit (ch 2 b).

(** [re.search(pattern, html)]: the leftmost position where [m] matches. *)
Fixpoint search {A} (m : list Tok -> option A) (ts : list Tok) : option A :=
  match ts with
  | [] => m []
  | _ :: rest => match m ts with Some r => Some r | None => search m rest end
  end.

(** The values of the address group: address, city, state, zip, phone, email. *)
Definition Group := (string * string * string * string * string * string)%type.

(** [pattern_with_null] *)
Definition m_with_null (ts : list Tok) : option Group :=
  match ts with
  | TStr a :: TStr c :: TStr st :: TStr z :: TNull :: TStr p :: TStr e :: _ =>
      if street_ok a && two_letters st && zip_ok z && email_ok e
      then Some (a, c, st, z, p, e) else None
  | _ => None
  end.

(** [pattern_direct] *)
Definition m_direct (ts : list Tok) : option Group :=
  match ts with
  | TStr a :: TStr c :: TStr st :: TStr z :: TStr p :: TStr e :: _ =>
      if street_ok a && two_letters st && zip_ok z && email_ok e
      then Some (a, c, st, z, p, e) else None
  | _ => None
  end.

(** [pattern3] (no email; an optional [null] before the phone) *)
Definition m_pattern3 (ts : list Tok) : option Group :=
  match ts with
  | TStr a :: TStr c :: TStr st :: TStr z :: rest =>
      if street_ok a && two_letters st && zip_ok z then
        match rest with
        | TNull :: TStr p :: _ => if phone3_ok p then Some (a, c, st, z, p, "") else None
        | TStr p :: _ => if phone3_ok p then Some (a, c, st, z, p, "") else None
        | _ => None
        end
      else None
  | _ => None
  end.

(** [pattern_canada] (the phone is [group(5) or group(6)] after strip) *)
Definition m_canada (ts : list Tok) : option Group :=
  match ts with
  | TStr a :: TStr c :: TStr stc :: TStr z :: TStr p1 :: TStr p2 :: TStr e :: _ =>
      match canada_state stc with
      | Some st =>
          if street_ok a && canada_zip_ok z && email_ok e
          then Some (a, c, st, z,
                     (if String.eqb (Str2.strip p1) "" then p2 else p1), e)
          else None
      | None => None
      end
  | _ => None
  end.

(** The dict returned by [_extract_from_nuxt_data]. *)
Record NuxtData := mkNuxt {
  n_address : string; n_city : string; n_state : string; n_zip : string;
  n_phone : string; n_email : string; n_website : string
}.

Definition of_group (g : Group) (w : string) : NuxtData :=
  let '(a, c, st, z, p, e) := g in
  mkNuxt (Str2.strip a) (Str2.strip c) (Str2.strip st) (Str2.strip z)
         (Str2.strip p) (Str2.strip e) w.

(** [ARCATScraper._extract_from_nuxt_data].  [website] is the result of the
    [website_pattern] loop over the same markup ([""] when nothing passes). *)
Definition _extract_from_nuxt_data (blob : list Tok) (website : string) : NuxtData :=
  match search m_with_null blob with
  | Some g => of_group g website
  | None =>
    match search m_direct blob with
    | Some g => of_group g website
    | None =>
      match search m_pattern3 blob with
      | Some g => of_group g website
      | None =>
        match search m_canada blob with
        | Some g => of_group g website
        | None => mkNuxt "" "" "" "" "" "" website
        end
      end
    end
  end.

(** One fetched page ([html] and its [soup]).  The searches of the code over
    [soup.get_text()] and over the anchors are given by their results. *)
Record Html := mkHtml {
  blob : list Tok;             (** the fields of the serialized data blob *)
  blob_website : string;       (** [website_pattern] loop of [_extract_from_nuxt_data] *)
  text_address : string;       (** first match of the fallback [address_patterns], or [""] *)
  text_phone : string;         (** first match of the fallback [phone_patterns], or [""] *)
  link_website : string;       (** first anchor passing the website filters, or [""] *)
  mailto_email : string;       (** [href="mailto:..."] match in [html], or [""] *)
  text_email : string;         (** first email-shaped match of the page text, or [""] *)
  expert : option (string * string * string)  (** first of the three product expert methods *)
}.

(** The dict returned by [_extract_from_rendered_html]. *)
Record Rendered := mkRendered {
  r_address : string; r_state : string; r_phone : string;
  r_email : string; r_website : string
}.

(** The detail page of a company: what [_get_page_with_selenium] returns
    ([None] for [("", None)]) with the extraction of its rendered HTML, and
    what the [requests] fetch returns ([None] for a [RequestException]). *)
Record Page := mkPage {
  sel : option (Html * Rendered);
  req : option Html
}.

Definition set_address v (c : Company) : Company :=
  mkCompany (name c) (url c) (company_id c) v (state c) (phone c) (website c) (email c)
    (product_expert_name c) (product_expert_phone c) (product_expert_email c)
    (building_product_category c).
Definition set_state v (c : Company) : Company :=
  mkCompany (name c) (url c) (company_id c) (address c) v (phone c) (website c) (email c)
    (product_expert_name c) (product_expert_phone c) (product_expert_email c)
    (building_product_category c).
Definition set_phone v (c : Company) : Company :=
  mkCompany (name c) (url c) (company_id c) (address c) (state c) v (website c) (email c)
    (product_expert_name c) (product_expert_phone c) (product_expert_email c)
    (building_product_category c).
Definition set_website v (c : Company) : Company :=
  mkCompany (name c) (url c) (company_id c) (address c) (state c) (phone c) v (email c)
    (product_expert_name c) (product_expert_phone c) (product_expert_email c)
    (building_product_category c).
Definition set_email v (c : Company) : Company :=
  mkCompany (name c) (url c) (company_id c) (address c) (state c) (phone c) (website c) v
    (product_expert_name c) (product_expert_phone c) (product_expert_email c)
    (building_product_category c).
Definition set_expert (e : string * string * string) (c : Company) : Company :=
  let '(n, p, m) := e in
  mkCompany (name c) (url c) (company_id c) (address c) (state c) (phone c) (website c)
    (email c) n p m (building_product_category c).

Definition nonempty (s : string) : bool := negb (String.eqb s "").

(** [_extract_state_from_address]: [re.search(r',\s*([A-Z]{2})\s*\d{5}', address)]. *)
Fixpoint state_search (s : string) : option string :=
  match s with
  | EmptyString => None
  | String c t =>
      let here :=
        if Ascii.eqb c "," then
          let r := Str2.lstrip_by Str.is_space t in
          let st := substring 0 2 r in
          let r' := Str2.lstrip_by Str.is_space (substring 2 (String.length r - 2) r) in
          if (String.length st =? 2)%nat && Str2.all_chars Str.is_upper st
             && digits 5 (substring 0 5 r')
          then Some st else None
        else None in
      match here with Some st => Some st | None => state_search t end
  end.

Definition _extract_state_from_address (a : string) : string :=
  if String.eqb a "" then ""
  else match state_search a with
       | Some abbrev => let abbrev := Str2.upper abbrev in
                        state_get abbrev abbrev STATE_ABBREV_TO_FULL
       | None => ""
       end.

(** The Selenium block of [scrape_company_details] on [rendered_data]. *)
Definition apply_rendered (r : Rendered) (c : Company) : Company :=
  let c := if nonempty (r_address r) then
             let c := set_address (r_address r) c in
             if nonempty (r_state r)
             then set_state (state_get (Str2.upper (r_state r)) (r_state r) STATE_ABBREV_TO_FULL) c
             else c
           else c in
  let c := if nonempty (r_phone r) then set_phone (r_phone r) c else c in
  let c := if nonempty (r_email r) then set_email (r_email r) c else c in
  if nonempty (r_website r) then set_website (r_website r) c else c.

(** [f"{nuxt_data['address']}, {city}, {state} {zip_code}".strip(', ')] *)
Definition compose_address (nd : NuxtData) : string :=
  Str2.strip_comma_space
    (n_address nd ++ ", " ++ Str2.strip (n_city nd) ++ ", " ++ Str2.strip (n_state nd)
     ++ " " ++ Str2.strip (n_zip nd)).

(** The NUXT block. *)
Definition apply_nuxt (nd : NuxtData) (c : Company) : Company :=
  let c := if nonempty (n_address nd) then
             let st := Str2.strip (n_state nd) in
             let c := set_address (compose_address nd) c in
             set_state (state_get (Str2.upper st) st STATE_ABBREV_TO_FULL) c
           else c in
  let c := if nonempty (n_phone nd) then set_phone (n_phone nd) c else c in
  let c := if nonempty (n_email nd) then set_email (n_email nd) c else c in
  if nonempty (n_website nd) then set_website (n_website nd) c else c.

Definition EXCLUDED_EMAIL := ["noreply"; "donotreply"; "unsubscribe"].

(** [# If NUXT extraction failed, fall back to traditional HTML parsing] *)
Definition address_fallback (h : Html) (c : Company) : Company :=
  if nonempty (address c) then c
  else
    let c := if nonempty (text_address h)
             then set_address (Str2.strip (text_address h)) c else c in
    if nonempty (address c)
    then set_state (_extract_state_from_address (address c)) c else c.

(** [# Fallback for phone if not extracted from NUXT] *)
Definition phone_fallback (h : Html) (c : Company) : Company :=
  if nonempty (phone c) then c
  else if nonempty (text_phone h) then set_phone (Str2.strip (text_phone h)) c else c.

(** [# Fallback for website if not extracted from NUXT] *)
Definition website_fallback (h : Html) (c : Company) : Company :=
  if nonempty (website c) then c
  else if nonempty (link_website h) then set_website (link_website h) c else c.

(** [# Fallback for email if not extracted from NUXT]: mailto link first,
    then an email-shaped text match outside the excluded words. *)
Definition email_fallback (h : Html) (c : Company) : Company :=
  if nonempty (email c) then c
  else if nonempty (mailto_email h) then set_email (Str2.strip (mailto_email h)) c
  else if nonempty (text_email h)
          && negb (existsb (fun x => Str.contains x (Str.lower (text_email h)))
                           EXCLUDED_EMAIL)
       then set_email (text_email h) c else c.

(** [# Product Expert - multiple extraction methods] *)
Definition expert_step (h : Html) (c : Company) : Company :=
  match expert h with
  | Some e => set_expert e c
  | None => c
  end.

(** From [nuxt_data = self._extract_from_nuxt_data(html)] to the end of
    [scrape_company_details], for a page with a [soup], in code order. *)
Definition extract_with_soup (h : Html) (c : Company) : Company :=
  let c := apply_nuxt (_extract_from_nuxt_data (blob h) (blob_website h)) c in
  let c := address_fallback h c in
  let c := phone_fallback h c in
  let c := website_fallback h c in
  let c := email_fallback h c in
  expert_step h c.

(** [ARCATScraper.scrape_company_details].  [None] is the [AttributeError]
    raised by [soup.get_text()] when no page was fetched at all (the company
    already has an address and Selenium gave no soup). *)
Definition scrape_company_details (use_selenium : bool) (pg : Page) (c : Company)
  : option Company :=
  let '(c, html_sel) :=
    if use_selenium then
      match sel pg with
      | Some (h, r) => (apply_rendered r c, Some h)
      | None => (c, None)
      end
    else (c, None) in
  if negb (nonempty (address c)) then
    match req pg with
    | None => Some c                       (** [return company] *)
    | Some h => Some (extract_with_soup h c)
    end
  else
    match html_sel with
    | Some h => Some (extract_with_soup h c)
    | None =>
        (* html = "" and soup = None: nothing in the NUXT step, and the first
           fallback that needs [soup] raises *)
        if negb (nonempty (phone c)) || negb (nonempty (website c))
           || negb (nonempty (email c))
        then None else Some c
    end.

(** The address the NUXT step writes, [""] when it writes none. *)
Definition nuxt_full_address (nd : NuxtData) : string :=
  if nonempty (n_address nd) then compose_address nd else "".

(** The markup of the spec's scenario: the quoted fields
    ["123 Oak Rd.","Austin","TX","78701","512-555-0100","info@example.com"]. *)
Definition scenario_blob : list Tok :=
  [TStr "123 Oak Rd."; TStr "Austin"; TStr "TX"; TStr "78701";
   TStr "512-555-0100"; TStr "info@example.com"].

(** The fields no extraction step writes. *)
Definition ident (c : Company) : string * string * string * string :=
  (name c, url c, company_id c, building_product_category c).

(** The product expert fields. *)
Definition experts (c : Company) : string * string * string :=
  (product_expert_name c, product_expert_phone c, product_expert_email c).

(** The state the NUXT step writes. *)
Definition state_of (nd : NuxtData) : string :=
  state_get (Str2.upper (Str2.strip (n_state nd))) (Str2.strip (n_state nd))
    STATE_ABBREV_TO_FULL.

(** The contact fields a detail fetch fills. *)
Definition fields4 (c : Company) : string * string * string * string :=
  (address c, state c, phone c, email c).

End ArcatDetail.

(** * The CSI-only crawl *)

(** [scrape_csi_only] of [arcat_scraper.py] in its default configuration
    ([max_divisions] and [max_companies] unset, Selenium off), with the
    checkpoint file it writes and reads back. *)
Module Orchestrator.
Import Arcat ArcatDetail.

Definition CHECKPOINT_INTERVAL := 10.

(** The checkpoint file, as far as the CSI-only crawl reads it back:
    ["mode"], ["companies_scraped"] and ["divisions"]. *)
Record Checkpoint := mkCheckpoint {
  mode : string;
  companies_scraped : nat;
  ck_divisions : list Division
}.

(** How a run stops before its end: the process is killed (nothing more is
    written), or an exception reaches the [except Exception] clause of
    [scrape_csi_only] (which saves a checkpoint and re-raises). *)
Inductive Stop := HardKill | Raise.

Inductive Status := Finished | Killed | Raised.

Record Outcome := mkOutcome {
  status : Status;
  store : list Division;           (** [scraper.divisions] when the run ends *)
  disk : option Checkpoint;        (** the checkpoint file when the run ends *)
  fetched : list string            (** the detail pages requested, in order *)
}.

(** [u in scraped_company_urls] *)
Definition mem (u : string) (l : list string) : bool := existsb (String.eqb u) l.

(** Cut a flat company list back into the divisions it came from. *)
Fixpoint refill (divs : list Division) (cs : list Company) : list Division :=
  match divs with
  | [] => []
  | d :: ds =>
      let n := length (companies d) in
      with_companies d (firstn n cs) :: refill ds (skipn n cs)
  end.

(** The [scraped_company_urls] set built on resume: the URLs of the restored
    companies that have an address. *)
Definition scraped_urls (divs : list Division) : list string :=
  map url (filter (fun c => nonempty (address c)) (companies_of divs)).

(** [scraper._save_checkpoint("csi-only")] *)
Definition save (divs : list Division) (count : nat) : option Checkpoint :=
  Some (mkCheckpoint "csi-only" count divs).

(** [checkpoint.get('mode') == 'csi-only'] and [_restore_from_checkpoint]:
    the restored divisions, [companies_scraped_count] and
    [scraped_company_urls]. *)
Definition restore (resume : bool) (dsk : option Checkpoint)
  : list Division * nat * list string :=
  match resume, dsk with
  | true, Some ck =>
      if String.eqb (mode ck) "csi-only"
      then (ck_divisions ck, companies_scraped ck, scraped_urls (ck_divisions ck))
      else ([], 0, [])
  | _, _ => ([], 0, [])
  end.

(** One step of the countdown to an early stop. *)
Definition tick (stop : option (nat * Stop)) : option (nat * Stop) :=
  match stop with
  | Some (S n, s) => Some (n, s)
  | x => x
  end.

Section Crawl.

(** The divisions found by [scrape_related_csi_divisions] (no companies). *)
Variable related_csi_divisions : list Division.
(** The listing page of a division URL ([None]: the request failed). *)
Variable listing : string -> option (list Link).
(** The detail page of a company URL. *)
Variable page : string -> Page.
(** [CHECKPOINT_INTERVAL] *)
Variable interval : nat.

(** [if not division.companies: scraper.scrape_division_manufacturers(division)] *)
Definition expand (d : Division) : Division :=
  match companies d with
  | [] => fst (scrape_division_manufacturers (listing (durl d)) d)
  | _ => d
  end.

(** The first pass of [scrape_csi_only]. *)
Definition first_pass (divs : list Division) : list Division := map expand divs.

(** The second pass: the companies of all divisions in order, [done] (in
    reverse) already visited, [todo] still to visit.  [stop] counts down the
    detail fetches left before the run is stopped. *)
Fixpoint detail_loop (divs : list Division) (scraped : list string)
    (done todo : list Company) (count : nat) (dsk : option Checkpoint)
    (log : list string) (stop : option (nat * Stop)) : Outcome :=
  match todo with
  | [] =>
      let st := refill divs (rev done) in
      mkOutcome Finished st (save st count) log
  | c :: rest =>
      if mem (url c) scraped
      then detail_loop divs scraped (c :: done) rest count dsk log stop
      else
        let st := refill divs (app (rev done) todo) in
        match stop with
        | Some (0, HardKill) => mkOutcome Killed st dsk log
        | Some (0, Raise) => mkOutcome Raised st (save st count) log
        | _ =>
            match scrape_company_details false (page (url c)) c with
            | None => mkOutcome Raised st (save st count) log
            | Some c' =>
                let count := S count in
                let dsk :=
                  if Nat.eqb (count mod interval) 0
                  then save (refill divs (app (rev (c' :: done)) rest)) count
                  else dsk in
                detail_loop divs scraped (c' :: done) rest count dsk
                  (app log [url c]) (tick stop)
            end
        end
  end.

(** [scrape_csi_only(scraper, resume=resume)], started with the checkpoint
    file [dsk] on disk. *)
Definition scrape_csi_only (resume : bool) (dsk : option Checkpoint)
    (stop : option (nat * Stop)) : Outcome :=
  let '(divs, count, scraped) := restore resume dsk in
  let divs := match divs with [] => related_csi_divisions | _ => divs end in
  let divs := first_pass divs in
  detail_loop divs scraped [] (companies_of divs) count dsk [] stop.

End Crawl.

(** The company once the second pass has visited it:
    [scrape_company_details] mutates it in place. *)
Definition detailed (page : string -> Page) (c : Company) : Company :=
  match scrape_company_details false (page (url c)) c with
  | Some c' => c'
  | None => c
  end.

(** A company visited by the second pass of a resumed run. *)
Definition resume_step (page : string -> Page) (scraped : list string) (c : Company)
  : Company :=
  if mem (url c) scraped then c else detailed page c.

(** The spec's scenario: one division whose listing names three companies. *)
Definition scenario_division : Division :=
  mkDivision "02 00 00" "EXISTING CONDITIONS"
    "https://www.arcat.com/content-type/product/existing-conditions-02/existing-conditions-020000" [].

Definition scenario_listing (u : string) : option (list Link) :=
  Some [mkLink "/company/alpha-1" "Alpha Inc"; mkLink "/company/beta-2" "Beta LLC";
        mkLink "/company/gamma-3" "Gamma Co"].

(** Every detail page carries the scenario's serialized data. *)
Definition scenario_page (u : string) : Page :=
  mkPage None (Some (mkHtml scenario_blob "" "" "" "" "" "" None)).

(** The same, except that the first company's page has no usable data. *)
Definition bare_first_page (u : string) : Page :=
  if String.eqb u "https://www.arcat.com/company/alpha-1"
  then mkPage None (Some (mkHtml [] "" "" "" "" "" "" None))
  else scenario_page u.

(** A second division, and a listing that names the same company. *)
Definition scenario_division2 : Division :=
  mkDivision "03 00 00" "CONCRETE"
    "https://www.arcat.com/content-type/product/concrete-03/concrete-030000" [].

Definition acme_listing (u : string) : option (list Link) :=
  Some [mkLink "/company/acme-1" "Acme Corp"].

End Orchestrator.

(** ** Expansion of a category node: ARCAT [scrape_category_subcategories]
    and SWEETS [scrape_division_sections], with the guards of their callers *)
Module Expand.
Import Str Str2.

(** The [seen_urls] loop: a link whose key was already seen is skipped
    ([continue]); the others are kept in order. *)
Fixpoint first_seen {A} (key : A -> string) (seen : list string) (l : list A) : list A :=
  match l with
  | [] => []
  | x :: rest =>
      if existsb (String.eqb (key x)) seen then first_seen key seen rest
      else x :: first_seen key (key x :: seen) rest
  end.

(** [href.split('/')[-1]] *)
Fixpoint last_segment_aux (cur s : string) : string :=
  match s with
  | EmptyString => cur
  | String c t =>
      if Ascii.eqb c "/" then last_segment_aux "" t
      else last_segment_aux (cur ++ String c "") t
  end.

Definition last_segment (s : string) : string := last_segment_aux "" s.

(** [s.replace(a, b)] for single characters. *)
Fixpoint replace_char (a b : ascii) (s : string) : string :=
  match s with
  | EmptyString => EmptyString
  | String c t => String (if Ascii.eqb c a then b else c) (replace_char a b t)
  end.

(** [s.title()] on ASCII text: a letter is upper-cased after a non-letter and
    lower-cased after a letter. *)
Fixpoint title_aux (prev_cased : bool) (s : string) : string :=
  match s with
  | EmptyString => EmptyString
  | String c t =>
      let c' := if is_alpha c then (if prev_cased then lower_char c else upper_char c)
                else c in
      String c' (title_aux (is_alpha c) t)
  end.

Definition title (s : string) : string := title_aux false s.

Module ArcatCategory.

(** A [{'name': ..., 'url': ...}] entry. *)
Record NamedLink := mkNamedLink { nl_name : string; nl_url : string }.

(** The [BuildingProductCategory] dataclass. *)
Record BuildingProductCategory := mkCategory {
  cat_name : string;
  cat_url : string;
  subcategories : list NamedLink;
  related_csi_divisions : list NamedLink;
  cat_companies : list Arcat.Company
}.

(** A category page: the [href]s of
    [soup.find_all('a', href=re.compile(r'^/manufacturers/[a-z_-]+$'))], and
    the [(href, get_text(strip=True))] of the links matched by
    [r'/content-type/spec/[\w-]+-\d+$'], in document order. *)
Record CategoryPage := mkCategoryPage {
  subcategory_hrefs : list string;
  csi_links : list (string * string)
}.

(** [href.split('/')[-1].replace('_', ' ').replace('-', ' ').title()] *)
Definition subcategory_name (href : string) : string :=
  title (replace_char "-" " " (replace_char "_" " " (last_segment href))).

(** [ARCATScraper.scrape_category_subcategories]; [None] is a failed
    [_make_request] ([return category]). *)
Definition scrape_category_subcategories (soup : option CategoryPage)
    (category : BuildingProductCategory) : BuildingProductCategory :=
  match soup with
  | None => category
  | Some pg =>
      let subs := map (fun href => mkNamedLink (subcategory_name href) (Arcat.BASE_URL ++ href))
                      (first_seen (fun h => h) [] (subcategory_hrefs pg)) in
      let csis := map (fun '(href, text) => mkNamedLink text (Arcat.BASE_URL ++ href))
                      (first_seen fst [] (csi_links pg)) in
      mkCategory (cat_name category) (cat_url category)
        (app (subcategories category) subs)
        (app (related_csi_divisions category) csis)
        (cat_companies category)
  end.

(** The caller in [scrape_all]:
    [if not category.subcategories: self.scrape_category_subcategories(category)]. *)
Definition expand_category (soup : option CategoryPage) (category : BuildingProductCategory)
  : BuildingProductCategory :=
  match subcategories category with
  | [] => scrape_category_subcategories soup category
  | _ => category
  end.

End ArcatCategory.

Module SweetsDivision.

Definition BASE_URL := "https://sweets.construction.com".

(** The [Section] dataclass ([products]: the section's products, by URL). *)
Record MFSection := mkMFSection {
  s_code : string;
  s_name : string;
  s_url : string;
  s_item_count : nat;
  products : list string
}.

(** The SWEETS [Division] dataclass. *)
Record Division := mkDivision {
  code : string;
  name : string;
  url : string;
  item_count : nat;
  sections : list MFSection
}.

(** One link of [soup.find_all('a', href=re.compile(r'/masterformat/[\w-]+/[\w.%-]+'))]:
    its [href], the two groups of the code/name [re.match] on its text
    ([None]: no match), and the trailing number of its parent's text
    ([0] when there is none). *)
Record SectionLink := mkSectionLink {
  href : string;
  parsed : option (string * string);
  parent_count : nat
}.

(** The sections the loop of [scrape_division_sections] appends, in order. *)
Definition found_sections (links : list SectionLink) : list MFSection :=
  flat_map (fun l =>
              match parsed l with
              | Some (c, n) => [mkMFSection c (strip n) (BASE_URL ++ href l) (parent_count l) []]
              | None => []
              end)
           (first_seen href [] links).

(** [SWEETSScraper.scrape_division_sections]; [None] is a failed
    [_make_request] ([return division]). *)
Definition scrape_division_sections (soup : option (list SectionLink)) (division : Division)
  : Division :=
  match soup with
  | None => division
  | Some links =>
      mkDivision (code division) (name division) (url division) (item_count division)
        (app (sections division) (found_sections links))
  end.

(** The caller in [scrape_all]:
    [if not division.sections: self.scrape_division_sections(division)]. *)
Definition expand_division (soup : option (list SectionLink)) (division : Division) : Division :=
  match sections division with
  | [] => scrape_division_sections soup division
  | _ => division
  end.

End SweetsDivision.

(** A category page naming one subcategory and one related CSI division. *)
Definition roofing_page : ArcatCategory.CategoryPage :=
  ArcatCategory.mkCategoryPage ["/manufacturers/roof_coatings"]
    [("/content-type/spec/thermal-and-moisture-protection-07", "07 - Thermal and Moisture Protection")].

Definition roofing : ArcatCategory.BuildingProductCategory :=
  ArcatCategory.mkCategory "Roofing" "https://www.arcat.com/products/roofing" [] [] [].

(** A division page naming one section. *)
Definition masonry_links : list SweetsDivision.SectionLink :=
  [SweetsDivision.mkSectionLink "/masterformat/masonry-04-00-00/granite--04-40-00.17"
     (Some ("04 40 00.17", "Granite ")) 12].

Definition masonry : SweetsDivision.Division :=
  SweetsDivision.mkDivision "04 00 00" "Masonry"
    "https://sweets.construction.com/masterformat/masonry-04-00-00" 0 [].

End Expand.

(** ** ARCAT listing pages: [scrape_manufacturers_page], the company part of
    [scrape_division_specs], [scrape_related_csi_divisions] and
    [scrape_building_product_categories] *)
Module ArcatListings.
Import Arcat Expand.

(** [re.search(r'-(\d+)$', href)]: the digits, when a ['-'] is followed by a
    run of digits that ends the string (or stands before a final newline). *)
Fixpoint id_end (s : string) : option string :=
  match s with
  | EmptyString => None
  | String c t =>
      let here :=
        if Ascii.eqb c "-" then
          let '(d, r) := digit_run t in
          match d, r with
          | EmptyString, _ => None
          | _, EmptyString => Some d
          | _, String n EmptyString => if Ascii.eqb n "010" then Some d else None
          | _, _ => None
          end
        else None in
      match here with Some d => Some d | None => id_end t end
  end.

(** [company_id = id_match.group(1) if id_match else ""] *)
Definition company_id_of (h : string) : string :=
  match id_end h with Some d => d | None => "" end.

(** One iteration of the [for link in company_links] loop shared by
    [scrape_manufacturers_page] and [scrape_division_specs]: the dict
    [seen_companies] keyed by the raw [href], and [skipped_associations]. *)
Definition page_company_step (cat : string) (st : ListingState) (l : Link) : ListingState :=
  let '(seen, skipped) := st in
  let h := href l in
  let company_name := text l in
  if String.eqb company_name "" || seen_mem h seen then st
  else if _is_association company_name then (seen, S skipped)
  else (app seen [(h, new_company company_name (full_url h) (company_id_of h) cat)], skipped).

Definition page_company_loop (cat : string) (links : list Link) : ListingState :=
  fold_left (page_company_step cat) links ([], 0).

(** The links the loop does not drop for their text: a non-empty name that
    is not an association's. *)
Definition page_keep (l : Link) : bool :=
  negb (String.eqb (text l) "") && negb (_is_association (text l)).

(** The [Company(...)] the loop builds from a link. *)
Definition page_company (cat : string) (l : Link) : Company :=
  new_company (text l) (full_url (href l)) (company_id_of (href l)) cat.

(** [ARCATScraper.scrape_manufacturers_page(subcategory_url, category_name)];
    [None] is a failed [_make_request] ([return []]). *)
Definition scrape_manufacturers_page (soup : option (list Link)) (category_name : string)
  : list Company :=
  match soup with
  | None => []
  | Some links => map snd (fst (page_company_loop category_name links))
  end.

(** [ARCATScraper.scrape_division_specs], its company part:
    [division.companies = list(seen_companies.values())].  (The
    specifications it then collects from a [set] of codes are not part of
    the model.) *)
Definition scrape_division_specs (soup : option (list Link)) (division : Division) : Division :=
  match soup with
  | None => division
  | Some links => with_companies division (map snd (fst (page_company_loop "" links)))
  end.

(** [str.zfill(width)] on a string without sign. *)
Definition zfill (width : nat) (s : string) : string :=
  let fix zeros n := match n with 0 => "" | S k => String "0" (zeros k) end in
  zeros (width - String.length s) ++ s.

(** A link of [soup.find_all('a', href=re.compile(r'/content-type/product/[\w-]+-\d+/[\w-]+-\d+'))]:
    its [href] and the two groups of [re.match(r'^(\d+)\s*-\s*(.+)$', text)]
    on its text ([None]: no match). *)
Record CsiLink := mkCsiLink { csi_href : string; csi_parsed : option (string * string) }.

(** [ARCATScraper.scrape_related_csi_divisions]; [None] is a failed
    [_make_request] ([return []]). *)
Definition scrape_related_csi_divisions (soup : option (list CsiLink)) : list Division :=
  match soup with
  | None => []
  | Some links =>
      flat_map (fun l =>
                  match csi_parsed l with
                  | Some (c, n) =>
                      [mkDivision (zfill 2 c ++ " 00 00") (Str2.strip n) (BASE_URL ++ csi_href l) []]
                  | None => []
                  end)
               (first_seen csi_href [] links)
  end.

Definition CATEGORIES_PAGE := "/products/building_products_categories".

(** [ARCATScraper.scrape_building_product_categories]: the [href]s of
    [soup.find_all('a', href=re.compile(r'^/products/[a-z_]+$'))];
    [None] is a failed [_make_request] ([return []]). *)
Fixpoint categories_loop (seen : list string) (hrefs : list string)
  : list ArcatCategory.BuildingProductCategory :=
  match hrefs with
  | [] => []
  | h :: rest =>
      if existsb (String.eqb h) seen || String.eqb h CATEGORIES_PAGE
      then categories_loop seen rest
      else ArcatCategory.mkCategory (title (replace_char "_" " " (last_segment h)))
             (BASE_URL ++ h) [] [] []
           :: categories_loop (h :: seen) rest
  end.

Definition scrape_building_product_categories (soup : option (list string))
  : list ArcatCategory.BuildingProductCategory :=
  match soup with
  | None => []
  | Some hrefs => categories_loop [] hrefs
  end.

End ArcatListings.

(** ** ARCAT checkpoint file: [_save_checkpoint] and [_restore_from_checkpoint] *)
Module ArcatCheckpoint.
Import ZArith Arcat Expand.ArcatCategory.

(** A JSON value, as [json.dump] writes it and [json.load] reads it back. *)
#[warnings="-register-all"]
Inductive Json :=
| JNull
| JBool (b : bool)
| JNum (n : Z)
| JStr (s : string)
| JArr (l : list Json)
| JObj (kvs : list (string * Json)).

(** [d[k]] on the dict [json.load] builds (the last binding of a key wins). *)
Definition lookup (k : string) (kvs : list (string * Json)) : option Json :=
  match find (fun p => String.eqb (fst p) k) (rev kvs) with
  | Some (_, v) => Some v
  | None => None
  end.

(** [map] with a step that may raise: [None] is the first exception. *)
Fixpoint map_opt {A B} (f : A -> option B) (l : list A) : option (list B) :=
  match l with
  | [] => Some []
  | a :: rest =>
      match f a, map_opt f rest with
      | Some b, Some bs => Some (b :: bs)
      | _, _ => None
      end
  end.

(** The [Specification] dataclass (its [company] is always [None]). *)
Record Specification := mkSpecification { csi_code : string; spec_title : string; spec_division : string }.

(** A [Division] of the scraper with its [specifications]. *)
Record SDivision := mkSDivision { div : Division; specifications : list Specification }.

(** The part of an [ARCATScraper] the checkpoint concerns.  ([Company.products]
    is never filled by the scraper and is left out.) *)
Record ScraperState := mkState {
  divisions : list SDivision;
  building_product_categories : list BuildingProductCategory;
  companies_scraped_count : Z
}.

Definition company_json (c : Company) : Json :=
  JObj [("name", JStr (name c)); ("url", JStr (url c)); ("company_id", JStr (company_id c));
        ("address", JStr (address c)); ("state", JStr (state c)); ("phone", JStr (phone c));
        ("website", JStr (website c)); ("email", JStr (email c));
        ("product_expert_name", JStr (product_expert_name c));
        ("product_expert_phone", JStr (product_expert_phone c));
        ("product_expert_email", JStr (product_expert_email c));
        ("building_product_category", JStr (building_product_category c))].

Definition link_json (l : NamedLink) : Json :=
  JObj [("name", JStr (nl_name l)); ("url", JStr (nl_url l))].

Definition division_json (d : SDivision) : Json :=
  JObj [("code", JStr (code (div d))); ("name", JStr (dname (div d)));
        ("url", JStr (durl (div d))); ("companies", JArr (map company_json (companies (div d))))].

Definition category_json (c : BuildingProductCategory) : Json :=
  JObj [("name", JStr (cat_name c)); ("url", JStr (cat_url c));
        ("subcategories", JArr (map link_json (subcategories c)));
        ("related_csi_divisions", JArr (map link_json (related_csi_divisions c)));
        ("companies", JArr (map company_json (cat_companies c)))].

(** [ARCATScraper._save_checkpoint(mode)]: the JSON document written to the
    checkpoint file ([timestamp] is [datetime.now().isoformat()]). *)
Definition _save_checkpoint (timestamp mode : string) (st : ScraperState) : Json :=
  JObj [("timestamp", JStr timestamp); ("mode", JStr mode);
        ("companies_scraped", JNum (companies_scraped_count st));
        ("divisions", JArr (map division_json (divisions st)));
        ("building_product_categories", JArr (map category_json (building_product_categories st)));
        ("division_progress",
          JObj [("current_division_index", JNum 0); ("current_company_index", JNum 0);
                ("completed_divisions", JArr [])]);
        ("category_progress",
          JObj [("current_category_index", JNum 0); ("current_subcategory_index", JNum 0);
                ("current_company_index", JNum 0); ("completed_categories", JArr [])])].

(** [d[k]] for a string value.  [None]: a [KeyError] (or a value of another
    JSON type, which the model does not carry). *)
Definition get_str (k : string) (kvs : list (string * Json)) : option string :=
  match lookup k kvs with Some (JStr s) => Some s | _ => None end.

(** [d.get(k, "")] for a string value. *)
Definition get_str_default (k : string) (kvs : list (string * Json)) : option string :=
  match lookup k kvs with None => Some "" | Some (JStr s) => Some s | Some _ => None end.

(** [d.get(k, [])] for a list value. *)
Definition get_list (k : string) (kvs : list (string * Json)) : option (list Json) :=
  match lookup k kvs with None => Some [] | Some (JArr l) => Some l | Some _ => None end.

(** The [Company(name=comp_data["name"], ..., building_product_category=comp_data.get(..., ""))]
    of [_restore_from_checkpoint]. *)
Definition restore_company (j : Json) : option Company :=
  match j with
  | JObj o =>
      match get_str "name" o, get_str "url" o, get_str_default "company_id" o,
            get_str_default "address" o, get_str_default "state" o, get_str_default "phone" o,
            get_str_default "website" o, get_str_default "email" o,
            get_str_default "product_expert_name" o, get_str_default "product_expert_phone" o,
            get_str_default "product_expert_email" o,
            get_str_default "building_product_category" o with
      | Some n, Some u, Some i, Some a, Some s, Some p, Some w, Some e,
        Some en, Some ep, Some ee, Some cat =>
          Some (mkCompany n u i a s p w e en ep ee cat)
      | _, _, _, _, _, _, _, _, _, _, _, _ => None
      end
  | _ => None
  end.

(** A [{'name': ..., 'url': ...}] entry, kept by the code as the dict it
    reads. *)
Definition restore_link (j : Json) : option NamedLink :=
  match j with
  | JObj o =>
      match get_str "name" o, get_str "url" o with
      | Some n, Some u => Some (mkNamedLink n u)
      | _, _ => None
      end
  | _ => None
  end.

Definition restore_division (j : Json) : option SDivision :=
  match j with
  | JObj o =>
      match get_str "code" o, get_str "name" o, get_str "url" o, get_list "companies" o with
      | Some c, Some n, Some u, Some cs =>
          match map_opt restore_company cs with
          | Some comps => Some (mkSDivision (mkDivision c n u comps) [])
          | None => None
          end
      | _, _, _, _ => None
      end
  | _ => None
  end.

Definition restore_category (j : Json) : option BuildingProductCategory :=
  match j with
  | JObj o =>
      match get_str "name" o, get_str "url" o, get_list "subcategories" o,
            get_list "related_csi_divisions" o, get_list "companies" o with
      | Some n, Some u, Some subs, Some rel, Some cs =>
          match map_opt restore_link subs, map_opt restore_link rel,
                map_opt restore_company cs with
          | Some subs', Some rel', Some comps => Some (mkCategory n u subs' rel' comps)
          | _, _, _ => None
          end
      | _, _, _, _, _ => None
      end
  | _ => None
  end.

(** [ARCATScraper._restore_from_checkpoint(checkpoint_data)]: the restored
    divisions and categories are appended to those of the scraper, and the
    counter is replaced.  [None]: an exception is raised. *)
Definition _restore_from_checkpoint (st : ScraperState) (j : Json) : option ScraperState :=
  match j with
  | JObj o =>
      match get_list "divisions" o, get_list "building_product_categories" o with
      | Some ds, Some cs =>
          match map_opt restore_division ds, map_opt restore_category cs with
          | Some ds', Some cs' =>
              let count := match lookup "companies_scraped" o with
                           | Some (JNum n) => Some n
                           | None => Some 0%Z
                           | Some _ => None
                           end in
              match count with
              | Some n => Some (mkState (app (divisions st) ds')
                                        (app (building_product_categories st) cs') n)
              | None => None
              end
          | _, _ => None
          end
      | _, _ => None
      end
  | _ => None
  end.

(** A division as the checkpoint gives it back: without specifications. *)
Definition without_specifications (d : SDivision) : SDivision := mkSDivision (div d) [].

(** A checkpoint whose only division has a company without a [url]. *)
Definition bad_checkpoint : Json :=
  JObj [("divisions", JArr [JObj [("code", JStr "07"); ("name", JStr "Roofing");
          ("url", JStr "https://www.arcat.com/divisions/07");
          ("companies", JArr [JObj [("name", JStr "Acme")]])]])].

End ArcatCheckpoint.

(** ** [ProgressTracker] as a stateful object: [start], [update] and
    [get_progress_bar] *)
Module ProgressOps.
Import ZArith QArith Qround Progress.

(** All attributes of a [ProgressTracker]; [None] stands for Python's
    [None]. *)
Record Tracker := mkT {
  progress : ProgressTracker;
  start_time : option Q;
  last_update_time : option Q
}.

(** [ProgressTracker.start(total)], with the two [time.time()] readings it
    takes. *)
Definition start (now1 now2 : Q) (total : Z) (t : Tracker) : Tracker :=
  mkT (mkTracker total 0 []) (Some now1) (Some now2).

(** [l[-n:]] *)
Definition keep_last (n : nat) (l : list Q) : list Q := skipn (length l - n) l.

(** [ProgressTracker.update(count)] at time [now] ([if self.last_update_time:]
    is false for [None] and for [0.0]). *)
Definition update (now : Q) (count : Z) (t : Tracker) : Tracker :=
  let p := progress t in
  let times :=
    match last_update_time t with
    | Some last =>
        if Qeq_bool last 0 then scrape_times p
        else
          let ts := app (scrape_times p) [now - last] in
          if Nat.ltb 100 (length ts) then keep_last 100 ts else ts
    | None => scrape_times p
    end in
  mkT (mkTracker (total_companies p) (scraped_companies p + count) times)
      (start_time t) (Some now).

(** A sequence of [update(count)] calls, each with its clock reading. *)
Definition updates (evs : list (Q * Z)) (t : Tracker) : Tracker :=
  fold_left (fun t e => update (fst e) (snd e) t) evs t.

(** The durations between consecutive clock readings. *)
Fixpoint diffs (prev : Q) (ts : list Q) : list Q :=
  match ts with
  | [] => []
  | x :: rest => (x - prev) :: diffs x rest
  end.

Definition sumZ (l : list Z) : Z := fold_right Z.add 0%Z l.

(** Python's [int(x)] on a float: truncation toward zero. *)
Definition py_int (q : Q) : Z := if Qle_bool 0 q then Qfloor q else (- Qfloor (- q))%Z.

(** A cell of the text bar: ["█"] or ["░"]. *)
Inductive Cell := Full | Blank.

(** [ProgressTracker.get_progress_bar(width)]: the cells between the
    brackets and the percentage printed after them (["█" * n] is empty when
    [n <= 0]). *)
Definition get_progress_bar (width : Z) (t : ProgressTracker) : option (list Cell * Q) :=
  match get_percentage t with
  | Some percentage =>
      let filled := py_int (inject_Z width * percentage / 100) in
      Some (app (repeat Full (Z.to_nat filled)) (repeat Blank (Z.to_nat (width - filled))),
            percentage)
  | None => None
  end.

End ProgressOps.

(** ** The progress total of [scrape_csi_only] *)
Module CsiProgress.
Import Arcat Orchestrator.

(** The first pass of [scrape_csi_only] counts, per division, the companies
    whose URL is not in [scraped_company_urls]:
    [total_companies += len([c for c in companies if c.url not in scraped_company_urls])]. *)
Definition csi_total (scraped : list string) (divs : list Division) : nat :=
  fold_left (fun total d =>
               total + length (filter (fun c => negb (mem (url c) scraped)) (companies d)))
            divs 0.

End CsiProgress.

(** ** SWEETS [_make_request_raw]: the request for raw HTML *)
Module SweetsFetch.
Import Fetch.

Section MakeRequestRaw.
Variable max_retries : nat.
Variable retry_delay_base : nat.
Variable resp : nat -> Attempt.

(** The [for attempt in range(MAX_RETRIES)] loop of [_make_request_raw]:
    only [requests.exceptions.Timeout] is retried; a [ConnectionError] is
    caught by [except requests.RequestException] and ends the request. *)
Fixpoint raw_loop (todo : list nat) : option string * list Event :=
  match todo with
  | [] => (None, [])
  | attempt :: rest =>
      let pre := [SleepRequestDelay; Get attempt] in
      match resp attempt with
      | Ok body => (Some body, pre)
      | Timeout =>
          let retry_delay := retry_delay_base * 2 ^ attempt in
          if Nat.ltb attempt (max_retries - 1) then
            let '(r, ev) := raw_loop rest in
            (r, app pre (SleepBackoff retry_delay :: ev))
          else (None, pre)
      | ConnectionError | OtherRequestException => (None, pre)
      end
  end.

(** [_make_request_raw(url)] *)
Definition _make_request_raw : option string * list Event :=
  raw_loop (seq 0 max_retries).

End MakeRequestRaw.

(** A [ConnectionError] treated as any other [RequestException]. *)
Definition demote_connection_error (a : Attempt) : Attempt :=
  match a with
  | ConnectionError => OtherRequestException
  | a => a
  end.

End SweetsFetch.

(** ** SWEETS products: [scrape_section_products] and the checkpoint file *)
Module SweetsModel.
Import ZArith Str Str2 Expand ArcatCheckpoint.

Definition BASE_URL := SweetsDivision.BASE_URL.

(** The [Product] dataclass. *)
Record Product := mkProduct {
  name : string;
  url : string;
  manufacturer_name : string;
  manufacturer_id : string;
  address : string;
  city : string;
  state : string;
  zip_code : string;
  phone : string;
  fax : string;
  email : string;
  website : string;
  division_code : string;
  division_name : string;
  section_code : string;
  section_name : string;
  category : string;
  masterformat : string;
  has_3part_spec : bool;
  has_bim : bool;
  has_cad : bool;
  has_ceu : bool;
  has_catalog : bool;
  has_data_sheet : bool;
  has_gallery : bool;
  has_green : bool;
  has_product_selector : bool;
  has_supporting_material : bool;
  count_3part_spec : Z;
  count_bim : Z;
  count_cad : Z;
  count_ceu : Z;
  count_catalog : Z;
  count_gallery : Z;
  count_green : Z;
  count_other : Z;
  count_total : Z;
  description : string
}.

(** [Product(name=..., url=..., manufacturer_name=..., manufacturer_id=...,
    division_code=..., division_name=..., section_code=..., section_name=...)]:
    the other fields keep their defaults. *)
Definition new_product (n u mname mid dcode dname scode sname : string) : Product :=
  mkProduct n u mname mid "" "" "" "" "" "" "" "" dcode dname scode sname "" ""
    false false false false false false false false false false
    0 0 0 0 0 0 0 0 0 "".

(** The [Section] dataclass, with its products. *)
Record Section := mkSection {
  sec_code : string;
  sec_name : string;
  sec_url : string;
  sec_item_count : Z;
  sec_products : list Product
}.

(** The SWEETS [Division] dataclass, with its sections. *)
Record Division := mkDivision {
  div_code : string;
  div_name : string;
  div_url : string;
  div_item_count : Z;
  div_sections : list Section
}.

(** One link of [soup.find_all('a', href=re.compile(r'/manufacturer/[\w-]+/products/[\w-]+'))]:
    its [href] ([link.get('href', '')]) and [link.get_text(strip=True)]. *)
Record ProductLink := mkProductLink { p_href : string; p_text : string }.

(** [\w] or [-] on ASCII text. *)
Definition is_word (c : ascii) : bool :=
  is_alpha c || is_digit c || Ascii.eqb c "_" || Ascii.eqb c "-".

Fixpoint take_while (p : ascii -> bool) (s : string) : string :=
  match s with
  | String c t => if p c then String c (take_while p t) else EmptyString
  | EmptyString => EmptyString
  end.

Fixpoint drop_while (p : ascii -> bool) (s : string) : string :=
  match s with
  | String c t => if p c then drop_while p t else s
  | EmptyString => EmptyString
  end.

(** [re.search(r'/manufacturer/([\w-]+)/products/', href)]: group 1 of the
    leftmost match ([[\w-]+] cannot stop early, since the next character must
    be a slash). *)
Fixpoint manufacturer_id_search (s : string) : option string :=
  let here :=
    if prefix "/manufacturer/" s
    then let rest := substring 14 (String.length s - 14) s in
         let g := take_while is_word rest in
         if negb (String.eqb g "") && prefix "/products/" (drop_while is_word rest)
         then Some g else None
    else None in
  match here with
  | Some g => Some g
  | None =>
      match s with
      | String _ t => manufacturer_id_search t
      | EmptyString => None
      end
  end.

(** [text.split(" - ", 1)] when [" - " in text]: the text before and after
    the first separator. *)
Fixpoint split_once (sep s : string) : option (string * string) :=
  if prefix sep s then Some ("", substring (String.length sep) (String.length s - String.length sep) s)
  else
    match s with
    | String c t =>
        match split_once sep t with
        | Some (a, b) => Some (String c a, b)
        | None => None
        end
    | EmptyString => None
    end.

(** The product built from a link kept by the loop. *)
Definition link_product (section : Section) (division : Division) (l : ProductLink) : Product :=
  let href := p_href l in
  let text := p_text l in
  let '(manufacturer_name, product_name) :=
    match split_once " - " text with
    | Some (a, b) => (strip a, strip b)
    | None => ("", text)
    end in
  let mid := match manufacturer_id_search href with Some g => g | None => "" end in
  new_product product_name (BASE_URL ++ href) manufacturer_name mid
    (div_code division) (div_name division) (sec_code section) (sec_name section).

(** One iteration of [for link in product_links]: [seen_urls] and the
    products appended so far. *)
Definition product_step (section : Section) (division : Division)
    (st : list string * list Product) (l : ProductLink) : list string * list Product :=
  let '(seen_urls, found) := st in
  let href := p_href l in
  let base_href := before "?" href in
  if String.eqb href "" || existsb (String.eqb base_href) seen_urls then st
  else if String.eqb (p_text l) "" then st
  else (base_href :: seen_urls, app found [link_product section division l]).

(** [SWEETSScraper.scrape_section_products(section, division)]; [None] is a
    failed [_make_request] ([return section]). *)
Definition scrape_section_products (soup : option (list ProductLink)) (section : Section)
    (division : Division) : Section :=
  match soup with
  | None => section
  | Some links =>
      let found := snd (fold_left (product_step section division) links ([], [])) in
      mkSection (sec_code section) (sec_name section) (sec_url section)
        (sec_item_count section) (app (sec_products section) found)
  end.

(** The links the loop keeps: a non-empty [href] and a non-empty text. *)
Definition product_keep (l : ProductLink) : bool :=
  negb (String.eqb (p_href l) "") && negb (String.eqb (p_text l) "").

(** The state of a [SWEETSScraper] the checkpoint concerns. *)
Record SweetsState := mkSweetsState {
  divisions : list Division;
  products_scraped_count : Z
}.

Definition product_json (p : Product) : Json :=
  JObj [("name", JStr (name p)); ("url", JStr (url p));
        ("manufacturer_name", JStr (manufacturer_name p));
        ("manufacturer_id", JStr (manufacturer_id p));
        ("address", JStr (address p)); ("city", JStr (city p)); ("state", JStr (state p));
        ("zip_code", JStr (zip_code p)); ("phone", JStr (phone p)); ("fax", JStr (fax p));
        ("email", JStr (email p)); ("website", JStr (website p));
        ("division_code", JStr (division_code p)); ("division_name", JStr (division_name p));
        ("section_code", JStr (section_code p)); ("section_name", JStr (section_name p));
        ("category", JStr (category p)); ("masterformat", JStr (masterformat p));
        ("has_3part_spec", JBool (has_3part_spec p)); ("has_bim", JBool (has_bim p));
        ("has_cad", JBool (has_cad p)); ("has_ceu", JBool (has_ceu p));
        ("has_catalog", JBool (has_catalog p)); ("has_data_sheet", JBool (has_data_sheet p));
        ("has_gallery", JBool (has_gallery p)); ("has_green", JBool (has_green p));
        ("has_product_selector", JBool (has_product_selector p));
        ("has_supporting_material", JBool (has_supporting_material p));
        ("count_3part_spec", JNum (count_3part_spec p)); ("count_bim", JNum (count_bim p));
        ("count_cad", JNum (count_cad p)); ("count_ceu", JNum (count_ceu p));
        ("count_catalog", JNum (count_catalog p)); ("count_gallery", JNum (count_gallery p));
        ("count_green", JNum (count_green p)); ("count_other", JNum (count_other p));
        ("count_total", JNum (count_total p)); ("description", JStr (description p))].

Definition section_json (s : Section) : Json :=
  JObj [("code", JStr (sec_code s)); ("name", JStr (sec_name s)); ("url", JStr (sec_url s));
        ("item_count", JNum (sec_item_count s));
        ("products", JArr (map product_json (sec_products s)))].

Definition division_json (d : Division) : Json :=
  JObj [("code", JStr (div_code d)); ("name", JStr (div_name d)); ("url", JStr (div_url d));
        ("item_count", JNum (div_item_count d));
        ("sections", JArr (map section_json (div_sections d)))].

(** [SWEETSScraper._save_checkpoint()]: the JSON document written. *)
Definition _save_checkpoint (timestamp : string) (st : SweetsState) : Json :=
  JObj [("timestamp", JStr timestamp);
        ("products_scraped", JNum (products_scraped_count st));
        ("divisions", JArr (map division_json (divisions st)))].

(** [d.get(k, False)] for a boolean value. *)
Definition get_bool_default (k : string) (kvs : list (string * Json)) : option bool :=
  match lookup k kvs with None => Some false | Some (JBool b) => Some b | Some _ => None end.

(** [d.get(k, 0)] for an integer value. *)
Definition get_int_default (k : string) (kvs : list (string * Json)) : option Z :=
  match lookup k kvs with None => Some 0%Z | Some (JNum n) => Some n | Some _ => None end.

Local Notation "'let*' x ':=' e 'in' k" :=
  (match e with Some x => k | None => None end)
  (at level 200, x name, e at level 100, k at level 200).

Definition restore_product (j : Json) : option Product :=
  match j with
  | JObj o =>
      let* n := get_str "name" o in
      let* u := get_str "url" o in
      let* mname := get_str_default "manufacturer_name" o in
      let* mid := get_str_default "manufacturer_id" o in
      let* addr := get_str_default "address" o in
      let* cty := get_str_default "city" o in
      let* st := get_str_default "state" o in
      let* zip := get_str_default "zip_code" o in
      let* ph := get_str_default "phone" o in
      let* fx := get_str_default "fax" o in
      let* em := get_str_default "email" o in
      let* web := get_str_default "website" o in
      let* dcode := get_str_default "division_code" o in
      let* dname := get_str_default "division_name" o in
      let* scode := get_str_default "section_code" o in
      let* sname := get_str_default "section_name" o in
      let* cat := get_str_default "category" o in
      let* mf := get_str_default "masterformat" o in
      let* h1 := get_bool_default "has_3part_spec" o in
      let* h2 := get_bool_default "has_bim" o in
      let* h3 := get_bool_default "has_cad" o in
      let* h4 := get_bool_default "has_ceu" o in
      let* h5 := get_bool_default "has_catalog" o in
      let* h6 := get_bool_default "has_data_sheet" o in
      let* h7 := get_bool_default "has_gallery" o in
      let* h8 := get_bool_default "has_green" o in
      let* h9 := get_bool_default "has_product_selector" o in
      let* h10 := get_bool_default "has_supporting_material" o in
      let* c1 := get_int_default "count_3part_spec" o in
      let* c2 := get_int_default "count_bim" o in
      let* c3 := get_int_default "count_cad" o in
      let* c4 := get_int_default "count_ceu" o in
      let* c5 := get_int_default "count_catalog" o in
      let* c6 := get_int_default "count_gallery" o in
      let* c7 := get_int_default "count_green" o in
      let* c8 := get_int_default "count_other" o in
      let* c9 := get_int_default "count_total" o in
      let* descr := get_str_default "description" o in
      Some (mkProduct n u mname mid addr cty st zip ph fx em web dcode dname scode sname cat mf
              h1 h2 h3 h4 h5 h6 h7 h8 h9 h10 c1 c2 c3 c4 c5 c6 c7 c8 c9 descr)
  | _ => None
  end.

Definition restore_section (j : Json) : option Section :=
  match j with
  | JObj o =>
      let* c := get_str "code" o in
      let* n := get_str "name" o in
      let* u := get_str "url" o in
      let* ic := get_int_default "item_count" o in
      let* ps := get_list "products" o in
      let* prods := map_opt restore_product ps in
      Some (mkSection c n u ic prods)
  | _ => None
  end.

Definition restore_division (j : Json) : option Division :=
  match j with
  | JObj o =>
      let* c := get_str "code" o in
      let* n := get_str "name" o in
      let* u := get_str "url" o in
      let* ic := get_int_default "item_count" o in
      let* ss := get_list "sections" o in
      let* secs := map_opt restore_section ss in
      Some (mkDivision c n u ic secs)
  | _ => None
  end.

(** [SWEETSScraper._restore_from_checkpoint(checkpoint_data)]: the restored
    divisions are appended, the counter is replaced.  [None]: an exception is
    raised (or a value of a JSON type the model does not carry). *)
Definition _restore_from_checkpoint (st : SweetsState) (j : Json) : option SweetsState :=
  match j with
  | JObj o =>
      let* ds := get_list "divisions" o in
      let* divs := map_opt restore_division ds in
      let* count := get_int_default "products_scraped" o in
      Some (mkSweetsState (app (divisions st) divs) count)
  | _ => None
  end.

End SweetsModel.

(** ** SWEETS [_parse_address_tag]: the text lines of the [<address>] tag *)
Module SweetsAddress.
Import Str Str2.

(** The SWEETS [STATE_ABBREV_TO_FULL] (without [NT], [NU] and [YT]). *)
Definition STATE_ABBREV_TO_FULL : list (string * string) :=
  [("AL", "Alabama"); ("AK", "Alaska"); ("AZ", "Arizona"); ("AR", "Arkansas");
   ("CA", "California"); ("CO", "Colorado"); ("CT", "Connecticut"); ("DE", "Delaware");
   ("FL", "Florida"); ("GA", "Georgia"); ("HI", "Hawaii"); ("ID", "Idaho");
   ("IL", "Illinois"); ("IN", "Indiana"); ("IA", "Iowa"); ("KS", "Kansas");
   ("KY", "Kentucky"); ("LA", "Louisiana"); ("ME", "Maine"); ("MD", "Maryland");
   ("MA", "Massachusetts"); ("MI", "Michigan"); ("MN", "Minnesota"); ("MS", "Mississippi");
   ("MO", "Missouri"); ("MT", "Montana"); ("NE", "Nebraska"); ("NV", "Nevada");
   ("NH", "New Hampshire"); ("NJ", "New Jersey"); ("NM", "New Mexico"); ("NY", "New York");
   ("NC", "North Carolina"); ("ND", "North Dakota"); ("OH", "Ohio"); ("OK", "Oklahoma");
   ("OR", "Oregon"); ("PA", "Pennsylvania"); ("RI", "Rhode Island"); ("SC", "South Carolina");
   ("SD", "South Dakota"); ("TN", "Tennessee"); ("TX", "Texas"); ("UT", "Utah");
   ("VT", "Vermont"); ("VA", "Virginia"); ("WA", "Washington"); ("WV", "West Virginia");
   ("WI", "Wisconsin"); ("WY", "Wyoming"); ("DC", "District of Columbia");
   ("AB", "Alberta"); ("BC", "British Columbia"); ("MB", "Manitoba"); ("NB", "New Brunswick");
   ("NL", "Newfoundland and Labrador"); ("NS", "Nova Scotia"); ("ON", "Ontario");
   ("PE", "Prince Edward Island"); ("QC", "Quebec"); ("SK", "Saskatchewan")].

(** The [result] dict of [_parse_address_tag]. *)
Record AddressResult := mkAddressResult {
  address : string;
  city : string;
  state : string;
  zip_code : string;
  phone : string;
  fax : string;
  email : string;
  website : string
}.

Local Notation "'let*' x ':=' e 'in' k" :=
  (match e with Some x => k | None => None end)
  (at level 200, x name, e at level 100, k at level 200).

(** [s.split(c)] *)
Fixpoint split_on (c : ascii) (s : string) : list string :=
  match s with
  | EmptyString => [""]
  | String x t =>
      if Ascii.eqb x c then "" :: split_on c t
      else match split_on c t with
           | w :: ws => String x w :: ws
           | [] => [String x ""]
           end
  end.

(** [[line.strip() for line in address_text.split('\n') if line.strip()]] *)
Definition text_lines (address_text : string) : list string :=
  filter (fun l => negb (String.eqb l "")) (map strip (split_on "010" address_text)).

(** [(\d{3})] and [(\d{4})] at the start of a string: the group and the rest. *)
Definition take3 (s : string) : option (string * string) :=
  match s with
  | String a (String b (String c rest)) =>
      if is_digit a && is_digit b && is_digit c
      then Some (String a (String b (String c "")), rest) else None
  | _ => None
  end.

Definition take4 (s : string) : option (string * string) :=
  match s with
  | String a (String b (String c (String d rest))) =>
      if is_digit a && is_digit b && is_digit c && is_digit d
      then Some (String a (String b (String c (String d ""))), rest) else None
  | _ => None
  end.

(** One given character at the start of a string: the rest. *)
Definition take_char (p : ascii -> bool) (s : string) : option string :=
  match s with
  | String c rest => if p c then Some rest else None
  | EmptyString => None
  end.

(** [re.match(r'\((\d{3})\)\s*(\d{3})-(\d{4})', raw)]: the three groups. *)
Definition paren_match (raw : string) : option (string * string * string) :=
  let* r0 := take_char (fun c => Ascii.eqb c "(") raw in
  let* p1 := take3 r0 in
  let* r2 := take_char (fun c => Ascii.eqb c ")") (snd p1) in
  let* p2 := take3 (lstrip_by is_space r2) in
  let* r4 := take_char (fun c => Ascii.eqb c "-") (snd p2) in
  let* p3 := take4 r4 in
  Some (fst p1, fst p2, fst p3).

(** [re.match(r'(\d{3})[-.\s](\d{3})[-.\s](\d{4})', raw)]: the three groups. *)
Definition sep_match (raw : string) : option (string * string * string) :=
  let sep := fun c => Ascii.eqb c "-" || Ascii.eqb c "." || is_space c in
  let* p1 := take3 raw in
  let* r1 := take_char sep (snd p1) in
  let* p2 := take3 r1 in
  let* r2 := take_char sep (snd p2) in
  let* p3 := take4 r2 in
  Some (fst p1, fst p2, fst p3).

(** The phone (and fax) normalisation: ["(ddd) ddd-dddd"] when one of the two
    patterns matches at the start, the raw value otherwise. *)
Definition normalize_phone (raw : string) : string :=
  match paren_match raw with
  | Some (g1, g2, g3) => "(" ++ g1 ++ ") " ++ g2 ++ "-" ++ g3
  | None =>
      match sep_match raw with
      | Some (g1, g2, g3) => "(" ++ g1 ++ ") " ++ g2 ++ "-" ++ g3
      | None => raw
      end
  end.

(** [re.match(r'<label>\s*(.+)', line, re.IGNORECASE)].group(1).strip() for a
    four-character label such as ["tel:"]: [\s*] is greedy and gives back one
    character when nothing else is left for [.+]. *)
Definition label_group (label line : string) : option string :=
  if String.eqb (lower (substring 0 4 line)) label
  then
    let rest := substring 4 (String.length line - 4) line in
    let tail := lstrip_by is_space rest in
    if negb (String.eqb tail "") then Some (strip tail)
    else if negb (String.eqb rest "") then Some (strip (substring (String.length rest - 1) 1 rest))
    else None
  else None.

(** [line.lower().replace(',', '').replace('.', '')] *)
Definition name_key (s : string) : string :=
  string_of_list_ascii
    (filter (fun c => negb (Ascii.eqb c ",") && negb (Ascii.eqb c "."))
            (list_ascii_of_string (lower s))).

(** [', '.join(lines)] *)
Fixpoint join (sep : string) (l : list string) : string :=
  match l with
  | [] => ""
  | [x] => x
  | x :: rest => x ++ sep ++ join sep rest
  end.

Definition SKIPS := ["find a rep"; "request more info"; "request info"].

Section Lines.
(** Groups 1-3 of the three [re.match] patterns for a city line: US
    ["City, ST 12345"], Canadian ["City, ST A1B 2C3"] and Canadian with a full
    province name. *)
Variable us_match : string -> option (string * string * string).
Variable ca_match : string -> option (string * string * string).
Variable prov_match : string -> option (string * string * string).

(** Which branch of the loop body a line takes. *)
Inductive LineKind :=
| KSkip
| KTel (raw : string)
| KFax (raw : string)
| KContact
| KCity (c st z : string) (mapped : bool)
| KPlain.

(** The branches before [if city_state_found: continue]. *)
Definition pre_kind (line : string) : option LineKind :=
  if existsb (fun skip => contains skip (lower line)) SKIPS then Some KSkip
  else match label_group "tel:" line with
  | Some raw => Some (KTel raw)
  | None =>
  match label_group "fax:" line with
  | Some raw => Some (KFax raw)
  | None =>
  if contains "@" line || startswith "http" line then Some KContact
  else None
  end end.

(** The city branches, tried in order. *)
Definition city_kind (line : string) : LineKind :=
  match us_match line with
  | Some (c, st, z) => KCity c st z true
  | None =>
  match ca_match line with
  | Some (c, st, z) => KCity c st z true
  | None =>
  match prov_match line with
  | Some (c, st, z) => KCity c st z false
  | None => KPlain
  end end end.

Record LoopState := mkLoopState {
  result : AddressResult;
  address_lines : list string;
  city_state_found : bool
}.

Definition set_phone (r : AddressResult) (p : string) : AddressResult :=
  mkAddressResult (address r) (city r) (state r) (zip_code r) p (fax r) (email r) (website r).
Definition set_fax (r : AddressResult) (f : string) : AddressResult :=
  mkAddressResult (address r) (city r) (state r) (zip_code r) (phone r) f (email r) (website r).
Definition set_city (r : AddressResult) (c st z : string) : AddressResult :=
  mkAddressResult (address r) c st z (phone r) (fax r) (email r) (website r).
Definition set_address (r : AddressResult) (a : string) : AddressResult :=
  mkAddressResult a (city r) (state r) (zip_code r) (phone r) (fax r) (email r) (website r).

(** One iteration of [for line in lines]. *)
Definition line_step (s : LoopState) (line : string) : LoopState :=
  let '(mkLoopState r lines found) := s in
  match pre_kind line with
  | Some KSkip | Some KContact => s
  | Some (KTel raw) => mkLoopState (set_phone r (normalize_phone raw)) lines found
  | Some (KFax raw) => mkLoopState (set_fax r (normalize_phone raw)) lines found
  | Some _ => s
  | None =>
      if found then s
      else match city_kind line with
           | KCity c st z mapped =>
               let st := strip st in
               let st := if mapped then ArcatDetail.state_get st st STATE_ABBREV_TO_FULL else st in
               mkLoopState (set_city r (strip c) st (strip z)) lines true
           | _ => mkLoopState r (app lines [line]) found
           end
  end.

(** The part of [_parse_address_tag] from [address_text] on, applied to the
    [result] dict once the email and website links have been read. *)
Definition parse_address_lines (manufacturer_name address_text : string) (r : AddressResult)
  : AddressResult :=
  let s := fold_left line_step (text_lines address_text) (mkLoopState r [] false) in
  let r := result s in
  match address_lines s with
  | [] => r
  | first :: rest =>
      let lines :=
        if negb (String.eqb manufacturer_name "") &&
           String.eqb (name_key first) (name_key manufacturer_name)
        then rest else first :: rest in
      set_address r (join ", " lines)
  end.

(** The lines that reach the city branches while no city line has been seen,
    up to and excluding the first city line, and that first city line. *)
Fixpoint before_city (lines : list string) : list string * option LineKind :=
  match lines with
  | [] => ([], None)
  | l :: rest =>
      match pre_kind l with
      | Some _ => before_city rest
      | None =>
          match city_kind l with
          | KCity c st z m => ([], Some (KCity c st z m))
          | _ => let '(ls, k) := before_city rest in (l :: ls, k)
          end
      end
  end.

End Lines.

End SweetsAddress.

(** ** ARCAT Excel export ([ARCATScraper.export_to_excel]) *)
Module ArcatExport.
Import Arcat Expand.ArcatCategory ArcatCheckpoint.

(** A worksheet row: columns 1 to 13, [None] for a cell never written. *)
Definition Row := list (option string).

Definition headers : list string :=
  ["Division Code"; "Division Name"; "Building Product Categories"; "Company";
   "Address"; "State"; "Phone"; "Website"; "Email"; "Product Expert Email";
   "Product Expert Phone"; "Company URL"; "Source"].

(** [str.isdigit()]: non-empty and every character a digit. *)
Definition isdigit (s : string) : bool :=
  negb (String.eqb s "") && Str2.all_chars Str.is_digit s.

(** [x if x else ""] *)
Definition or_empty (s : string) : string := if String.eqb s "" then "" else s.

Definition formatted_code (code : string) : string :=
  if isdigit code then ArcatListings.zfill 2 code ++ " 00 00" else code.

(** A company row of the division loop. *)
Definition division_company_row (fc dn : string) (c : Company) : Row :=
  [Some fc; Some dn; Some (or_empty (building_product_category c)); Some (name c);
   Some (or_empty (address c)); Some (or_empty (state c)); Some (or_empty (phone c));
   Some (or_empty (website c)); Some (or_empty (email c));
   Some (or_empty (product_expert_email c)); Some (or_empty (product_expert_phone c));
   Some (or_empty (url c)); Some "ARCAT"].

(** The rows written for one division: one row with columns 1, 2 and 13
    when it has no companies, one row per company otherwise. *)
Definition division_rows (d : Division) : list Row :=
  let fc := formatted_code (code d) in
  match companies d with
  | [] => [[Some fc; Some (dname d); None; None; None; None; None; None; None;
            None; None; None; Some "ARCAT"]]
  | cs => map (division_company_row fc (dname d)) cs
  end.

(** A company row of the building product category loop. *)
Definition category_company_row (c : Company) : Row :=
  [Some ""; Some ""; Some (building_product_category c); Some (name c);
   Some (or_empty (address c)); Some (or_empty (state c)); Some (or_empty (phone c));
   Some (or_empty (website c)); Some (or_empty (email c));
   Some (or_empty (product_expert_email c)); Some (or_empty (product_expert_phone c));
   Some (or_empty (url c)); Some "ARCAT"].

(** The worksheet [export_to_excel] saves: the header row, then the rows of
    [self.divisions] in order, then those of [self.building_product_categories]. *)
Definition export_to_excel (st : ScraperState) : list Row :=
  map Some headers
  :: flat_map (fun sd => division_rows (div sd)) (divisions st)
     ++ flat_map (fun cat => map category_company_row (cat_companies cat))
                 (building_product_categories st).

(** The Company and Company URL cells of a row, when both were written. *)
Definition company_cell (r : Row) : list (string * string) :=
  match nth 3 r None, nth 11 r None with
  | Some n, Some u => [(n, u)]
  | _, _ => []
  end.

End ArcatExport.

(** ** Duration formatting ([ProgressTracker.get_eta_formatted] and
    [get_elapsed_formatted]) *)
Module DurationFormat.
Import ZArith QArith Qround Progress ProgressOps.

(** Python's [a // b] on floats, for [b > 0]. *)
Definition py_floordiv (a b : Q) : Q := inject_Z (Qfloor (a / b)).

(** Python's [a % b] on floats, for [b > 0]: [a - b * (a // b)]. *)
Definition py_fmod (a b : Q) : Q := a - b * inject_Z (Qfloor (a / b)).

(** [str(n)] for a Python int. *)
Fixpoint nat_digits (fuel n : nat) (acc : string) : string :=
  match fuel with
  | O => acc
  | S f =>
      let acc := String (Ascii.ascii_of_nat (48 + n mod 10)) acc in
      if Nat.ltb n 10 then acc else nat_digits f (n / 10) acc
  end.

Definition str_Z (z : Z) : string :=
  if Z.ltb z 0 then "-" ++ nat_digits (S (Z.to_nat (- z))) (Z.to_nat (- z)) ""
  else nat_digits (S (Z.to_nat z)) (Z.to_nat z) "".

(** [hours = int(x // 3600)], [minutes = int((x % 3600) // 60)],
    [seconds = int(x % 60)]. *)
Definition hms (x : Q) : Z * Z * Z :=
  let hours := py_int (py_floordiv x 3600) in
  let minutes := py_int (py_floordiv (py_fmod x 3600) 60) in
  let seconds := py_int (py_fmod x 60) in
  (hours, minutes, seconds).

Definition format_hms (t : Z * Z * Z) : string :=
  let '(hours, minutes, seconds) := t in
  if Z.ltb 0 hours then
    str_Z hours ++ "h " ++ str_Z minutes ++ "m " ++ str_Z seconds ++ "s"
  else if Z.ltb 0 minutes then str_Z minutes ++ "m " ++ str_Z seconds ++ "s"
  else str_Z seconds ++ "s".

(** [get_eta_formatted] ([None]: [get_eta_seconds] raised). *)
Definition get_eta_formatted (t : ProgressTracker) : option string :=
  match get_eta_seconds t with
  | Some eta_seconds =>
      Some (if Qle_bool eta_seconds 0 then "Calculating..."
            else format_hms (hms eta_seconds))
  | None => None
  end.

(** [get_elapsed_formatted] at clock reading [now] ([if not self.start_time]
    holds for [None] and for [0.0]). *)
Definition get_elapsed_formatted (now : Q) (t : Tracker) : string :=
  match start_time t with
  | Some st => if Qeq_bool st 0 then "0s" else format_hms (hms (now - st))
  | None => "0s"
  end.

End DurationFormat.

(** ** SWEETS Excel export ([SWEETSScraper.export_to_excel]) *)
Module SweetsExport.
Import ZArith SweetsModel.

(** A worksheet cell value: a string or a Python int. *)
Inductive Cell := CStr (s : string) | CInt (z : Z).

Definition base_headers : list string :=
  ["Division Code"; "Division Name"; "Section Code"; "Section Name"; "Manufacturer";
   "Product Name"; "Address"; "City"; "State"; "ZIP"; "Phone"; "Fax"; "Email";
   "Website"; "Category"; "MasterFormat"; "3-Part Spec"; "BIM"; "CAD"; "CEU";
   "Catalog"; "Data Sheet"; "Gallery"; "Green"; "Product Selector";
   "Supporting Material"].

Definition count_headers : list string :=
  ["# 3-Part Spec"; "# BIM"; "# CAD"; "# CEU"; "# Catalog"; "# Gallery"; "# Green";
   "# Other"; "# Total Downloads"].

(** [headers], extended with the download count columns in Selenium mode. *)
Definition headers (use_selenium : bool) : list string :=
  app base_headers (app (if use_selenium then count_headers else [])
                        ["Product URL"; "Source"]).

(** ["Yes" if flag else "No"] *)
Definition yes_no (b : bool) : Cell := CStr (if b then "Yes" else "No").

(** The cells of one product row, from column 1 on. *)
Definition product_row (use_selenium : bool) (p : Product) : list Cell :=
  app [CStr (division_code p); CStr (division_name p); CStr (section_code p);
       CStr (section_name p); CStr (manufacturer_name p); CStr (name p);
       CStr (address p); CStr (city p); CStr (state p); CStr (zip_code p);
       CStr (phone p); CStr (fax p); CStr (email p); CStr (website p);
       CStr (category p); CStr (masterformat p);
       yes_no (has_3part_spec p); yes_no (has_bim p); yes_no (has_cad p);
       yes_no (has_ceu p); yes_no (has_catalog p); yes_no (has_data_sheet p);
       yes_no (has_gallery p); yes_no (has_green p); yes_no (has_product_selector p);
       yes_no (has_supporting_material p)]
   (app (if use_selenium then
           [CInt (count_3part_spec p); CInt (count_bim p); CInt (count_cad p);
            CInt (count_ceu p); CInt (count_catalog p); CInt (count_gallery p);
            CInt (count_green p); CInt (count_other p); CInt (count_total p)]
         else [])
        [CStr (url p); CStr "SWEETS"]).

(** The worksheet: the header row, then one row per product of each section
    of each division, in order. *)
Definition export_to_excel (use_selenium : bool) (st : SweetsState) : list (list Cell) :=
  map CStr (headers use_selenium)
  :: flat_map (fun d => flat_map (fun s => map (product_row use_selenium) (sec_products s))
                                 (div_sections d))
              (divisions st).

(** Every product of the state, in export order. *)
Definition all_products (st : SweetsState) : list Product :=
  flat_map (fun d => flat_map sec_products (div_sections d)) (divisions st).

End SweetsExport.

(** ** SWEETS product details ([SWEETSScraper.scrape_product_details]) *)
Module SweetsDetail.
Import ZArith Str Str2 SweetsModel.

(** The parts of a product page [scrape_product_details] reads (without
    Selenium).  Regular-expression searches over the page are given by their
    result. *)
Record SPage := mkSPage {
  (** [self._parse_address_tag(address_tag, manufacturer_name)] as a function
      of the manufacturer name, when [div.companyInfo] holds an [address] tag *)
  address_tag : option (string -> SweetsAddress.AddressResult);
  (** the groups of [r'Tel:\s*\((\d{3})\)\s*(\d{3})-(\d{4})'] *)
  tel_match : option (string * string * string);
  (** the groups of [r'Tel:\s*(\d{3})[-.\s](\d{3})[-.\s](\d{4})'] *)
  tel_match2 : option (string * string * string);
  (** the groups of [r'Fax:\s*\((\d{3})\)\s*(\d{3})-(\d{4})'] *)
  fax_match : option (string * string * string);
  (** [re.findall] of the email pattern, in page order *)
  email_matches : list string;
  (** the first [href] of the website loop passing the domain and extension
      filters, with [rstrip('/')] applied *)
  website_match : option string;
  (** the four groups of the address regex *)
  addr_pattern : option (string * string * string * string);
  category_match : option string;      (** [r'Category:\s*</strong>\s*([^<]+)'] *)
  category_match2 : option string;     (** [r'Category:\s*([^<\n]+)'] *)
  masterformat_match : option string;  (** [r'MasterFormat:\s*</strong>\s*([^<]+)'] *)
  masterformat_match2 : option string; (** [r'MasterFormat:\s*([^<\n]+)'] *)
  desc_content : option string;        (** [desc_elem.get('content', '')] when the meta tag exists *)
  product_id_match : option string;    (** the digits after [selectedProductID =] *)
  (** the ten content-type tests, in code order *)
  f_3part_spec : bool; f_bim : bool; f_cad : bool; f_ceu : bool; f_catalog : bool;
  f_data_sheet : bool; f_gallery : bool; f_green : bool; f_product_selector : bool;
  f_supporting_material : bool
}.

(** The eight contact fields of a product, written at once. *)
Definition set_contact (a c s z ph fx em web : string) (p : Product) : Product :=
  mkProduct (name p) (url p) (manufacturer_name p) (manufacturer_id p) a c s z ph fx em web
    (division_code p) (division_name p) (section_code p) (section_name p)
    (category p) (masterformat p)
    (has_3part_spec p) (has_bim p) (has_cad p) (has_ceu p) (has_catalog p)
    (has_data_sheet p) (has_gallery p) (has_green p) (has_product_selector p)
    (has_supporting_material p)
    (count_3part_spec p) (count_bim p) (count_cad p) (count_ceu p) (count_catalog p)
    (count_gallery p) (count_green p) (count_other p) (count_total p) (description p).

Definition set_phone v p :=
  set_contact (address p) (city p) (state p) (zip_code p) v (fax p) (email p) (website p) p.
Definition set_fax v p :=
  set_contact (address p) (city p) (state p) (zip_code p) (phone p) v (email p) (website p) p.
Definition set_email v p :=
  set_contact (address p) (city p) (state p) (zip_code p) (phone p) (fax p) v (website p) p.
Definition set_website v p :=
  set_contact (address p) (city p) (state p) (zip_code p) (phone p) (fax p) (email p) v p.

(** [f"({g1}) {g2}-{g3}"] *)
Definition fmt_phone (g : string * string * string) : string :=
  let '(a, b, c) := g in "(" ++ a ++ ") " ++ b ++ "-" ++ c.

Definition excluded_email_domains : list string :=
  ["construction.com"; "sweets.com"; "noreply"; "donotreply"; "unsubscribe"].

(** The email loop: the first match containing no excluded word. *)
Fixpoint first_email (l : list string) : option string :=
  match l with
  | [] => None
  | e :: rest =>
      if negb (existsb (fun exc => contains exc (lower e)) excluded_email_domains)
      then Some e else first_email rest
  end.

(** The PRIMARY block ([<address>] tag) or, without the tag, the regex
    FALLBACK block. *)
Definition page_step (sp : SPage) (p : Product) : Product :=
  match address_tag sp with
  | Some parse =>
      let contact := parse (manufacturer_name p) in
      set_contact (SweetsAddress.address contact) (SweetsAddress.city contact)
        (SweetsAddress.state contact) (SweetsAddress.zip_code contact)
        (SweetsAddress.phone contact) (SweetsAddress.fax contact)
        (SweetsAddress.email contact) (SweetsAddress.website contact) p
  | None =>
      let p := match tel_match sp with
               | Some g => set_phone (fmt_phone g) p
               | None => match tel_match2 sp with
                         | Some g => set_phone (fmt_phone g) p
                         | None => p
                         end
               end in
      let p := match fax_match sp with Some g => set_fax (fmt_phone g) p | None => p end in
      let p := match first_email (email_matches sp) with
               | Some e => set_email e p | None => p end in
      let p := match website_match sp with Some w => set_website w p | None => p end in
      match addr_pattern sp with
      | Some (a, c, s, z) =>
          let state_abbr := strip s in
          set_contact (strip a) (strip c)
            (ArcatDetail.state_get state_abbr state_abbr SweetsAddress.STATE_ABBREV_TO_FULL)
            (strip z) (phone p) (fax p) (email p) (website p) p
      | None => p
      end
  end.

(** [self._manufacturer_cache]: manufacturer id to the dict of
    [_scrape_manufacturer_contact] ([None] for the empty dict [{}]). *)
Definition Cache := list (string * option SweetsAddress.AddressResult).

Fixpoint cache_get (k : string) (c : Cache) : option (option SweetsAddress.AddressResult) :=
  match c with
  | [] => None
  | (k', v) :: rest => if String.eqb k' k then Some v else cache_get k rest
  end.

(** The body of [if cached:] / [if mfr_contact:]: address, city, state and
    zip code are replaced, the other four only when empty. *)
Definition apply_contact (c : SweetsAddress.AddressResult) (p : Product) : Product :=
  let p := set_contact (SweetsAddress.address c) (SweetsAddress.city c)
             (SweetsAddress.state c) (SweetsAddress.zip_code c)
             (phone p) (fax p) (email p) (website p) p in
  let p := if negb (ArcatDetail.nonempty (phone p)) then set_phone (SweetsAddress.phone c) p else p in
  let p := if negb (ArcatDetail.nonempty (fax p)) then set_fax (SweetsAddress.fax c) p else p in
  let p := if negb (ArcatDetail.nonempty (email p)) then set_email (SweetsAddress.email c) p else p in
  if negb (ArcatDetail.nonempty (website p)) then set_website (SweetsAddress.website c) p else p.

(** The MANUFACTURER PAGE FALLBACK block; [mfr] is
    [_scrape_manufacturer_contact]. *)
Definition mfr_fallback (mfr : string -> option SweetsAddress.AddressResult)
    (cache : Cache) (p : Product) : Product * Cache :=
  if negb (ArcatDetail.nonempty (address p)) && ArcatDetail.nonempty (manufacturer_id p) then
    match cache_get (manufacturer_id p) cache with
    | Some cached =>
        (match cached with Some c => apply_contact c p | None => p end, cache)
    | None =>
        let mfr_contact := mfr (manufacturer_id p) in
        (match mfr_contact with Some c => apply_contact c p | None => p end,
         (manufacturer_id p, mfr_contact) :: cache)
    end
  else (p, cache).

(** The CATEGORY/MASTERFORMAT, DESCRIPTION and DOWNLOAD/CONTENT TYPES blocks. *)
Definition finish (sp : SPage) (p : Product) : Product :=
  let cat := match category_match sp with
             | Some c => strip c
             | None => match category_match2 sp with Some c => strip c | None => category p end
             end in
  let mf := match masterformat_match sp with
            | Some m => strip m
            | None => match masterformat_match2 sp with Some m => strip m | None => masterformat p end
            end in
  let descr := match desc_content sp with Some d => substring 0 500 d | None => description p end in
  let mid := match product_id_match sp with Some i => i | None => manufacturer_id p end in
  mkProduct (name p) (url p) (manufacturer_name p) mid (address p) (city p) (state p)
    (zip_code p) (phone p) (fax p) (email p) (website p)
    (division_code p) (division_name p) (section_code p) (section_name p) cat mf
    (f_3part_spec sp) (f_bim sp) (f_cad sp) (f_ceu sp) (f_catalog sp) (f_data_sheet sp)
    (f_gallery sp) (f_green sp) (f_product_selector sp) (f_supporting_material sp)
    (count_3part_spec p) (count_bim p) (count_cad p) (count_ceu p) (count_catalog p)
    (count_gallery p) (count_green p) (count_other p) (count_total p) descr.

(** [SWEETSScraper.scrape_product_details(product)] without Selenium: the
    page of [product.url] ([None]: [_make_request_raw] gave no HTML, and the
    product is returned as it is) and the manufacturer cache. *)
Definition scrape_product_details (mfr : string -> option SweetsAddress.AddressResult)
    (cache : Cache) (pg : option SPage) (p : Product) : Product * Cache :=
  match pg with
  | None => (p, cache)
  | Some sp =>
      let p := page_step sp p in
      let '(p, cache) := mfr_fallback mfr cache p in
      (finish sp p, cache)
  end.

End SweetsDetail.

(** ** SWEETS crawl ([SWEETSScraper.scrape_all]) *)
Module SweetsCrawl.
Import ZArith Str Str2 ArcatCheckpoint SweetsModel SweetsDetail.

Definition with_products (s : Section) (ps : list Product) : Section :=
  mkSection (sec_code s) (sec_name s) (sec_url s) (sec_item_count s) ps.

Definition with_sections (d : Division) (ss : list Section) : Division :=
  mkDivision (div_code d) (div_name d) (div_url d) (div_item_count d) ss.

(** The products of the store in the order of the second pass. *)
Definition products_of_sections (ss : list Section) : list Product :=
  flat_map sec_products ss.

Definition products_of (divs : list Division) : list Product :=
  flat_map (fun d => products_of_sections (div_sections d)) divs.

(** Cut a flat product list back into the sections and divisions it came
    from ([scrape_product_details] mutates each product in place). *)
Fixpoint refill_sections (ss : list Section) (ps : list Product) : list Section :=
  match ss with
  | [] => []
  | s :: rest =>
      let n := length (sec_products s) in
      with_products s (firstn n ps) :: refill_sections rest (skipn n ps)
  end.

Fixpoint refill (divs : list Division) (ps : list Product) : list Division :=
  match divs with
  | [] => []
  | d :: ds =>
      let n := length (products_of_sections (div_sections d)) in
      with_sections d (refill_sections (div_sections d) (firstn n ps))
        :: refill ds (skipn n ps)
  end.

(** [if product.phone or product.email:  # Product has been detailed] *)
Definition has_contact (p : Product) : bool :=
  ArcatDetail.nonempty (phone p) || ArcatDetail.nonempty (email p).

(** The [scraped_product_urls] set built on resume. *)
Definition detailed_urls (divs : list Division) : list string :=
  map url (filter has_contact (products_of divs)).

(** A [Section] built by [scrape_division_sections] (no products yet). *)
Definition to_section (s : Expand.SweetsDivision.MFSection) : Section :=
  mkSection (Expand.SweetsDivision.s_code s) (Expand.SweetsDivision.s_name s)
    (Expand.SweetsDivision.s_url s) (Z.of_nat (Expand.SweetsDivision.s_item_count s)) [].

(** [SWEETSScraper.scrape_division_sections] on the [Division] of the store;
    the links of the division page are read as in
    [Expand.SweetsDivision.found_sections]. *)
Definition scrape_division_sections (soup : option (list Expand.SweetsDivision.SectionLink))
    (d : Division) : Division :=
  match soup with
  | None => d
  | Some links =>
      with_sections d (app (div_sections d)
                         (map to_section (Expand.SweetsDivision.found_sections links)))
  end.

(** [SWEETSScraper.scrape_divisions]: a division link has the same three
    parts as a section link (its [href], the groups of the code/name match on
    its text, the trailing number of its parent's text); the loop skips an
    [href] already seen, then a text that does not match. *)
Definition scrape_divisions (soup : option (list Expand.SweetsDivision.SectionLink))
  : list Division :=
  match soup with
  | None => []
  | Some links =>
      flat_map (fun l =>
                  match Expand.SweetsDivision.parsed l with
                  | Some (c, n) =>
                      [mkDivision c (strip n) (BASE_URL ++ Expand.SweetsDivision.href l)
                         (Z.of_nat (Expand.SweetsDivision.parent_count l)) []]
                  | None => []
                  end)
               (Expand.first_seen Expand.SweetsDivision.href [] links)
  end.

(** [_load_checkpoint] and the test [if checkpoint:]: the file must hold an
    object with a ["timestamp"] and a ["products_scraped"] entry (both are
    read for the log; any other document makes [_load_checkpoint] return
    [None]). *)
Definition load_checkpoint (dsk : option Json) : option Json :=
  match dsk with
  | Some (JObj o) =>
      match lookup "timestamp" o, lookup "products_scraped" o with
      | Some _, Some _ => Some (JObj o)
      | _, _ => None
      end
  | _ => None
  end.

Record SOutcome := mkSOutcome {
  sstatus : Orchestrator.Status;
  sstore : list Division;          (** [self.divisions] when the run ends *)
  sdisk : option Json;             (** the checkpoint file when the run ends *)
  sfetched : list string           (** the product pages requested, in order *)
}.

Section Crawl.

(** The 3partspecs page ([None]: the request failed). *)
Variable divisions_page : option (list Expand.SweetsDivision.SectionLink).
(** The division page of a division URL. *)
Variable sections_page : string -> option (list Expand.SweetsDivision.SectionLink).
(** The product links of a section URL. *)
Variable products_page : string -> option (list ProductLink).
(** The product page of a product URL ([None]: no HTML). *)
Variable page : string -> option SPage.
(** [_scrape_manufacturer_contact] of a manufacturer id. *)
Variable mfr : string -> option SweetsAddress.AddressResult.
(** [CHECKPOINT_INTERVAL] *)
Variable interval : Z.
(** The ["timestamp"] written by [_save_checkpoint]. *)
Variable timestamp : string.

(** [if not section.products: self.scrape_section_products(section, division)] *)
Definition expand_section (d : Division) (s : Section) : Section :=
  match sec_products s with
  | [] => scrape_section_products (products_page (sec_url s)) s d
  | _ => s
  end.

(** One division of the first pass:
    [if not division.sections: self.scrape_division_sections(division)],
    then its sections. *)
Definition expand_division (d : Division) : Division :=
  let d := match div_sections d with
           | [] => scrape_division_sections (sections_page (div_url d)) d
           | _ => d
           end in
  with_sections d (map (expand_section d) (div_sections d)).

(** The first pass of [scrape_all]. *)
Definition first_pass (divs : list Division) : list Division := map expand_division divs.

(** [self._save_checkpoint()] *)
Definition save (divs : list Division) (count : Z) : option Json :=
  Some (_save_checkpoint timestamp (mkSweetsState divs count)).

(** The second pass: the products of all sections in order, [done] (in
    reverse) already visited, [todo] still to visit; [cache] is
    [self._manufacturer_cache]; [stop] counts down the detail fetches left
    before the run is stopped. *)
Fixpoint detail_loop (divs : list Division) (scraped : list string)
    (done todo : list Product) (count : Z) (cache : Cache) (dsk : option Json)
    (log : list string) (stop : option (nat * Orchestrator.Stop)) : SOutcome :=
  match todo with
  | [] =>
      let st := refill divs (rev done) in
      mkSOutcome Orchestrator.Finished st (save st count) log
  | p :: rest =>
      if Orchestrator.mem (url p) scraped
      then detail_loop divs scraped (p :: done) rest count cache dsk log stop
      else
        let st := refill divs (app (rev done) todo) in
        match stop with
        | Some (0, Orchestrator.HardKill) => mkSOutcome Orchestrator.Killed st dsk log
        | Some (0, Orchestrator.Raise) => mkSOutcome Orchestrator.Raised st (save st count) log
        | _ =>
            let '(p', cache') := scrape_product_details mfr cache (page (url p)) p in
            let count := (count + 1)%Z in
            let dsk :=
              if Z.ltb 0 count && Z.eqb (Z.modulo count interval) 0
              then save (refill divs (app (rev (p' :: done)) rest)) count
              else dsk in
            detail_loop divs scraped (p' :: done) rest count cache' dsk
              (app log [url p]) (Orchestrator.tick stop)
        end
  end.

(** [scrape_all(resume=resume)] started with the checkpoint file [dsk] on
    disk; [None]: [_restore_from_checkpoint] raises. *)
Definition scrape_all (resume : bool) (dsk : option Json)
    (stop : option (nat * Orchestrator.Stop)) : option SOutcome :=
  let restored :=
    if resume then
      match load_checkpoint dsk with
      | Some ck =>
          match _restore_from_checkpoint (mkSweetsState [] 0) ck with
          | Some st => Some (st, detailed_urls (divisions st))
          | None => None
          end
      | None => Some (mkSweetsState [] 0, [])
      end
    else Some (mkSweetsState [] 0, []) in
  match restored with
  | None => None
  | Some (st, scraped) =>
      let divs := match divisions st with [] => scrape_divisions divisions_page | l => l end in
      let divs := first_pass divs in
      Some (detail_loop divs scraped [] (products_of divs) (products_scraped_count st) []
              dsk [] stop)
  end.

End Crawl.

(** A product once the second pass has visited it, with a fresh
    manufacturer cache. *)
Definition sdetailed (mfr : string -> option SweetsAddress.AddressResult)
    (page : string -> option SPage) (p : Product) : Product :=
  fst (scrape_product_details mfr [] (page (url p)) p).

(** A product visited by the second pass of a resumed run. *)
Definition sresume_step mfr page (scraped : list string) (p : Product) : Product :=
  if Orchestrator.mem (url p) scraped then p else sdetailed mfr page p.

(** The spec's scenario on SWEETS: one division, one section, three
    products. *)
Definition sc_divisions_page : option (list Expand.SweetsDivision.SectionLink) :=
  Some [Expand.SweetsDivision.mkSectionLink "/quicklinks/3partspecs/02-00-00-existing-conditions"
          (Some ("02 00 00", "Existing Conditions")) 3].

Definition sc_sections_page (u : string) : option (list Expand.SweetsDivision.SectionLink) :=
  Some [Expand.SweetsDivision.mkSectionLink
          "/masterformat/existing-conditions-02-00-00/demolition-02-41-00"
          (Some ("02 41 00", "Demolition")) 3].

Definition sc_products_page (u : string) : option (list ProductLink) :=
  Some [mkProductLink "/manufacturer/alpha-1/products/saw-11" "Alpha Inc - Saw";
        mkProductLink "/manufacturer/beta-2/products/drill-22" "Beta LLC - Drill";
        mkProductLink "/manufacturer/gamma-3/products/hammer-33" "Gamma Co - Hammer"].

Definition sc_contact (m : string) : SweetsAddress.AddressResult :=
  SweetsAddress.mkAddressResult "1 Main St" "Austin" "Texas" "78701" "(512) 555-0100" "" "" "".

(** A product page of the scenario: its [address] tag gives the contact. *)
Definition sc_spage (tag : option (string -> SweetsAddress.AddressResult))
    (pid : option string) : SPage :=
  mkSPage tag None None None [] None None None None None None None pid
    false false false false false false false false false false.

Definition sc_page (u : string) : option SPage := Some (sc_spage (Some sc_contact) None).

Definition sc_mfr (mid : string) : option SweetsAddress.AddressResult := None.

(** The same, except that the first product's [address] tag holds no
    phone and no email. *)
Definition sc_bare_page (u : string) : option SPage :=
  if String.eqb u (BASE_URL ++ "/manufacturer/alpha-1/products/saw-11")
  then Some (sc_spage (Some (fun m => SweetsAddress.mkAddressResult
                                       "1 Main St" "Austin" "Texas" "78701" "" "" "" "")) None)
  else sc_page u.

(** A product page with no [address] tag and no contact text, whose
    [selectedProductID] is 999; the manufacturer page of id 999 has an
    address. *)
Definition sc_id_page (u : string) : option SPage := Some (sc_spage None (Some "999")).

Definition sc_id_mfr (mid : string) : option SweetsAddress.AddressResult :=
  if String.eqb mid "999"
  then Some (SweetsAddress.mkAddressResult "9 Elm St" "Dallas" "Texas" "75201" "" "" "" "")
  else None.

(** A division page with two sections, whose product pages both list the
    same product. *)
Definition sc_two_sections_page (u : string) : option (list Expand.SweetsDivision.SectionLink) :=
  Some [Expand.SweetsDivision.mkSectionLink
          "/masterformat/existing-conditions-02-00-00/demolition-02-41-00"
          (Some ("02 41 00", "Demolition")) 1;
        Expand.SweetsDivision.mkSectionLink
          "/masterformat/existing-conditions-02-00-00/site-remediation-02-50-00"
          (Some ("02 50 00", "Site Remediation")) 1].

Definition sc_one_product_page (u : string) : option (list ProductLink) :=
  Some [mkProductLink "/manufacturer/alpha-1/products/saw-11" "Alpha Inc - Saw"].

End SweetsCrawl.

(** * Proofs *)

Import Arcat.

(** ** Listing expansion: keys, first insertion wins, association filter *)

Lemma seen_mem_false_not_in k seen :
  seen_mem k seen = false -> ~ In k (map fst seen).
Proof.
  unfold seen_mem. intros H Hin. apply in_map_iff in Hin as [[k' c] [Hk Hin]].
  simpl in Hk; subst k'.
  assert (existsb (fun p => String.eqb (fst p) k) seen = true) as Ht.
  { apply existsb_exists. exists (k, c). split; [assumption|]. apply String.eqb_refl. }
  congruence.
Qed.

Lemma manufacturers_step_extends cat st l :
  exists extra, fst (manufacturers_step cat st l) = app (fst st) extra.
Proof.
  destruct st as [seen skipped]. unfold manufacturers_step.
  destruct (_ || _); [exists []; simpl; now rewrite app_nil_r|].
  destruct (seen_mem _ _); [exists []; simpl; now rewrite app_nil_r|].
  destruct (_is_association _); [exists []; simpl; now rewrite app_nil_r|].
  eexists; reflexivity.
Qed.

Lemma manufacturers_step_nodup cat st l :
  NoDup (map fst (fst st)) -> NoDup (map fst (fst (manufacturers_step cat st l))).
Proof.
  destruct st as [seen skipped]. unfold manufacturers_step. simpl. intros Hnd.
  destruct (_ || _); [exact Hnd|].
  destruct (seen_mem _ _) eqn:Hm; [exact Hnd|].
  destruct (_is_association _); [exact Hnd|].
  simpl. rewrite map_app. apply NoDup_app; [exact Hnd| |].
  - constructor; [intros []|constructor].
  - intros a Ha [Heq|[]]. simpl in Heq. subst a.
    exact (seen_mem_false_not_in _ _ Hm Ha).
Qed.

Lemma manufacturers_fold_inv cat links st :
  NoDup (map fst (fst st)) ->
  NoDup (map fst (fst (fold_left (manufacturers_step cat) links st))) /\
  exists extra, fst (fold_left (manufacturers_step cat) links st) = app (fst st) extra.
Proof.
  revert st. induction links as [|l links IH]; intros st Hnd; simpl.
  - split; [exact Hnd|]. exists []. now rewrite app_nil_r.
  - destruct (IH (manufacturers_step cat st l) (manufacturers_step_nodup cat st l Hnd))
      as [H1 [e He]].
    split; [exact H1|].
    destruct (manufacturers_step_extends cat st l) as [e0 He0].
    exists (app e0 e). rewrite He, He0. now rewrite app_assoc.
Qed.

(** ARCAT listing expansion, the first half of C3.  Within the expansion
    of one division listing
    ([scrape_division_manufacturers]) the kept entries have pairwise distinct
    keys (the [href] with its query stripped); links processed later only
    append entries, never modify or replace a kept one; and a later link
    whose key is already kept is dropped whole, so none of its fields, empty
    or not, reaches the kept entity. *)
Lemma arcat_listing_keys_unique_first_wins cat links1 links2 :
  NoDup (map fst (fst (manufacturers_loop cat (app links1 links2)))) /\
  (exists extra,
     fst (manufacturers_loop cat (app links1 links2))
     = app (fst (manufacturers_loop cat links1)) extra) /\
  (forall st l, seen_mem (Str.before "?" (href l)) (fst st) = true ->
     manufacturers_step cat st l = st).
Proof.
  split; [|split].
  - apply manufacturers_fold_inv. constructor.
  - unfold manufacturers_loop. rewrite fold_left_app.
    apply manufacturers_fold_inv.
    apply manufacturers_fold_inv. constructor.
  - intros [seen skipped] l Hm. simpl in Hm. unfold manufacturers_step.
    rewrite Hm. destruct (_ || _); reflexivity.
Qed.

(** ARCAT store, first half of the C3 counterexample.  The entity store
    of a crawl (all divisions) holds
    two entities with the same canonical key when one company is listed in
    two divisions: each division keeps its own copy. *)
Lemma arcat_store_holds_duplicate_key :
  let l := mkLink "/company/acme-1" "Acme Corp" in
  let d1 := fst (scrape_division_manufacturers (Some [l])
                   (mkDivision "02 00 00" "EXISTING CONDITIONS" "u1" [])) in
  let d2 := fst (scrape_division_manufacturers (Some [l])
                   (mkDivision "03 00 00" "CONCRETE" "u2" [])) in
  ~ NoDup (map (fun c => canonical_key (url c)) (companies_of [d1; d2])).
Proof.
  vm_compute. intros H. inversion H as [|x xs Hn _]. apply Hn. left. reflexivity.
Qed.

(** C9 (amended).  A listing entry that passes the earlier filters of the
    loop (non-empty name, no [/cad], [/bim], [/spec] in its href, key not
    already kept) and whose lower-cased name contains a keyword of
    [ASSOCIATION_KEYWORDS] is not stored and increments
    [skipped_associations] by exactly 1; such an entry whose name contains
    no keyword is stored, under its name. *)
Theorem association_entry_excluded_and_counted cat seen skipped l :
  text l <> "" ->
  Str.contains "/cad" (href l) = false ->
  Str.contains "/bim" (href l) = false ->
  Str.contains "/spec" (href l) = false ->
  seen_mem (Str.before "?" (href l)) seen = false ->
  (_is_association (text l) = true ->
     manufacturers_step cat (seen, skipped) l = (seen, S skipped)) /\
  (_is_association (text l) = false ->
     exists c, manufacturers_step cat (seen, skipped) l
               = (app seen [(Str.before "?" (href l), c)], skipped)
               /\ name c = text l).
Proof.
  intros Hn Hc Hb Hs Hm. unfold manufacturers_step.
  apply String.eqb_neq in Hn. rewrite Hn, Hc, Hb, Hs. simpl. rewrite Hm.
  split; intros Ha; rewrite Ha; [reflexivity|].
  eexists. split; reflexivity.
Qed.

Lemma association_entry_excluded_and_counted_witness :
  let l := mkLink "/company/masonry-institute-of-america-123" "Masonry Institute of America" in
  (text l <> "" /\ Str.contains "/cad" (href l) = false /\
   Str.contains "/bim" (href l) = false /\ Str.contains "/spec" (href l) = false /\
   seen_mem (Str.before "?" (href l)) [] = false /\
   _is_association (text l) = true) /\
  manufacturers_step "04 00 00 - MASONRY" ([], 0) l = ([], 1).
Proof.
  intros l.
  assert (Hn : text l <> "") by discriminate.
  split; [split; [exact Hn|]; repeat split; reflexivity|].
  apply (association_entry_excluded_and_counted "04 00 00 - MASONRY" [] 0 l Hn
           eq_refl eq_refl eq_refl eq_refl).
  reflexivity.
Defined.

(** C9 (counterexample).  An entry whose name contains "institute" but whose
    key was already kept for an earlier entry is dropped by the duplicate
    check, before the association test: the counter does not move. *)
Lemma association_entry_not_counted_after_duplicate_key :
  let l1 := mkLink "/company/acme-1" "Acme Corp" in
  let l2 := mkLink "/company/acme-1?ref=x" "Acme Institute" in
  _is_association (text l2) = true /\
  snd (manufacturers_loop "c" [l1; l2]) = snd (manufacturers_loop "c" [l1]).
Proof. vm_compute. split; reflexivity. Qed.

(** ** Fetch client *)

Section FetchProofs.
Import Fetch.

Lemma request_loop_gets_le m b resp s n :
  length (filter is_get (snd (request_loop m b resp (seq s n)))) <= n.
Proof.
  revert s. induction n as [|n IH]; intros s; simpl; [lia|].
  specialize (IH (S s)). destruct (request_loop m b resp (seq (S s) n)) as [r ev].
  simpl in IH.
  destruct (resp s); simpl; try lia;
    destruct (Nat.ltb s (m - 1)); simpl; try lia;
    rewrite filter_app, length_app; simpl; lia.
Qed.

Lemma request_loop_all_transient m b resp s n :
  (forall k, transient (resp k)) -> s + n = m ->
  fst (request_loop m b resp (seq s n)) = None /\
  length (filter is_get (snd (request_loop m b resp (seq s n)))) = n /\
  backoffs (snd (request_loop m b resp (seq s n)))
  = map (fun k => b * 2 ^ k) (seq s (n - 1)).
Proof.
  intros Ht. revert s. induction n as [|n IH]; intros s Hm; [simpl; auto|].
  simpl. assert (Hs : resp s = Timeout \/ resp s = ConnectionError) by apply Ht.
  destruct n as [|n].
  - assert (Hge : Nat.ltb s (m - 1) = false) by (apply Nat.ltb_ge; lia).
    destruct Hs as [Hs|Hs]; rewrite Hs, Hge; simpl; auto.
  - assert (Hlt : Nat.ltb s (m - 1) = true) by (apply Nat.ltb_lt; lia).
    destruct (IH (S s) ltac:(lia)) as [H1 [H2 H3]].
    destruct (request_loop m b resp (seq (S s) (S n))) as [r ev] eqn:E.
    simpl in H1, H2, H3.
    destruct Hs as [Hs|Hs]; rewrite Hs, Hlt; simpl;
      (split; [exact H1|split; [lia|]]);
      rewrite H3; simpl; rewrite Nat.sub_0_r; reflexivity.
Qed.

Lemma nth_map_seq (f : nat -> nat) s n i d :
  i < n -> nth i (map f (seq s n)) d = f (s + i).
Proof.
  intros Hi.
  rewrite nth_indep with (d' := f 0) by (rewrite length_map, length_seq; lia).
  rewrite map_nth, seq_nth by lia. reflexivity.
Qed.

End FetchProofs.

(** C6.  [_make_request] never makes more than [max_retries] attempts (it is
    a bounded loop, so it always returns); when every attempt ends in a
    timeout or a connection error it makes exactly [max_retries] attempts,
    returns the classified failure [None], and the backoff delays it sleeps,
    [base * 2^attempt] before each retry, are strictly increasing. *)
Theorem make_request_bounded_backoff m b resp :
  length (filter Fetch.is_get (snd (Fetch._make_request m b resp))) <= m /\
  ((forall k, Fetch.transient (resp k)) -> 0 < b ->
     fst (Fetch._make_request m b resp) = None /\
     length (filter Fetch.is_get (snd (Fetch._make_request m b resp))) = m /\
     Fetch.backoffs (snd (Fetch._make_request m b resp))
       = map (fun k => b * 2 ^ k) (seq 0 (m - 1)) /\
     (forall i, S i < length (Fetch.backoffs (snd (Fetch._make_request m b resp))) ->
        nth i (Fetch.backoffs (snd (Fetch._make_request m b resp))) 0
        < nth (S i) (Fetch.backoffs (snd (Fetch._make_request m b resp))) 0)).
Proof.
  unfold Fetch._make_request. split; [apply request_loop_gets_le|].
  intros Ht Hb.
  destruct (request_loop_all_transient m b resp 0 m Ht eq_refl) as [H1 [H2 H3]].
  split; [exact H1|split; [exact H2|split; [exact H3|]]].
  rewrite H3. intros i Hi. rewrite length_map, length_seq in Hi.
  rewrite !nth_map_seq by lia. cbn [Nat.add].
  rewrite Nat.pow_succ_r'. pose proof (Nat.pow_nonzero 2 i ltac:(lia)). nia.
Qed.

Lemma make_request_bounded_backoff_witness :
  ((forall k, Fetch.transient ((fun _ : nat => Fetch.Timeout) k)) /\ 0 < Fetch.RETRY_DELAY_BASE) /\
  Fetch.backoffs (snd (Fetch._make_request Fetch.MAX_RETRIES Fetch.RETRY_DELAY_BASE
                          (fun _ : nat => Fetch.Timeout))) = [5; 10].
Proof.
  assert (Ht : forall k, Fetch.transient ((fun _ : nat => Fetch.Timeout) k)) by (intros k; left; reflexivity).
  assert (Hb : 0 < Fetch.RETRY_DELAY_BASE) by (unfold Fetch.RETRY_DELAY_BASE; lia).
  split; [split; assumption|].
  destruct (make_request_bounded_backoff Fetch.MAX_RETRIES Fetch.RETRY_DELAY_BASE
              (fun _ : nat => Fetch.Timeout)) as [_ H].
  destruct (H Ht Hb) as [_ [_ [E _]]]. rewrite E. reflexivity.
Defined.

(** ** Progress tracker *)

Section ProgressProofs.
Import ZArith QArith Qround Progress.

Lemma inject_Z_nonzero z : z <> 0%Z -> Qeq_bool (inject_Z z) 0 = false.
Proof.
  intros Hz. destruct (Qeq_bool (inject_Z z) 0) eqn:E; [|reflexivity].
  apply Qeq_bool_iff in E. unfold Qeq in E. simpl in E. lia.
Qed.

Lemma length_nonzero (l : list Q) : l <> [] -> Z.of_nat (length l) <> 0%Z.
Proof. destruct l; [congruence|]. simpl. lia. Qed.

(** C10.  Every query of [ProgressTracker] returns a value (no
    [ZeroDivisionError]): [get_percentage] is [0] when the total is [0],
    [get_eta_seconds] is [0] when no duration is recorded or nothing has been
    scraped, and [get_speed] is [0] when no duration is recorded or their
    average is [0]. *)
Theorem progress_queries_total (t : ProgressTracker) :
  get_percentage t <> None /\
  get_eta_seconds t <> None /\
  get_speed t <> None /\
  (total_companies t = 0%Z -> get_percentage t = Some 0) /\
  (scrape_times t = [] \/ scraped_companies t = 0%Z -> get_eta_seconds t = Some 0) /\
  (scrape_times t = [] -> get_speed t = Some 0) /\
  (scrape_times t <> [] ->
   sumQ (scrape_times t) / inject_Z (Z.of_nat (length (scrape_times t))) == 0 ->
   get_speed t = Some 0).
Proof.
  assert (Hpct : get_percentage t <> None).
  { unfold get_percentage, py_div.
    destruct (Z.eqb (total_companies t) 0) eqn:Et; [discriminate|].
    apply Z.eqb_neq in Et. rewrite (inject_Z_nonzero _ Et). discriminate. }
  assert (Hpz : total_companies t = 0%Z -> get_percentage t = Some 0).
  { intros H. unfold get_percentage. rewrite H. reflexivity. }
  split; [exact Hpct|].
  destruct t as [total scraped times]. unfold get_eta_seconds, get_speed, py_div.
  cbn [scrape_times scraped_companies total_companies] in *.
  destruct times as [|t0 ts].
  - split; [discriminate|]. split; [discriminate|]. split; [exact Hpz|].
    split; [intros _; reflexivity|]. split; [intros _; reflexivity|].
    intros H; congruence.
  - assert (Hlen := inject_Z_nonzero _ (length_nonzero (t0 :: ts) ltac:(discriminate))).
    rewrite Hlen.
    split; [destruct (Z.eqb scraped 0); discriminate|].
    split; [repeat match goal with |- context [Qeq_bool ?a ?b] => destruct (Qeq_bool a b) end;
            discriminate|].
    split; [exact Hpz|].
    split; [intros [H|H]; [discriminate|]; rewrite H; reflexivity|].
    split; [intros H; discriminate|].
    intros _ Havg. apply Qeq_bool_iff in Havg. rewrite Havg. reflexivity.
Qed.

End ProgressProofs.

(** ** Company detail extraction *)

Section DetailProofs.
Import ArcatDetail.

Ltac case_ifs :=
  repeat match goal with |- context [if ?b then _ else _] => destruct b end.

Lemma nonempty_false s : nonempty s = false -> s = "".
Proof.
  unfold nonempty. intros H. destruct (String.eqb s "") eqn:E; [|discriminate].
  now apply String.eqb_eq.
Qed.

Lemma apply_nuxt_fields nd c :
  address (apply_nuxt nd c) = (if nonempty (n_address nd) then compose_address nd else address c) /\
  phone (apply_nuxt nd c) = (if nonempty (n_phone nd) then n_phone nd else phone c) /\
  website (apply_nuxt nd c) = (if nonempty (n_website nd) then n_website nd else website c) /\
  email (apply_nuxt nd c) = (if nonempty (n_email nd) then n_email nd else email c).
Proof. unfold apply_nuxt. case_ifs; repeat split. Qed.

Lemma address_fallback_fields h c :
  address (address_fallback h c)
  = (if nonempty (address c) then address c
     else if nonempty (text_address h) then Str2.strip (text_address h) else address c) /\
  phone (address_fallback h c) = phone c /\ website (address_fallback h c) = website c /\
  email (address_fallback h c) = email c.
Proof. unfold address_fallback. case_ifs; repeat split. Qed.

Lemma phone_fallback_fields h c :
  phone (phone_fallback h c)
  = (if nonempty (phone c) then phone c
     else if nonempty (text_phone h) then Str2.strip (text_phone h) else phone c) /\
  address (phone_fallback h c) = address c /\ state (phone_fallback h c) = state c /\
  website (phone_fallback h c) = website c /\ email (phone_fallback h c) = email c.
Proof. unfold phone_fallback. case_ifs; repeat split. Qed.

Lemma website_fallback_fields h c :
  website (website_fallback h c)
  = (if nonempty (website c) then website c
     else if nonempty (link_website h) then link_website h else website c) /\
  address (website_fallback h c) = address c /\ state (website_fallback h c) = state c /\
  phone (website_fallback h c) = phone c /\ email (website_fallback h c) = email c.
Proof. unfold website_fallback. case_ifs; repeat split. Qed.

Lemma email_fallback_fields h c :
  email (email_fallback h c)
  = (if nonempty (email c) then email c
     else if nonempty (mailto_email h) then Str2.strip (mailto_email h)
     else if nonempty (text_email h)
             && negb (existsb (fun x => Str.contains x (Str.lower (text_email h)))
                              EXCLUDED_EMAIL)
          then text_email h else email c) /\
  address (email_fallback h c) = address c /\ state (email_fallback h c) = state c /\
  phone (email_fallback h c) = phone c /\ website (email_fallback h c) = website c.
Proof. unfold email_fallback. case_ifs; repeat split. Qed.

Lemma expert_step_fields h c :
  address (expert_step h c) = address c /\ state (expert_step h c) = state c /\
  phone (expert_step h c) = phone c /\ website (expert_step h c) = website c /\
  email (expert_step h c) = email c.
Proof. unfold expert_step. destruct (expert h) as [[[x y] z]|]; repeat split. Qed.

Lemma extract_with_soup_fields h c :
  let c1 := apply_nuxt (_extract_from_nuxt_data (blob h) (blob_website h)) c in
  address (extract_with_soup h c)
  = (if nonempty (address c1) then address c1
     else if nonempty (text_address h) then Str2.strip (text_address h) else address c1) /\
  state (extract_with_soup h c) = state (address_fallback h c1) /\
  phone (extract_with_soup h c)
  = (if nonempty (phone c1) then phone c1
     else if nonempty (text_phone h) then Str2.strip (text_phone h) else phone c1) /\
  website (extract_with_soup h c)
  = (if nonempty (website c1) then website c1
     else if nonempty (link_website h) then link_website h else website c1) /\
  email (extract_with_soup h c)
  = (if nonempty (email c1) then email c1
     else if nonempty (mailto_email h) then Str2.strip (mailto_email h)
     else if nonempty (text_email h)
             && negb (existsb (fun x => Str.contains x (Str.lower (text_email h)))
                              EXCLUDED_EMAIL)
          then text_email h else email c1).
Proof.
  intros c1. unfold extract_with_soup. fold c1. cbv zeta.
  set (c2 := address_fallback h c1). set (c3 := phone_fallback h c2).
  set (c4 := website_fallback h c3). set (c5 := email_fallback h c4).
  destruct (expert_step_fields h c5) as (E1 & E2 & E3 & E4 & E5).
  destruct (email_fallback_fields h c4) as (F0 & F1 & F2 & F3 & F4).
  destruct (website_fallback_fields h c3) as (G0 & G1 & G2 & G3 & G4).
  destruct (phone_fallback_fields h c2) as (H0 & H1 & H2 & H3 & H4).
  destruct (address_fallback_fields h c1) as (I0 & I1 & I2 & I3).
  rewrite E1, E2, E3, E4, E5. unfold c5.
  rewrite F0, F1, F2, F3, F4. unfold c4. rewrite G0, G1, G2, G3, G4. unfold c3.
  rewrite H0, H1, H2, H3, H4. unfold c2. rewrite I0, I1, I2, I3.
  repeat split.
Qed.

(** Once the NUXT step has filled address, phone and email, the fallbacks
    leave the four contact fields alone. *)
Lemma extract_keeps_filled h c :
  let c1 := apply_nuxt (_extract_from_nuxt_data (blob h) (blob_website h)) c in
  nonempty (address c1) = true -> nonempty (phone c1) = true ->
  nonempty (email c1) = true ->
  fields4 (extract_with_soup h c) = fields4 c1.
Proof.
  intros c1 Ha Hp He.
  destruct (extract_with_soup_fields h c) as (E1 & E2 & E3 & _ & E5).
  fold c1 in E1, E2, E3, E5.
  unfold fields4. rewrite E1, E2, E3, E5, Ha, Hp, He.
  unfold address_fallback. rewrite Ha. reflexivity.
Qed.


Lemma scenario_nuxt bw :
  _extract_from_nuxt_data scenario_blob bw
  = mkNuxt "123 Oak Rd." "Austin" "TX" "78701" "512-555-0100" "info@example.com" bw.
Proof. reflexivity. Qed.

Lemma scenario_apply_nuxt bw c :
  fields4 (apply_nuxt (mkNuxt "123 Oak Rd." "Austin" "TX" "78701" "512-555-0100"
                               "info@example.com" bw) c)
  = ("123 Oak Rd., Austin, TX 78701", "Texas", "512-555-0100", "info@example.com").
Proof.
  unfold apply_nuxt. cbn [n_address n_city n_state n_zip n_phone n_email n_website].
  destruct (nonempty bw); reflexivity.
Qed.

Lemma nonempty_empty : nonempty "" = false.
Proof. reflexivity. Qed.

Lemma apply_nuxt_rest nd c :
  ident (apply_nuxt nd c) = ident c /\ experts (apply_nuxt nd c) = experts c /\
  state (apply_nuxt nd c) = (if nonempty (n_address nd) then state_of nd else state c).
Proof. unfold apply_nuxt. case_ifs; repeat split. Qed.

Lemma address_fallback_rest h c :
  ident (address_fallback h c) = ident c /\ experts (address_fallback h c) = experts c /\
  state (address_fallback h c)
  = (if nonempty (address c) then state c
     else if nonempty (text_address h) then
       (if nonempty (Str2.strip (text_address h))
        then _extract_state_from_address (Str2.strip (text_address h)) else state c)
     else state c).
Proof.
  unfold address_fallback.
  destruct (nonempty (address c)) eqn:Ea; [repeat split|].
  destruct (nonempty (text_address h)); simpl;
    [case_ifs; repeat split | rewrite Ea; repeat split].
Qed.

Lemma fallbacks_rest h c :
  ident (phone_fallback h c) = ident c /\ experts (phone_fallback h c) = experts c /\
  ident (website_fallback h c) = ident c /\ experts (website_fallback h c) = experts c /\
  ident (email_fallback h c) = ident c /\ experts (email_fallback h c) = experts c /\
  ident (expert_step h c) = ident c /\
  experts (expert_step h c)
  = (match expert h with Some e => e | None => experts c end).
Proof.
  unfold phone_fallback, website_fallback, email_fallback, expert_step.
  destruct (expert h) as [[[x y] z]|]; case_ifs; repeat split.
Qed.

Lemma extract_with_soup_rest h c :
  let c1 := apply_nuxt (_extract_from_nuxt_data (blob h) (blob_website h)) c in
  ident (extract_with_soup h c) = ident c /\
  experts (extract_with_soup h c) = (match expert h with Some e => e | None => experts c end).
Proof.
  intros c1. unfold extract_with_soup. fold c1. cbv zeta.
  destruct (apply_nuxt_rest (_extract_from_nuxt_data (blob h) (blob_website h)) c) as (N1 & N2 & _).
  fold c1 in N1, N2.
  set (c2 := address_fallback h c1). set (c3 := phone_fallback h c2).
  set (c4 := website_fallback h c3). set (c5 := email_fallback h c4).
  destruct (address_fallback_rest h c1) as (A1 & A2 & _).
  destruct (fallbacks_rest h c2) as (P1 & P2 & _).
  destruct (fallbacks_rest h c3) as (_ & _ & W1 & W2 & _).
  destruct (fallbacks_rest h c4) as (_ & _ & _ & _ & M1 & M2 & _).
  destruct (fallbacks_rest h c5) as (_ & _ & _ & _ & _ & _ & E1 & E2).
  rewrite E1, E2. unfold c5. rewrite M1, M2. unfold c4. rewrite W1, W2. unfold c3.
  rewrite P1, P2. unfold c2. rewrite A1, A2, N1, N2. split; reflexivity.
Qed.

Lemma company_ext2 a b :
  ident a = ident b -> experts a = experts b -> address a = address b ->
  state a = state b -> phone a = phone b -> website a = website b ->
  email a = email b -> a = b.
Proof.
  destruct a, b; unfold ident, experts; cbn.
  intros H1 H2 H3 H4 H5 H6 H7. injection H1. injection H2. intros. subst. reflexivity.
Qed.

Lemma extract_with_soup_state h c :
  let nd := _extract_from_nuxt_data (blob h) (blob_website h) in
  let a1 := if nonempty (n_address nd) then compose_address nd else address c in
  let s1 := if nonempty (n_address nd) then state_of nd else state c in
  state (extract_with_soup h c)
  = (if nonempty a1 then s1
     else if nonempty (text_address h) then
       (if nonempty (Str2.strip (text_address h))
        then _extract_state_from_address (Str2.strip (text_address h)) else s1)
     else s1).
Proof.
  intros nd a1 s1.
  destruct (extract_with_soup_fields h c) as (_ & E & _). rewrite E. fold nd.
  destruct (address_fallback_rest h (apply_nuxt nd c)) as (_ & _ & S). rewrite S.
  destruct (apply_nuxt_rest nd c) as (_ & _ & S1).
  destruct (apply_nuxt_fields nd c) as (A1 & _).
  rewrite S1, A1. reflexivity.
Qed.

Ltac crush :=
  repeat first
    [ progress (cbv beta iota in * )
    | match goal with H : nonempty ?x = _ |- context [nonempty ?x] => rewrite H end
    | match goal with
      | H : nonempty ?x = _, H2 : context [nonempty ?x] |- _ =>
          lazymatch type of H2 with nonempty x = _ => fail | _ => rewrite H in H2 end
      end
    | match goal with |- context [if ?b then _ else _] => destruct b eqn:? end
    | match goal with H : context [if ?b then _ else _] |- _ => destruct b eqn:? end ];
  try congruence.

(** Extracting again from the same page a company whose address stayed
    empty changes nothing. *)
Lemma extract_with_soup_idem h c :
  address (extract_with_soup h c) = "" ->
  extract_with_soup h (extract_with_soup h c) = extract_with_soup h c.
Proof.
  intros Hx.
  pose proof nonempty_empty as NE0.
  set (nd := _extract_from_nuxt_data (blob h) (blob_website h)).
  set (x := extract_with_soup h c) in *.
  destruct (extract_with_soup_fields h c) as (Xa & _ & Xp & Xw & Xe).
  destruct (extract_with_soup_rest h c) as (Xi & Xx).
  pose proof (extract_with_soup_state h c) as Xs.
  destruct (apply_nuxt_fields nd c) as (Na & Np & Nw & Ne).
  fold nd in Xa, Xp, Xw, Xe, Xi, Xx, Xs. fold x in Xa, Xp, Xw, Xe, Xi, Xx, Xs.
  rewrite Na in Xa. rewrite Np in Xp. rewrite Nw in Xw. rewrite Ne in Xe.
  destruct (extract_with_soup_fields h x) as (Ya & _ & Yp & Yw & Ye).
  destruct (extract_with_soup_rest h x) as (Yi & Yx).
  pose proof (extract_with_soup_state h x) as Ys.
  destruct (apply_nuxt_fields nd x) as (Ma & Mp & Mw & Me).
  fold nd in Ya, Yp, Yw, Ye, Yi, Yx, Ys.
  rewrite Ma in Ya. rewrite Mp in Yp. rewrite Mw in Yw. rewrite Me in Ye.
  clear Na Np Nw Ne Ma Mp Mw Me.
  apply company_ext2.
  - rewrite Yi, Xi. reflexivity.
  - rewrite Yx, Xx. destruct (expert h); reflexivity.
  - rewrite Ya, Hx. rewrite Xa in Hx. clear - Hx NE0. crush.
  - rewrite Ys, Xs, Hx. rewrite Xa in Hx. clear - Hx NE0. crush.
  - rewrite Yp, Xp. clear - NE0. crush.
  - rewrite Yw, Xw. clear - NE0. crush.
  - rewrite Ye, Xe. clear - NE0. crush.
Qed.

(** C8 (counterexample).  On the scenario markup the stored address keeps the
    region token "TX" (the full name goes to the separate [state] field) and
    the phone is stored as written. *)
Lemma scenario_address_keeps_abbreviation :
  let h := mkHtml scenario_blob "" "" "" "" "" "" None in
  let c := new_company "Oak Supply" "https://www.arcat.com/company/oak-supply-1" "1"
             "02 00 00 - EXISTING CONDITIONS" in
  option_map address (scrape_company_details false (mkPage None (Some h)) c)
    <> Some "123 Oak Rd., Austin, Texas 78701" /\
  option_map phone (scrape_company_details false (mkPage None (Some h)) c)
    <> Some "(512) 555-0100".
Proof. vm_compute. split; discriminate. Qed.

(** C8 (amended).  For every detail page whose serialized data holds the
    scenario fields, the default (non-Selenium) extraction of a company that
    has no address yet stores the address "123 Oak Rd., Austin, TX 78701",
    the state "Texas", the phone "512-555-0100" and the email
    "info@example.com", whatever the rest of the page holds. *)
Theorem scenario_extraction pg h c :
  req pg = Some h -> blob h = scenario_blob -> address c = "" ->
  option_map fields4 (scrape_company_details false pg c)
  = Some ("123 Oak Rd., Austin, TX 78701", "Texas", "512-555-0100", "info@example.com").
Proof.
  intros Hreq Hblob Haddr.
  unfold scrape_company_details. rewrite Haddr. cbn [negb nonempty String.eqb].
  rewrite Hreq. cbn [option_map].
  rewrite extract_keeps_filled; rewrite Hblob, scenario_nuxt;
    [apply f_equal, scenario_apply_nuxt| | |];
    unfold apply_nuxt; cbn [n_address n_city n_state n_zip n_phone n_email n_website];
    destruct (nonempty (blob_website h)); reflexivity.
Qed.

Lemma scenario_extraction_witness :
  let h := mkHtml scenario_blob "" "" "" "" "" "" None in
  let pg := mkPage None (Some h) in
  let c := new_company "Oak Supply" "https://www.arcat.com/company/oak-supply-1" "1"
             "02 00 00 - EXISTING CONDITIONS" in
  (req pg = Some h /\ blob h = scenario_blob /\ address c = "") /\
  option_map fields4 (scrape_company_details false pg c)
  = Some ("123 Oak Rd., Austin, TX 78701", "Texas", "512-555-0100", "info@example.com").
Proof.
  intros h pg c.
  split; [split; [reflexivity|split; reflexivity]|].
  apply (scenario_extraction pg h c); reflexivity.
Defined.

(** ARCAT, first half of the C5 counterexample.  With Selenium enabled, a phone taken from the
    rendered page is overwritten by the phone of the serialized data, which
    the code reads afterwards. *)
Lemma arcat_rendered_phone_overwritten :
  let r := mkRendered "12 Elm St, Austin, TX 78701" "TX" "111-111-1111" "" "" in
  let h := mkHtml scenario_blob "" "" "" "" "" "" None in
  let c := new_company "Oak Supply" "https://www.arcat.com/company/oak-supply-1" "1"
             "02 00 00 - EXISTING CONDITIONS" in
  phone (apply_rendered r c) = "111-111-1111" /\
  option_map phone (scrape_company_details true (mkPage (Some (h, r)) None) c)
  = Some "512-555-0100".
Proof. vm_compute. split; reflexivity. Qed.

(** ARCAT part of C5.  In the default (non-Selenium) mode, for a company with
    no contact field yet, each of address, phone, website and email of the
    detailed company is the value of the first strategy of its group that
    matches: the serialized (NUXT) data first, then the page-text or link
    fallback (for email: mailto link, then a text match outside the
    excluded words); a later strategy never replaces an earlier match. *)
Lemma arcat_detail_precedence pg h c :
  req pg = Some h -> address c = "" -> phone c = "" -> website c = "" -> email c = "" ->
  let nd := _extract_from_nuxt_data (blob h) (blob_website h) in
  option_map (fun c' => (address c', phone c', website c', email c'))
    (scrape_company_details false pg c)
  = Some ((if nonempty (nuxt_full_address nd) then nuxt_full_address nd
           else if nonempty (text_address h) then Str2.strip (text_address h) else ""),
          (if nonempty (n_phone nd) then n_phone nd
           else if nonempty (text_phone h) then Str2.strip (text_phone h) else ""),
          (if nonempty (n_website nd) then n_website nd else link_website h),
          (if nonempty (n_email nd) then n_email nd
           else if nonempty (mailto_email h) then Str2.strip (mailto_email h)
           else if nonempty (text_email h)
                   && negb (existsb (fun x => Str.contains x (Str.lower (text_email h)))
                                    EXCLUDED_EMAIL)
           then text_email h else "")).
Proof.
  intros Hreq Ha Hp Hw He nd.
  unfold scrape_company_details. rewrite Ha. cbn [negb nonempty String.eqb].
  rewrite Hreq. cbn [option_map].
  destruct (extract_with_soup_fields h c) as (E1 & _ & E3 & E4 & E5). fold nd in E1, E3, E4, E5.
  rewrite E1, E3, E4, E5.
  destruct (apply_nuxt_fields nd c) as (Na & Np & Nw & Ne).
  rewrite Na, Np, Nw, Ne, Ha, Hp, Hw, He. unfold nuxt_full_address.
  clear E1 E3 E4 E5 Na Np Nw Ne.
  destruct (nonempty (n_phone nd)) eqn:Ep, (nonempty (n_website nd)) eqn:Ew,
    (nonempty (n_email nd)) eqn:Ee;
  destruct (nonempty (n_address nd)) eqn:Ea;
  cbn [nonempty String.eqb negb]; rewrite ?Ep, ?Ew, ?Ee;
  try (destruct (nonempty (compose_address nd)) eqn:Ec;
       [|rewrite (nonempty_false _ Ec)]);
  try (destruct (nonempty (link_website h)) eqn:El;
       [|rewrite (nonempty_false _ El)]); reflexivity.
Qed.

End DetailProofs.

(** ** The CSI-only crawl *)

Section CrawlProofs.
Import ArcatDetail Orchestrator.

Lemma detail_loop_fetched page interval divs scraped done todo count dsk log stop :
  let o := detail_loop page interval divs scraped done todo count dsk log stop in
  let want := app log (filter (fun u => negb (mem u scraped)) (map url todo)) in
  (exists rest, app (fetched o) rest = want) /\ (status o = Finished -> fetched o = want).
Proof.
  revert done count dsk log stop.
  induction todo as [|c rest IH]; intros done count dsk log stop o want; subst o want.
  - cbn. rewrite app_nil_r. split; [exists []; apply app_nil_r | reflexivity].
  - cbn [detail_loop map filter]. destruct (mem (url c) scraped) eqn:E; cbn [negb].
    + apply IH.
    + destruct stop as [[[|n] s]|]; [destruct s| |].
      * split; [exists (url c :: filter (fun u => negb (mem u scraped)) (map url rest));
                reflexivity | discriminate].
      * split; [exists (url c :: filter (fun u => negb (mem u scraped)) (map url rest));
                reflexivity | discriminate].
      * destruct (scrape_company_details false (page (url c)) c) as [c'|].
        -- lazymatch goal with
           | |- context [detail_loop page interval divs scraped ?d rest ?n ?k ?l ?s] =>
               destruct (IH d n k l s) as [[r Hr] Hf]
           end. rewrite <- app_assoc in Hr, Hf.
           split; [exists r; exact Hr | exact Hf].
        -- split; [exists (url c :: filter (fun u => negb (mem u scraped)) (map url rest));
                   reflexivity | discriminate].
      * destruct (scrape_company_details false (page (url c)) c) as [c'|].
        -- lazymatch goal with
           | |- context [detail_loop page interval divs scraped ?d rest ?n ?k ?l ?s] =>
               destruct (IH d n k l s) as [[r Hr] Hf]
           end. rewrite <- app_assoc in Hr, Hf.
           split; [exists r; exact Hr | exact Hf].
        -- split; [exists (url c :: filter (fun u => negb (mem u scraped)) (map url rest));
                   reflexivity | discriminate].
Qed.

(** ARCAT part of C1: on a resume from a [csi-only] checkpoint, the detail pages
    requested are, in order, a prefix of the URLs of the first-pass companies
    that are not among the restored companies with a non-empty address, and
    exactly those URLs when the run finishes.  The skip test is the address,
    not a record of completed detail fetches: a company detailed before the
    checkpoint whose address stayed empty is fetched again. *)
Lemma arcat_resume_fetches_only_unscraped related listing page interval ck stop :
  mode ck = "csi-only" ->
  let o := scrape_csi_only related listing page interval true (Some ck) stop in
  let divs := first_pass listing
                (match ck_divisions ck with [] => related | l => l end) in
  let want := filter (fun u => negb (mem u (scraped_urls (ck_divisions ck))))
                     (map url (companies_of divs)) in
  (exists rest, app (fetched o) rest = want) /\ (status o = Finished -> fetched o = want).
Proof.
  intros Hmode o divs want. subst o.
  unfold scrape_csi_only, restore. rewrite Hmode. cbn [String.eqb Ascii.eqb Bool.eqb andb].
  subst divs want. destruct (ck_divisions ck);
    exact (detail_loop_fetched page interval _ _ [] _ _ _ [] stop).
Qed.

Lemma url_extract h c : url (extract_with_soup h c) = url c.
Proof.
  destruct (extract_with_soup_rest h c) as [I _]. unfold ident in I.
  injection I. auto.
Qed.

Lemma details_fresh pg c :
  address c = "" ->
  scrape_company_details false pg c
  = Some (match req pg with Some h => extract_with_soup h c | None => c end).
Proof.
  intros Ha. unfold scrape_company_details. rewrite Ha. cbn [negb nonempty String.eqb].
  destruct (req pg); reflexivity.
Qed.

Lemma detailed_fresh page c :
  address c = "" -> scrape_company_details false (page (url c)) c = Some (detailed page c).
Proof. intros Ha. unfold detailed. now rewrite (details_fresh _ _ Ha). Qed.

Lemma url_detailed page c : url (detailed page c) = url c.
Proof.
  unfold detailed, scrape_company_details. cbv zeta.
  destruct (negb (nonempty (address c))).
  - destruct (req (page (url c))); [apply url_extract|reflexivity].
  - destruct (_ || _); reflexivity.
Qed.

Lemma detailed_idem page c :
  address c = "" -> address (detailed page c) = "" ->
  detailed page (detailed page c) = detailed page c.
Proof.
  intros Ha Hd. unfold detailed at 1. rewrite url_detailed.
  rewrite (details_fresh _ _ Hd). unfold detailed in *.
  rewrite (details_fresh _ _ Ha) in *.
  destruct (req (page (url c))) as [h|]; [|reflexivity].
  now apply extract_with_soup_idem.
Qed.

(** ** Cutting and refilling the store *)

Lemma companies_of_refill divs cs :
  length cs = length (companies_of divs) -> companies_of (refill divs cs) = cs.
Proof.
  revert cs. induction divs as [|d ds IH]; intros cs Hl.
  - destruct cs; [reflexivity|discriminate].
  - cbn [refill companies_of flat_map] in *. fold (companies_of ds) in *.
    fold (companies_of (refill ds (skipn (length (companies d)) cs))).
    cbn [companies with_companies].
    rewrite IH; [apply firstn_skipn|].
    rewrite length_skipn, Hl, length_app. lia.
Qed.

Lemma refill_refill divs cs xs :
  length cs = length (companies_of divs) -> refill (refill divs cs) xs = refill divs xs.
Proof.
  revert cs xs. induction divs as [|d ds IH]; intros cs xs Hl; [reflexivity|].
  cbn [refill companies_of flat_map] in *. fold (companies_of ds) in *.
  rewrite length_app in Hl. cbn [companies with_companies].
  rewrite length_firstn, Nat.min_l by lia.
  rewrite IH by (rewrite length_skipn; lia). reflexivity.
Qed.

Lemma refill_nil divs cs : refill divs cs = [] -> divs = [].
Proof. destruct divs; [reflexivity|discriminate]. Qed.

(** ** The first pass *)

Lemma expand_idem listing d : expand listing (expand listing d) = expand listing d.
Proof.
  unfold expand. destruct (companies d) eqn:Ec; [|rewrite Ec; reflexivity].
  unfold scrape_division_manufacturers.
  destruct (listing (durl d)) as [links|] eqn:El.
  - destruct (manufacturers_loop (code d ++ " - " ++ dname d) links) as [seen sk] eqn:Em.
    cbn [fst companies with_companies durl code dname].
    destruct (map snd seen) eqn:Es; [|reflexivity].
    rewrite El, Em. cbn. rewrite Es. reflexivity.
  - cbn [fst]. rewrite Ec, El. reflexivity.
Qed.

Lemma with_companies_same e : with_companies e (companies e) = e.
Proof. destruct e; reflexivity. Qed.

Lemma expand_with_companies listing e cs :
  expand listing e = e -> length cs = length (companies e) ->
  expand listing (with_companies e cs) = with_companies e cs.
Proof.
  intros He Hl. destruct cs as [|c cs].
  - destruct (companies e) eqn:Ec; [|discriminate].
    rewrite <- Ec, with_companies_same. exact He.
  - reflexivity.
Qed.

Lemma first_pass_refill listing divs cs :
  Forall (fun e => expand listing e = e) divs ->
  length cs = length (companies_of divs) ->
  first_pass listing (refill divs cs) = refill divs cs.
Proof.
  revert cs. induction divs as [|d ds IH]; intros cs Hf Hl; [reflexivity|].
  inversion Hf as [|? ? Hd Hds]; subst.
  cbn [refill companies_of flat_map] in *. fold (companies_of ds) in *.
  rewrite length_app in Hl. unfold first_pass in *. cbn [map].
  rewrite expand_with_companies by (auto; rewrite length_firstn; lia).
  rewrite IH by (auto; rewrite length_skipn; lia). reflexivity.
Qed.

Lemma first_pass_fixed listing divs :
  Forall (fun e => expand listing e = e) (first_pass listing divs).
Proof.
  unfold first_pass. apply Forall_forall. intros e He.
  apply in_map_iff in He as [d [<- _]]. apply expand_idem.
Qed.

Lemma manufacturers_fresh cat links st :
  Forall (fun p => address (snd p) = "") (fst st) ->
  Forall (fun p => address (snd p) = "") (fst (fold_left (manufacturers_step cat) links st)).
Proof.
  revert st. induction links as [|l ls IH]; intros st Hst; [exact Hst|].
  cbn [fold_left]. apply IH. destruct st as [seen sk]. unfold manufacturers_step.
  cbn [fst] in *.
  destruct (_ || _); [exact Hst|].
  destruct (seen_mem _ _); [exact Hst|].
  destruct (_is_association _); [exact Hst|].
  apply Forall_app. split; [exact Hst|]. constructor; [reflexivity|constructor].
Qed.

Lemma first_pass_fresh listing related :
  Forall (fun d => companies d = []) related ->
  Forall (fun c => address c = "") (companies_of (first_pass listing related)).
Proof.
  induction related as [|d ds IH]; intros Hr; [constructor|].
  inversion Hr as [|? ? Hd Hds]; subst.
  cbn [first_pass map companies_of flat_map]. apply Forall_app. split; [|apply IH, Hds].
  unfold expand. rewrite Hd. unfold scrape_division_manufacturers.
  destruct (listing (durl d)); cbn [fst companies with_companies].
  - destruct (manufacturers_loop _ _) as [seen sk] eqn:Em. cbn [fst companies with_companies].
    apply Forall_map.
    pose proof (manufacturers_fresh (code d ++ " - " ++ dname d) l ([], 0)) as F.
    unfold manufacturers_loop in Em. rewrite Em in F. apply F. constructor.
  - rewrite Hd. constructor.
Qed.

(** ** The second pass *)

Lemma loop_finish page interval divs scraped done todo count dsk log :
  (forall c, In c todo -> mem (url c) scraped = false -> address c = "") ->
  let o := detail_loop page interval divs scraped done todo count dsk log None in
  status o = Finished /\
  store o = refill divs (app (rev done) (map (resume_step page scraped) todo)).
Proof.
  revert done count dsk log.
  induction todo as [|c rest IH]; intros done count dsk log Hf o; subst o.
  - cbn. rewrite app_nil_r. split; reflexivity.
  - cbn [detail_loop map]. unfold resume_step at 1.
    destruct (mem (url c) scraped) eqn:Em.
    + destruct (IH (c :: done) count dsk log) as [H1 H2]; [intros c0 Hin Hm; apply Hf; [right; exact Hin | exact Hm]|].
      split; [exact H1|]. rewrite H2. cbn [rev]. now rewrite <- app_assoc.
    + rewrite (detailed_fresh page c (Hf c (or_introl eq_refl) Em)).
      cbv beta iota zeta. change (tick None) with (@None (nat * Stop)).
      lazymatch goal with
      | |- context [detail_loop page interval divs scraped ?d rest ?n ?k ?l None] =>
          destruct (IH d n k l) as [H1 H2]; [intros c0 Hin Hm; apply Hf; [right; exact Hin | exact Hm]|]
      end.
      split; [exact H1|]. rewrite H2. cbn [rev]. now rewrite <- app_assoc.
Qed.

Lemma loop_disk page interval divs done todo count dsk log stop :
  Forall (fun c => address c = "") todo ->
  let o := detail_loop page interval divs [] done todo count dsk log stop in
  disk o = dsk \/
  exists m n, disk o = save (refill divs (app (rev done)
                         (app (map (detailed page) (firstn m todo)) (skipn m todo)))) n.
Proof.
  revert done count dsk log stop.
  induction todo as [|c rest IH]; intros done count dsk log stop Hf o; subst o.
  - right. exists 0, count. cbn. rewrite app_nil_r. reflexivity.
  - inversion Hf as [|? ? Hc Hrest]; subst.
    cbn [detail_loop mem existsb].
    assert (Hcut : forall n, save (refill divs (app (rev done) (c :: rest))) n
                   = save (refill divs (app (rev done)
                       (app (map (detailed page) (firstn 0 (c :: rest))) (skipn 0 (c :: rest))))) n)
      by reflexivity.
    assert (Hmove : forall m n,
      save (refill divs (app (rev (detailed page c :: done))
              (app (map (detailed page) (firstn m rest)) (skipn m rest)))) n
      = save (refill divs (app (rev done)
              (app (map (detailed page) (firstn (S m) (c :: rest))) (skipn (S m) (c :: rest))))) n).
    { intros m n. cbn [rev firstn skipn map]. now rewrite <- app_assoc. }
    assert (Hgo : forall stop',
      (disk (match scrape_company_details false (page (url c)) c with
             | None => mkOutcome Raised (refill divs (app (rev done) (c :: rest)))
                         (save (refill divs (app (rev done) (c :: rest))) count) log
             | Some c' =>
                 detail_loop page interval divs [] (c' :: done) rest (S count)
                   (if Nat.eqb (S count mod interval) 0
                    then save (refill divs (app (rev (c' :: done)) rest)) (S count)
                    else dsk) (app log [url c]) stop'
             end) = dsk \/
       exists m n, disk (match scrape_company_details false (page (url c)) c with
             | None => mkOutcome Raised (refill divs (app (rev done) (c :: rest)))
                         (save (refill divs (app (rev done) (c :: rest))) count) log
             | Some c' =>
                 detail_loop page interval divs [] (c' :: done) rest (S count)
                   (if Nat.eqb (S count mod interval) 0
                    then save (refill divs (app (rev (c' :: done)) rest)) (S count)
                    else dsk) (app log [url c]) stop'
             end)
         = save (refill divs (app (rev done)
                  (app (map (detailed page) (firstn m (c :: rest))) (skipn m (c :: rest))))) n)).
    { intros stop'. rewrite (detailed_fresh page c Hc).
      destruct (Nat.eqb (S count mod interval) 0).
      - destruct (IH (detailed page c :: done) (S count)
                   (save (refill divs (app (rev (detailed page c :: done)) rest)) (S count))
                   (app log [url c]) stop' Hrest) as [E | [m [n E]]].
        + right. exists 1, (S count). rewrite E. apply (Hmove 0).
        + right. exists (S m), n. rewrite E. apply Hmove.
      - destruct (IH (detailed page c :: done) (S count) dsk (app log [url c]) stop' Hrest)
          as [E | [m [n E]]].
        + left. exact E.
        + right. exists (S m), n. rewrite E. apply Hmove. }
    destruct stop as [[[|k] [|]]|]; cbn [disk];
      first [ left; reflexivity
            | right; exists 0, count; apply Hcut
            | apply Hgo ].
Qed.

Lemma mem_In u l : mem u l = true <-> In u l.
Proof.
  unfold mem. rewrite existsb_exists. split.
  - intros [x [Hx E]]. apply String.eqb_eq in E. now subst.
  - intros H. exists u. split; [exact H|apply String.eqb_refl].
Qed.

Lemma NoDup_app_disjoint {A} (l1 l2 : list A) x :
  NoDup (app l1 l2) -> In x l1 -> In x l2 -> False.
Proof.
  induction l1 as [|a l1 IH]; intros Hnd H1 H2; [exact H1|].
  inversion Hnd as [|? ? Ha Hnd']; subst.
  destruct H1 as [<-|H1].
  - apply Ha, in_or_app. now right.
  - exact (IH Hnd' H1 H2).
Qed.

(** ARCAT part of C2: when the related divisions start without companies and no
    company URL is listed twice across them, a run stopped after any number of
    detail fetches (killed, or by an exception) and resumed from the checkpoint
    it left on disk ends with the same store as one uninterrupted run. *)
Lemma arcat_resume_equivalence related listing page interval k s :
  Forall (fun d => companies d = []) related ->
  NoDup (map url (companies_of (first_pass listing related))) ->
  let whole := scrape_csi_only related listing page interval false None None in
  let cut := scrape_csi_only related listing page interval false None (Some (k, s)) in
  let resumed := scrape_csi_only related listing page interval true (disk cut) None in
  store resumed = store whole.
Proof.
  intros Hrel Hnd whole cut resumed.
  pose proof (first_pass_fresh listing related Hrel) as Hfresh.
  set (E := first_pass listing related) in *.
  set (F := companies_of E) in *.
  assert (Hrun : forall stop,
    scrape_csi_only related listing page interval false None stop
    = detail_loop page interval E [] [] F 0 None [] stop) by reflexivity.
  assert (Hwhole : store whole = refill E (map (detailed page) F)).
  { unfold whole. rewrite Hrun.
    destruct (loop_finish page interval E [] [] F 0 None []) as [_ H2].
    - intros c Hc _. exact (proj1 (Forall_forall _ _) Hfresh c Hc).
    - rewrite H2. reflexivity. }
  rewrite Hwhole. unfold resumed, cut. rewrite Hrun.
  destruct (loop_disk page interval E [] F 0 None [] (Some (k, s)) Hfresh)
    as [Hd | [m [n Hd]]]; cbv zeta in Hd; rewrite Hd.
  - (* nothing saved: the resumed run starts afresh *)
    change (store (scrape_csi_only related listing page interval false None None)
            = refill E (map (detailed page) F)).
    exact Hwhole.
  - cbn [rev app] in Hd |- *.
    set (F1 := firstn m F). set (F2 := skipn m F).
    set (L0 := app (map (detailed page) F1) F2).
    assert (HF : F = app F1 F2) by (symmetry; apply firstn_skipn).
    assert (HL : length L0 = length (companies_of E)).
    { fold F. unfold L0, F1, F2. rewrite length_app, length_map, length_firstn, length_skipn. lia. }
    set (S := refill E L0).
    assert (HS : companies_of S = L0) by (apply companies_of_refill, HL).
    assert (Hfix : first_pass listing (match S with [] => related | _ => S end) = S).
    { destruct S as [|d ds] eqn:ES.
      - apply refill_nil in ES. unfold E in ES |- *. exact ES.
      - rewrite <- ES. unfold S. apply first_pass_refill; [apply first_pass_fixed|exact HL]. }
    unfold scrape_csi_only, restore, save. cbn [mode ck_divisions companies_scraped].
    change (String.eqb "csi-only" "csi-only") with true. cbv iota beta zeta.
    fold S. rewrite Hfix, HS.
    assert (Hmem : forall c, In c L0 -> mem (url c) (scraped_urls S) = false -> address c = "").
    { intros c Hc Hm. destruct (nonempty (address c)) eqn:Ea.
      - exfalso. assert (Hin : In (url c) (scraped_urls S)).
        { unfold scraped_urls. rewrite HS. apply in_map, filter_In. now split. }
        apply mem_In in Hin. congruence.
      - now apply nonempty_false. }
    destruct (loop_finish page interval S (scraped_urls S) [] L0 n (Some (mkCheckpoint "csi-only" n S)) [] Hmem)
      as [_ H2].
    rewrite H2. cbn [rev app]. unfold S. rewrite refill_refill by exact HL. f_equal.
    rewrite HF, map_app. unfold L0. rewrite map_app, map_map. f_equal.
    + apply map_ext_in. intros c Hc.
      assert (Hc0 : address c = "").
      { apply (proj1 (Forall_forall _ _) Hfresh). rewrite HF. apply in_or_app. now left. }
      unfold resume_step.
      match goal with |- context [if ?b then _ else _] => destruct b eqn:Em end;
        [reflexivity|].
      apply detailed_idem; [exact Hc0|].
      apply Hmem; [|exact Em]. unfold L0. apply in_or_app. left. now apply in_map.
    + apply map_ext_in. intros c Hc.
      unfold resume_step.
      match goal with |- context [if ?b then _ else _] => destruct b eqn:Em end;
        [|reflexivity].
      exfalso. apply mem_In in Em. fold L0 S in Em. unfold scraped_urls in Em. rewrite HS in Em.
      apply in_map_iff in Em as [y [Hy Hin]]. apply filter_In in Hin as [Hin Hne].
      unfold L0 in Hin. apply in_app_or in Hin as [Hin|Hin].
      * apply in_map_iff in Hin as [c1 [<- Hc1]]. rewrite url_detailed in Hy.
        apply (NoDup_app_disjoint (map url F1) (map url F2) (url c)).
        -- rewrite <- map_app, <- HF. exact Hnd.
        -- rewrite <- Hy. now apply in_map.
        -- now apply in_map.
      * assert (Hy0 : address y = "").
        { apply (proj1 (Forall_forall _ _) Hfresh). rewrite HF. apply in_or_app. now right. }
        rewrite Hy0 in Hne. discriminate.
Qed.

(** ARCAT, first half of the C1 counterexample: when the first company's
    page yields no address, the resumed run
    requests that page again although its detail fetch had completed. *)
Lemma arcat_completed_detail_fetched_again :
  let first := scrape_csi_only [scenario_division] scenario_listing bare_first_page 2
                 false None (Some (2, HardKill)) in
  let again := scrape_csi_only [scenario_division] scenario_listing bare_first_page 2
                 true (disk first) None in
  fetched first = ["https://www.arcat.com/company/alpha-1"; "https://www.arcat.com/company/beta-2"]
  /\ fetched again = ["https://www.arcat.com/company/alpha-1"; "https://www.arcat.com/company/gamma-3"].
Proof. vm_compute. split; reflexivity. Qed.

(** ARCAT, first half of the C2 counterexample: the same company listed
    in two divisions.  The uninterrupted run
    details both entries; a run stopped by an exception after the first detail
    fetch and resumed skips the second entry, whose URL is already scraped. *)
Lemma arcat_cross_listed_company_left_undetailed :
  let rel := [scenario_division; scenario_division2] in
  let whole := scrape_csi_only rel acme_listing scenario_page CHECKPOINT_INTERVAL
                 false None None in
  let cut := scrape_csi_only rel acme_listing scenario_page CHECKPOINT_INTERVAL
               false None (Some (1, Raise)) in
  let resumed := scrape_csi_only rel acme_listing scenario_page CHECKPOINT_INTERVAL
                   true (disk cut) None in
  map address (companies_of (store whole))
    = ["123 Oak Rd., Austin, TX 78701"; "123 Oak Rd., Austin, TX 78701"]
  /\ map address (companies_of (store resumed)) = ["123 Oak Rd., Austin, TX 78701"; ""].
Proof. vm_compute. split; reflexivity. Qed.

Lemma filter_unscraped_nil (l : list string) :
  filter (fun u => negb (mem u [])) l = l.
Proof. induction l as [|u l IH]; [reflexivity|]. unfold mem in *. cbn. f_equal. exact IH. Qed.

(** C7: a request failing with an HTTP error other than a timeout or a
    connection error returns [None] after one request, with no backoff sleep
    and no second attempt; a listing page that fails leaves its division
    without companies ([return division]); a detail page that fails leaves
    the company as it was ([return company]); and a fresh CSI-only crawl,
    whatever listing and detail pages fail, runs to its end and requests the
    detail page of every company found. *)
Theorem fatal_fetch_skipped resp related listing page interval d pg c :
  resp 0 = Fetch.OtherRequestException ->
  req pg = None ->
  address c = "" ->
  Forall (fun d => companies d = []) related ->
  Fetch._make_request Fetch.MAX_RETRIES Fetch.RETRY_DELAY_BASE resp
    = (None, [Fetch.SleepRequestDelay; Fetch.Get 0])
  /\ scrape_division_manufacturers None d = (d, 0)
  /\ scrape_company_details false pg c = Some c
  /\ (let o := scrape_csi_only related listing page interval false None None in
      status o = Finished
      /\ fetched o = map url (companies_of (first_pass listing related))).
Proof.
  intros Hresp Hreq Ha Hrel.
  split; [unfold Fetch._make_request, Fetch.MAX_RETRIES; cbn [seq Fetch.request_loop]; rewrite Hresp; reflexivity|].
  split; [reflexivity|].
  split; [unfold scrape_company_details; rewrite Ha; cbn; rewrite Hreq; reflexivity|].
  cbv zeta.
  pose proof (first_pass_fresh listing related Hrel) as Hfresh.
  change (scrape_csi_only related listing page interval false None None)
    with (detail_loop page interval (first_pass listing related) [] []
            (companies_of (first_pass listing related)) 0 None [] None).
  destruct (loop_finish page interval (first_pass listing related) [] []
              (companies_of (first_pass listing related)) 0 None []) as [Hst _].
  - intros c0 Hc0 _. exact (proj1 (Forall_forall _ _) Hfresh c0 Hc0).
  - split; [exact Hst|].
    destruct (detail_loop_fetched page interval (first_pass listing related) [] []
                (companies_of (first_pass listing related)) 0 None [] None) as [_ Hf].
    rewrite (Hf Hst). cbn [app]. apply filter_unscraped_nil.
Qed.

(** C7 on a concrete run: every request fails with an HTTP error, the crawl
    still finishes, with one request per listing and no detail request. *)
Lemma fatal_fetch_skipped_witness :
  let pg := mkPage None None in
  let c := new_company "Acme Corp" "https://www.arcat.com/company/acme-1" "acme-1" "" in
  (fun _ : nat => Fetch.OtherRequestException) 0 = Fetch.OtherRequestException
  /\ req pg = None /\ address c = ""
  /\ Forall (fun d => companies d = []) [scenario_division; scenario_division2]
  /\ status (scrape_csi_only [scenario_division; scenario_division2] (fun _ => None)
               (fun _ => pg) CHECKPOINT_INTERVAL false None None) = Finished
  /\ fetched (scrape_csi_only [scenario_division; scenario_division2] (fun _ => None)
               (fun _ => pg) CHECKPOINT_INTERVAL false None None) = [].
Proof.
  intros pg c.
  assert (Hrel : Forall (fun d => companies d = []) [scenario_division; scenario_division2])
    by (repeat constructor).
  destruct (fatal_fetch_skipped (fun _ => Fetch.OtherRequestException)
              [scenario_division; scenario_division2] (fun _ => None) (fun _ => pg)
              CHECKPOINT_INTERVAL scenario_division pg c eq_refl eq_refl eq_refl Hrel)
    as [_ [_ [_ [Hst Hf]]]].
  split; [reflexivity|]. split; [reflexivity|]. split; [reflexivity|].
  split; [exact Hrel|]. split; [exact Hst|].
  rewrite Hf. reflexivity.
Defined.

End CrawlProofs.

Section ExpandProofs.
Import Expand.

(** C4 (amended): the expansion routines append to the node's child lists,
    and re-expansion is made idempotent by their callers, which expand a node
    only while its child list is empty.  Expanding a SWEETS division twice
    through its caller with the same markup gives the division of one
    expansion; the same holds for an ARCAT category through its caller, once
    the expansion has found a subcategory. *)
Theorem guarded_expansion_idempotent soup category ssoup division :
  ArcatCategory.subcategories (ArcatCategory.expand_category soup category) <> [] ->
  ArcatCategory.expand_category soup (ArcatCategory.expand_category soup category)
    = ArcatCategory.expand_category soup category
  /\ SweetsDivision.expand_division ssoup (SweetsDivision.expand_division ssoup division)
     = SweetsDivision.expand_division ssoup division.
Proof.
  intros Hsub. split.
  - unfold ArcatCategory.expand_category at 1.
    destruct (ArcatCategory.subcategories (ArcatCategory.expand_category soup category));
      [contradiction | reflexivity].
  - destruct division as [c n u k secs]. unfold SweetsDivision.expand_division.
    cbn [SweetsDivision.sections]. destruct secs as [|s0 secs]; [|reflexivity].
    destruct ssoup as [links|]; cbn [SweetsDivision.scrape_division_sections]; [|reflexivity].
    cbn [SweetsDivision.sections SweetsDivision.code SweetsDivision.name
         SweetsDivision.url SweetsDivision.item_count app].
    destruct (SweetsDivision.found_sections links) as [|f fs] eqn:Ef; [|reflexivity].
    cbn [SweetsDivision.scrape_division_sections SweetsDivision.code SweetsDivision.name
         SweetsDivision.url SweetsDivision.item_count SweetsDivision.sections app].
    reflexivity.
Qed.

(** C4 on the roofing category and the masonry division: one expansion finds
    one child, and a second guarded expansion changes nothing. *)
Lemma guarded_expansion_idempotent_witness :
  ArcatCategory.subcategories
      (ArcatCategory.expand_category (Some roofing_page) roofing) <> []
  /\ ArcatCategory.expand_category (Some roofing_page)
       (ArcatCategory.expand_category (Some roofing_page) roofing)
     = ArcatCategory.expand_category (Some roofing_page) roofing
  /\ SweetsDivision.expand_division (Some masonry_links)
       (SweetsDivision.expand_division (Some masonry_links) masonry)
     = SweetsDivision.expand_division (Some masonry_links) masonry.
Proof.
  assert (H : ArcatCategory.subcategories
                (ArcatCategory.expand_category (Some roofing_page) roofing) <> [])
    by (vm_compute; discriminate).
  split; [exact H|].
  exact (guarded_expansion_idempotent (Some roofing_page) roofing (Some masonry_links) masonry H).
Defined.

(** C4: the expansion routines themselves append.  Run twice on the same
    markup, [scrape_category_subcategories] lists the subcategory and the
    related CSI division twice, and [scrape_division_sections] lists the
    section twice. *)
Lemma reexpansion_appends :
  let once := ArcatCategory.scrape_category_subcategories (Some roofing_page) roofing in
  let twice := ArcatCategory.scrape_category_subcategories (Some roofing_page) once in
  let s_once := SweetsDivision.scrape_division_sections (Some masonry_links) masonry in
  let s_twice := SweetsDivision.scrape_division_sections (Some masonry_links) s_once in
  map ArcatCategory.nl_name (ArcatCategory.subcategories once) = ["Roof Coatings"]
  /\ map ArcatCategory.nl_name (ArcatCategory.subcategories twice)
     = ["Roof Coatings"; "Roof Coatings"]
  /\ length (ArcatCategory.related_csi_divisions twice) = 2
  /\ map SweetsDivision.s_name (SweetsDivision.sections s_once) = ["Granite"]
  /\ map SweetsDivision.s_name (SweetsDivision.sections s_twice) = ["Granite"; "Granite"].
Proof. vm_compute. repeat split. Qed.

(** The guard of the ARCAT caller looks at the subcategories only: a category
    page with related CSI divisions and no subcategory is fetched again by a
    second guarded expansion, which lists its CSI divisions twice. *)
Lemma csi_only_category_reexpanded :
  let pg := ArcatCategory.mkCategoryPage [] (ArcatCategory.csi_links roofing_page) in
  length (ArcatCategory.related_csi_divisions
            (ArcatCategory.expand_category (Some pg)
               (ArcatCategory.expand_category (Some pg) roofing))) = 2.
Proof. vm_compute. reflexivity. Qed.

End ExpandProofs.

Section ListingProofs.
Import Arcat Expand ArcatListings.

Lemma string_app_cancel (p a b : string) : (p ++ a = p ++ b)%string -> a = b.
Proof. induction p as [|c p IH]; cbn; [easy|]. intros H. injection H. exact IH. Qed.

Lemma existsb_eqb_In (x : string) (l : list string) :
  existsb (String.eqb x) l = true <-> In x l.
Proof.
  rewrite existsb_exists. split.
  - intros [y [Hy E]]. apply String.eqb_eq in E. now subst.
  - intros H. exists x. split; [exact H | apply String.eqb_refl].
Qed.

Lemma seen_mem_map (h : string) (seen : list (string * Company)) :
  seen_mem h seen = existsb (String.eqb h) (map fst seen).
Proof.
  induction seen as [|[k c] seen IH]; [reflexivity|].
  cbn. rewrite String.eqb_sym. now rewrite <- IH.
Qed.

(** [first_seen] depends on the seen keys only through membership. *)
Lemma first_seen_ext {A} (key : A -> string) (s1 s2 : list string) (l : list A) :
  (forall x, In x s1 <-> In x s2) -> first_seen key s1 l = first_seen key s2 l.
Proof.
  revert s1 s2. induction l as [|a l IH]; intros s1 s2 Hs; [reflexivity|].
  cbn. destruct (existsb (String.eqb (key a)) s1) eqn:E1,
                (existsb (String.eqb (key a)) s2) eqn:E2.
  - now apply IH.
  - apply existsb_eqb_In, Hs, existsb_eqb_In in E1. congruence.
  - apply existsb_eqb_In, Hs, existsb_eqb_In in E2. congruence.
  - f_equal. apply IH. intros x. cbn. now rewrite Hs.
Qed.

Lemma first_seen_keys {A} (key : A -> string) (seen : list string) (l : list A) :
  NoDup (map key (first_seen key seen l)) /\
  forall x, In x (first_seen key seen l) -> In x l /\ ~ In (key x) seen.
Proof.
  revert seen. induction l as [|a l IH]; intros seen; [split; [constructor | easy]|].
  cbn. destruct (existsb (String.eqb (key a)) seen) eqn:E.
  - destruct (IH seen) as [H1 H2]. split; [exact H1|].
    intros x Hx. destruct (H2 x Hx). split; [now right | assumption].
  - destruct (IH (key a :: seen)) as [H1 H2]. split.
    + cbn. constructor; [|exact H1].
      intros Hin. apply in_map_iff in Hin as [y [Hy Hyin]].
      apply (proj2 (H2 y Hyin)). rewrite Hy. now left.
    + intros x [<-|Hx].
      * split; [now left|]. intros Hin. apply existsb_eqb_In in Hin. congruence.
      * destruct (H2 x Hx) as [Hl Hn]. split; [now right|]. intros Hin. apply Hn. now right.
Qed.

Lemma page_company_loop_gen cat links seen k :
  fst (fold_left (page_company_step cat) links (seen, k))
  = app seen (map (fun l => (href l, page_company cat l))
                  (first_seen href (map fst seen) (filter page_keep links))).
Proof.
  revert seen k. induction links as [|l links IH]; intros seen k.
  - cbn. now rewrite app_nil_r.
  - cbn [fold_left]. unfold page_company_step at 2.
    cbn [filter]. unfold page_keep at 1.
    destruct (String.eqb (text l) "") eqn:Et; cbn [orb negb andb].
    + apply IH.
    + rewrite seen_mem_map. destruct (existsb (String.eqb (href l)) (map fst seen)) eqn:Es.
      * destruct (_is_association (text l)); cbn [negb first_seen]; rewrite ?Es; apply IH.
      * destruct (_is_association (text l)) eqn:Ea; cbn [negb first_seen]; [apply IH|].
        rewrite Es, IH, <- app_assoc. cbn [app map]. f_equal. f_equal. f_equal.
        apply first_seen_ext. intros x. rewrite map_app, in_app_iff. cbn. tauto.
Qed.

(** The [seen_urls] loop keeps one entry per key: the keys of the entries
    kept are pairwise distinct. *)
Lemma flat_map_option_nodup {A B} (key : A -> string) (f : A -> option B) (g : B -> string)
    (p : string) (l : list A) :
  NoDup (map key l) ->
  (forall a b, f a = Some b -> g b = (p ++ key a)%string) ->
  NoDup (map g (flat_map (fun a => match f a with Some b => [b] | None => [] end) l)).
Proof.
  intros Hnd Hf. induction l as [|a l IH]; [constructor|].
  inversion Hnd as [|? ? Ha Hnd']; subst. cbn.
  destruct (f a) as [b|] eqn:Eb; [|exact (IH Hnd')].
  cbn. constructor; [|exact (IH Hnd')].
  intros Hin. apply in_map_iff in Hin as [b' [Hb' Hin]].
  apply in_flat_map in Hin as [a' [Ha' Hin]].
  destruct (f a') as [b''|] eqn:Eb''; [|destruct Hin].
  destruct Hin as [<-|[]]. apply Hf in Eb, Eb''.
  rewrite Eb, Eb'' in Hb'. apply string_app_cancel in Hb'.
  apply Ha. rewrite <- Hb'. now apply in_map.
Qed.

Lemma slen_app (a b : string) : String.length (a ++ b) = String.length a + String.length b.
Proof. induction a as [|c a IH]; cbn; [reflexivity | now rewrite IH]. Qed.

Lemma zfill_length w s : w <= String.length (zfill w s).
Proof.
  unfold zfill. rewrite slen_app.
  assert (Hz : forall n, String.length
            ((fix zeros (n : nat) : string :=
                match n with 0 => "" | S k => String "0" (zeros k) end) n) = n)
    by (induction n as [|n IH]; cbn; congruence).
  rewrite Hz. lia.
Qed.

(** Extra: [scrape_manufacturers_page] returns, and [scrape_division_specs]
    replaces the division's companies with, one company per distinct [href]:
    built from the first link with that [href] whose text is non-empty and
    not an association name, in link order (an association link does not
    hide a later link with the same [href]). *)
Theorem manufacturers_page_first_named_link_per_href links cat d :
  scrape_manufacturers_page (Some links) cat
    = map (page_company cat) (first_seen href [] (filter page_keep links))
  /\ companies (scrape_division_specs (Some links) d)
    = map (page_company "") (first_seen href [] (filter page_keep links)).
Proof.
  unfold scrape_manufacturers_page, scrape_division_specs, page_company_loop.
  rewrite !page_company_loop_gen. cbn [app map fst companies with_companies].
  now rewrite !map_map.
Qed.

(** Extra: the divisions of [scrape_related_csi_divisions] have pairwise
    distinct URLs, no companies yet, and a code of the form ["XX 00 00"]
    whose first part has at least two characters ([zfill(2)]). *)
Theorem related_csi_divisions_distinct soup :
  let ds := scrape_related_csi_divisions soup in
  NoDup (map durl ds) /\
  Forall (fun d => companies d = [] /\
                   exists p, code d = (p ++ " 00 00")%string /\ 2 <= String.length p) ds.
Proof.
  cbv zeta. destruct soup as [links|]; [|split; constructor].
  unfold scrape_related_csi_divisions.
  set (f := fun l => match csi_parsed l with
                     | Some (c, n) => Some (mkDivision (zfill 2 c ++ " 00 00") (Str2.strip n)
                                              (BASE_URL ++ csi_href l) [])
                     | None => None
                     end).
  assert (Hf : forall l, (match csi_parsed l with
                     | Some (c, n) => [mkDivision (zfill 2 c ++ " 00 00") (Str2.strip n)
                                        (BASE_URL ++ csi_href l) []]
                     | None => []
                     end) = match f l with Some b => [b] | None => [] end)
    by (intros l; unfold f; destruct (csi_parsed l) as [[c n]|]; reflexivity).
  rewrite (flat_map_ext _ _ Hf). split.
  - apply (flat_map_option_nodup csi_href f durl BASE_URL).
    + exact (proj1 (first_seen_keys csi_href [] links)).
    + intros a b E. unfold f in E. destruct (csi_parsed a) as [[c n]|]; [|discriminate].
      injection E as <-. reflexivity.
  - apply Forall_forall. intros d Hd. apply in_flat_map in Hd as [l [_ Hd]].
    unfold f in Hd. destruct (csi_parsed l) as [[c n]|]; [|destruct Hd].
    destruct Hd as [<-|[]]. split; [reflexivity|].
    exists (zfill 2 c). split; [reflexivity | apply zfill_length].
Qed.

Lemma categories_loop_spec seen hrefs :
  let cs := categories_loop seen hrefs in
  NoDup (map ArcatCategory.cat_url cs) /\
  forall c, In c cs ->
    exists h, ArcatCategory.cat_url c = (BASE_URL ++ h)%string /\ ~ In h seen /\
              h <> CATEGORIES_PAGE /\ ArcatCategory.subcategories c = [] /\
              ArcatCategory.related_csi_divisions c = [] /\ ArcatCategory.cat_companies c = [].
Proof.
  revert seen. induction hrefs as [|h hrefs IH]; intros seen; cbv zeta;
    [split; [constructor | easy]|].
  cbn [categories_loop].
  destruct (existsb (String.eqb h) seen || String.eqb h CATEGORIES_PAGE) eqn:E.
  - destruct (IH seen) as [H1 H2]. exact (conj H1 H2).
  - apply orb_false_iff in E as [Es Ep].
    destruct (IH (h :: seen)) as [H1 H2]. split.
    + cbn [map]. constructor; [|exact H1].
      intros Hin. apply in_map_iff in Hin as [c [Hc Hcin]].
      destruct (H2 c Hcin) as [h' [Hu [Hn _]]]. rewrite Hu in Hc.
      cbn [ArcatCategory.cat_url] in Hc. apply string_app_cancel in Hc. apply Hn. rewrite Hc. now left.
    + intros c [<-|Hc].
      * exists h. repeat split; try reflexivity.
        -- intros Hin. apply existsb_eqb_In in Hin. congruence.
        -- intros Eh. rewrite Eh in Ep. rewrite String.eqb_refl in Ep. discriminate.
      * destruct (H2 c Hc) as [h' (Hu & Hn & Hp & R)]. exists h'.
        repeat split; try tauto. intros Hin. apply Hn. now right.
Qed.

(** Extra: the categories of [scrape_building_product_categories] have
    pairwise distinct URLs, none of them is the categories index page
    itself, and each starts with no subcategories, related CSI divisions or
    companies. *)
Theorem building_product_categories_distinct soup :
  let cs := scrape_building_product_categories soup in
  NoDup (map ArcatCategory.cat_url cs) /\
  Forall (fun c => ArcatCategory.cat_url c <> (BASE_URL ++ CATEGORIES_PAGE)%string /\
                   ArcatCategory.subcategories c = [] /\
                   ArcatCategory.related_csi_divisions c = [] /\
                   ArcatCategory.cat_companies c = []) cs.
Proof.
  cbv zeta. destruct soup as [hrefs|]; [|split; constructor].
  unfold scrape_building_product_categories.
  destruct (categories_loop_spec [] hrefs) as [H1 H2]. split; [exact H1|].
  apply Forall_forall. intros c Hc. destruct (H2 c Hc) as [h (Hu & _ & Hp & R)].
  split; [|exact R]. rewrite Hu. intros E. apply string_app_cancel in E. exact (Hp E).
Qed.

End ListingProofs.

Section CheckpointProofs.
Import ZArith Arcat Expand.ArcatCategory ArcatCheckpoint.

Lemma map_opt_map {A B} (f : B -> option A) (g : A -> B) (l : list A) :
  (forall x, f (g x) = Some x) -> map_opt f (map g l) = Some l.
Proof.
  intros H. induction l as [|x l IH]; [reflexivity|].
  cbn [map map_opt]. rewrite H, IH. reflexivity.
Qed.

Lemma restore_company_json (c : Company) : restore_company (company_json c) = Some c.
Proof. destruct c; reflexivity. Qed.

Lemma restore_link_json (l : NamedLink) : restore_link (link_json l) = Some l.
Proof. destruct l; reflexivity. Qed.

Lemma restore_division_json (d : SDivision) :
  restore_division (division_json d) = Some (without_specifications d).
Proof.
  destruct d as [[c n u cs] specs]. unfold restore_division, division_json.
  cbn [div code dname durl companies].
  change (get_list "companies" _) with (Some (map company_json cs)).
  change (get_str "code" _) with (Some c). change (get_str "name" _) with (Some n).
  change (get_str "url" _) with (Some u). lazy beta iota.
  rewrite (map_opt_map _ _ _ restore_company_json). reflexivity.
Qed.

Lemma restore_category_json (c : BuildingProductCategory) :
  restore_category (category_json c) = Some c.
Proof.
  destruct c as [n u subs rel cs]. unfold restore_category, category_json.
  cbn [cat_name cat_url subcategories related_csi_divisions cat_companies].
  change (get_str "name" _) with (Some n). change (get_str "url" _) with (Some u).
  change (get_list "subcategories" _) with (Some (map link_json subs)).
  change (get_list "related_csi_divisions" _) with (Some (map link_json rel)).
  change (get_list "companies" _) with (Some (map company_json cs)). lazy beta iota.
  rewrite !(map_opt_map _ _ _ restore_link_json), (map_opt_map _ _ _ restore_company_json).
  reflexivity.
Qed.

(** Extra: restoring the checkpoint written by [_save_checkpoint] appends the
    saved divisions (without their specifications) and categories to those the
    scraper already holds, and sets [companies_scraped_count] to the saved
    count; the saved [mode] and [timestamp] play no part. *)
Theorem checkpoint_restore_appends (timestamp mode : string) (saved st : ScraperState) :
  _restore_from_checkpoint st (_save_checkpoint timestamp mode saved) =
  Some (mkState (app (divisions st) (map without_specifications (divisions saved)))
                (app (building_product_categories st) (building_product_categories saved))
                (companies_scraped_count saved)).
Proof.
  unfold _restore_from_checkpoint, _save_checkpoint.
  change (get_list "divisions" _) with (Some (map division_json (divisions saved))).
  change (get_list "building_product_categories" _)
    with (Some (map category_json (building_product_categories saved))).
  change (lookup "companies_scraped" _) with (Some (JNum (companies_scraped_count saved))).
  lazy beta iota.
  assert (Hd : map_opt restore_division (map division_json (divisions saved)) =
               Some (map without_specifications (divisions saved))).
  { induction (divisions saved) as [|d ds IH]; [reflexivity|].
    cbn [map map_opt]. rewrite restore_division_json, IH. reflexivity. }
  rewrite Hd, (map_opt_map _ _ _ restore_category_json). reflexivity.
Qed.

Lemma map_opt_None {A B} (f : A -> option B) (l : list A) (x : A) :
  In x l -> f x = None -> map_opt f l = None.
Proof.
  intros Hin Hx. induction l as [|y l IH]; [destruct Hin|].
  cbn [map_opt]. destruct Hin as [<-|Hin].
  - rewrite Hx. reflexivity.
  - rewrite (IH Hin). destruct (f y); reflexivity.
Qed.

Lemma get_str_missing (k : string) (o : list (string * Json)) :
  lookup k o = None -> get_str k o = None.
Proof. unfold get_str. intros ->. reflexivity. Qed.

Lemma restore_company_missing (o : list (string * Json)) :
  lookup "name" o = None \/ lookup "url" o = None -> restore_company (JObj o) = None.
Proof.
  intros [H|H]; unfold restore_company.
  - rewrite (get_str_missing _ _ H). reflexivity.
  - rewrite (get_str_missing _ _ H). destruct (get_str "name" o); reflexivity.
Qed.

(** Extra: a checkpoint without the keys [divisions],
    [building_product_categories] and [companies_scraped] restores nothing and
    sets the counter to 0; a saved company given only its [name] and [url] is
    restored with every other field empty; a saved division without
    [companies] is restored with no company. *)
Theorem checkpoint_missing_optional_keys :
  (forall st : ScraperState,
     _restore_from_checkpoint st (JObj []) =
     Some (mkState (divisions st) (building_product_categories st) 0)) /\
  (forall n u : string,
     restore_company (JObj [("name", JStr n); ("url", JStr u)]) = Some (new_company n u "" "")) /\
  (forall c n u : string,
     restore_division (JObj [("code", JStr c); ("name", JStr n); ("url", JStr u)]) =
     Some (mkSDivision (mkDivision c n u []) [])).
Proof.
  split; [|split].
  - intros st. cbn. rewrite !app_nil_r. reflexivity.
  - reflexivity.
  - reflexivity.
Qed.

(** Extra: restoring a checkpoint that lists a division lacking [code],
    [name] or [url], or holding a company lacking [name] or [url], fails
    (a [KeyError] is raised). *)
Theorem checkpoint_missing_required_key_fails (st : ScraperState)
    (top dj : list (string * Json)) (ds : list Json)
    (Hds : lookup "divisions" top = Some (JArr ds)) (Hin : In (JObj dj) ds)
    (Hbad : lookup "code" dj = None \/ lookup "name" dj = None \/ lookup "url" dj = None \/
            exists cs o, lookup "companies" dj = Some (JArr cs) /\ In (JObj o) cs /\
                         (lookup "name" o = None \/ lookup "url" o = None)) :
  _restore_from_checkpoint st (JObj top) = None.
Proof.
  assert (Hd : restore_division (JObj dj) = None).
  { unfold restore_division.
    destruct Hbad as [H|[H|[H|(cs & o & Hcs & Ho & Hm)]]].
    - rewrite (get_str_missing _ _ H). reflexivity.
    - rewrite (get_str_missing _ _ H). destruct (get_str "code" dj); reflexivity.
    - rewrite (get_str_missing _ _ H).
      destruct (get_str "code" dj), (get_str "name" dj); reflexivity.
    - assert (Hl : get_list "companies" dj = Some cs) by (unfold get_list; rewrite Hcs; reflexivity).
      rewrite Hl, (map_opt_None _ _ _ Ho (restore_company_missing o Hm)).
      destruct (get_str "code" dj), (get_str "name" dj), (get_str "url" dj); reflexivity. }
  unfold _restore_from_checkpoint.
  assert (Hl : get_list "divisions" top = Some ds) by (unfold get_list; rewrite Hds; reflexivity).
  rewrite Hl, (map_opt_None _ _ _ Hin Hd).
  destruct (get_list "building_product_categories" top); reflexivity.
Qed.

Lemma checkpoint_missing_required_key_fails_witness :
  _restore_from_checkpoint (mkState [] [] 0) bad_checkpoint = None.
Proof.
  apply (checkpoint_missing_required_key_fails (mkState [] [] 0)
           [("divisions", JArr [JObj [("code", JStr "07"); ("name", JStr "Roofing");
              ("url", JStr "https://www.arcat.com/divisions/07");
              ("companies", JArr [JObj [("name", JStr "Acme")]])]])]
           [("code", JStr "07"); ("name", JStr "Roofing");
            ("url", JStr "https://www.arcat.com/divisions/07");
            ("companies", JArr [JObj [("name", JStr "Acme")]])]
           [JObj [("code", JStr "07"); ("name", JStr "Roofing");
              ("url", JStr "https://www.arcat.com/divisions/07");
              ("companies", JArr [JObj [("name", JStr "Acme")]])]]).
  - reflexivity.
  - left. reflexivity.
  - right. right. right. exists [JObj [("name", JStr "Acme")]], [("name", JStr "Acme")].
    split; [reflexivity|]. split; [left; reflexivity|]. right. reflexivity.
Defined.

End CheckpointProofs.

Section KillProofs.
Import ArcatDetail Orchestrator.

Lemma mod_step_bound (interval ck count : nat) :
  0 < interval -> ck mod interval = 0 -> count < ck + interval ->
  (S count) mod interval <> 0 -> S count < ck + interval.
Proof.
  intros Hi Hck Hc Hs.
  destruct (Nat.eq_dec (S count) (ck + interval)) as [E|E]; [|lia].
  exfalso. apply Hs. rewrite E.
  rewrite (Nat.div_mod_eq ck interval), Hck, Nat.add_0_r.
  replace (interval * (ck / interval) + interval) with (0 + (ck / interval + 1) * interval) by lia.
  rewrite Nat.Div0.mod_add. apply Nat.Div0.mod_0_l.
Qed.

Lemma detail_loop_killed page interval divs scraped done todo count dsk log stop :
  0 < interval ->
  match dsk with
  | None => count < interval
  | Some ck => companies_scraped ck <= count < companies_scraped ck + interval /\
               companies_scraped ck mod interval = 0
  end ->
  let o := detail_loop page interval divs scraped done todo count dsk log stop in
  status o = Killed ->
  exists extra, fetched o = app log extra /\
  match disk o with
  | None => count + length extra < interval
  | Some ck => companies_scraped ck <= count + length extra < companies_scraped ck + interval /\
               companies_scraped ck mod interval = 0
  end.
Proof.
  intros Hi. revert done count dsk log stop.
  induction todo as [|c rest IH]; intros done count dsk log stop Hinv o Ho; subst o.
  - discriminate Ho.
  - cbn [detail_loop] in *. destruct (mem (url c) scraped).
    + exact (IH _ _ _ _ _ Hinv Ho).
    + destruct stop as [[[|k] s]|].
      * destruct s; [|discriminate Ho].
        exists []. rewrite app_nil_r, Nat.add_0_r. split; [reflexivity | exact Hinv].
      * destruct (scrape_company_details false (page (url c)) c) as [c'|]; [|discriminate Ho].
        match type of Ho with status (detail_loop _ _ _ _ _ _ _ ?d _ _) = _ =>
          assert (Hinv' : match d with
                    | None => S count < interval
                    | Some ck => companies_scraped ck <= S count < companies_scraped ck + interval /\
                                 companies_scraped ck mod interval = 0
                    end) end.
        { destruct (Nat.eqb (S count mod interval) 0) eqn:Em.
          - cbn. apply Nat.eqb_eq in Em. lia.
          - apply Nat.eqb_neq in Em. destruct dsk as [ck|].
            + destruct Hinv as [[H1 H2] H3]. repeat split; try lia; try exact H3.
              exact (mod_step_bound _ _ _ Hi H3 H2 Em).
            + assert (S count <> interval) by (intros E; apply Em; rewrite E; apply Nat.Div0.mod_same).
              lia. }
        destruct (IH _ _ _ _ _ Hinv' Ho) as [extra [Hf Hd]].
        exists (url c :: extra). rewrite Hf, <- app_assoc. split; [reflexivity|].
        cbn [length]. rewrite <- Nat.add_succ_comm. exact Hd.
      * destruct (scrape_company_details false (page (url c)) c) as [c'|]; [|discriminate Ho].
        match type of Ho with status (detail_loop _ _ _ _ _ _ _ ?d _ _) = _ =>
          assert (Hinv' : match d with
                    | None => S count < interval
                    | Some ck => companies_scraped ck <= S count < companies_scraped ck + interval /\
                                 companies_scraped ck mod interval = 0
                    end) end.
        { destruct (Nat.eqb (S count mod interval) 0) eqn:Em.
          - cbn. apply Nat.eqb_eq in Em. lia.
          - apply Nat.eqb_neq in Em. destruct dsk as [ck|].
            + destruct Hinv as [[H1 H2] H3]. repeat split; try lia; try exact H3.
              exact (mod_step_bound _ _ _ Hi H3 H2 Em).
            + assert (S count <> interval) by (intros E; apply Em; rewrite E; apply Nat.Div0.mod_same).
              lia. }
        destruct (IH _ _ _ _ _ Hinv' Ho) as [extra [Hf Hd]].
        exists (url c :: extra). rewrite Hf, <- app_assoc. split; [reflexivity|].
        cbn [length]. rewrite <- Nat.add_succ_comm. exact Hd.
Qed.

(** Extra: when a CSI-only run started with no checkpoint file is killed,
    the checkpoint left on disk was saved at a multiple of the checkpoint
    interval and misses fewer than [interval] of the detail pages the run
    fetched (with no checkpoint, fewer than [interval] were fetched). *)
Theorem hard_kill_loses_less_than_interval related listing page interval resume stop
    (Hi : 0 < interval)
    (Hk : status (scrape_csi_only related listing page interval resume None stop) = Killed) :
  let o := scrape_csi_only related listing page interval resume None stop in
  match disk o with
  | None => length (fetched o) < interval
  | Some ck => companies_scraped ck <= length (fetched o) < companies_scraped ck + interval /\
               companies_scraped ck mod interval = 0
  end.
Proof.
  intros o. subst o. revert Hk. unfold scrape_csi_only.
  replace (restore resume None) with ([] : list Division, 0, [] : list string)
    by (destruct resume; reflexivity).
  intros Hk.
  destruct (detail_loop_killed page interval _ [] [] _ 0 None [] stop Hi Hi Hk)
    as [extra [Hf Hd]].
  rewrite Hf. exact Hd.
Qed.

Lemma hard_kill_loses_less_than_interval_witness :
  status (scrape_csi_only [scenario_division] scenario_listing scenario_page 2 false None
            (Some (2, HardKill))) = Killed /\
  let o := scrape_csi_only [scenario_division] scenario_listing scenario_page 2 false None
             (Some (2, HardKill)) in
  match disk o with
  | None => length (fetched o) < 2
  | Some ck => companies_scraped ck <= length (fetched o) < companies_scraped ck + 2 /\
               companies_scraped ck mod 2 = 0
  end.
Proof.
  split; [vm_compute; reflexivity|].
  apply (hard_kill_loses_less_than_interval [scenario_division] scenario_listing scenario_page
           2 false (Some (2, HardKill))).
  - lia.
  - vm_compute. reflexivity.
Defined.

End KillProofs.

Section TrackerProofs.
Import ZArith QArith Qround Progress ProgressOps.

Lemma keep_last_short (n : nat) (l : list Q) : (length l <= n)%nat -> keep_last n l = l.
Proof. intros H. unfold keep_last. replace (length l - n)%nat with 0%nat by lia. reflexivity. Qed.

Lemma keep_last_snoc (n : nat) (l : list Q) (x : Q) :
  (0 < n)%nat -> keep_last n (app (keep_last n l) [x]) = keep_last n (app l [x]).
Proof.
  intros Hn. unfold keep_last. rewrite !length_app, length_skipn. cbn [length].
  destruct (Nat.le_gt_cases (length l) n) as [H|H].
  - replace (length l - n)%nat with 0%nat by lia. cbn [skipn].
    rewrite Nat.sub_0_r. reflexivity.
  - replace (length l - (length l - n) + 1 - n)%nat with 1%nat by lia.
    rewrite skipn_app, length_skipn.
    replace (1 - (length l - (length l - n)))%nat with 0%nat by lia.
    rewrite skipn_app. replace (length l + 1 - n - length l)%nat with 0%nat by lia.
    rewrite skipn_skipn. replace (1 + (length l - n))%nat with (length l + 1 - n)%nat by lia.
    reflexivity.
Qed.

Lemma updates_window (evs : list (Q * Z)) (t : Tracker) (p : Q) (L : list Q) :
  last_update_time t = Some p -> ~ p == 0 ->
  scrape_times (progress t) = keep_last 100 L ->
  Forall (fun e => ~ fst e == 0) evs ->
  let t' := updates evs t in
  scrape_times (progress t') = keep_last 100 (app L (diffs p (map fst evs))) /\
  scraped_companies (progress t') = (scraped_companies (progress t) + sumZ (map snd evs))%Z /\
  total_companies (progress t') = total_companies (progress t) /\
  start_time t' = start_time t.
Proof.
  revert t p L. induction evs as [|[now k] evs IH]; intros t p L Hl Hp Ht Hf t'; subst t'.
  - cbn. rewrite app_nil_r, Z.add_0_r. repeat split; assumption.
  - inversion Hf as [|? ? Hnow Hf']; subst. cbn [fst] in Hnow.
    unfold updates. cbn [fold_left fst snd]. fold (updates evs (update now k t)).
    assert (Hq : Qeq_bool p 0 = false).
    { destruct (Qeq_bool p 0) eqn:E; [|reflexivity]. apply Qeq_bool_iff in E. contradiction. }
    assert (Ht' : scrape_times (progress (update now k t)) =
                  keep_last 100 (app L [now - p])).
    { unfold update. rewrite Hl, Hq. cbn [scrape_times]. rewrite Ht, <- (keep_last_snoc 100 L (now - p)) by lia.
      destruct (Nat.ltb 100 (length (app (keep_last 100 L) [now - p]))) eqn:E; [reflexivity|].
      apply Nat.ltb_ge in E. rewrite (keep_last_short _ _ E). reflexivity. }
    destruct (IH (update now k t) now (app L [now - p]) eq_refl Hnow Ht' Hf')
      as (H1 & H2 & H3 & H4).
    cbn [map diffs]. rewrite <- app_assoc in H1. cbn [app] in H1.
    split; [exact H1|]. split; [|split].
    + rewrite H2. unfold update, sumZ. cbn [progress scraped_companies map snd fold_right]. lia.
    + exact H3.
    + exact H4.
Qed.

(** Extra: after [start(total)] followed by [update] calls at non-zero clock
    readings, [scrape_times] holds the durations between consecutive readings,
    starting from the one taken by [start], truncated to the last 100;
    [scraped_companies] is the sum of the update counts and the total is the
    one given to [start]. *)
Theorem tracker_keeps_last_100_durations (now1 now2 : Q) (total : Z) (t : Tracker)
    (evs : list (Q * Z)) (H2 : ~ now2 == 0) (Hevs : Forall (fun e => ~ fst e == 0) evs) :
  let t' := updates evs (start now1 now2 total t) in
  scrape_times (progress t') = keep_last 100 (diffs now2 (map fst evs)) /\
  scraped_companies (progress t') = sumZ (map snd evs) /\
  total_companies (progress t') = total /\
  start_time t' = Some now1.
Proof.
  destruct (updates_window evs (start now1 now2 total t) now2 [] eq_refl H2 eq_refl Hevs)
    as (H1 & H3 & H4 & H5).
  exact (conj H1 (conj H3 (conj H4 H5))).
Qed.

Lemma tracker_keeps_last_100_durations_witness :
  ~ 1 == 0 /\ Forall (fun e : Q * Z => ~ fst e == 0) [(3, 1%Z); (8, 2%Z)] /\
  let t' := updates [(3, 1%Z); (8, 2%Z)] (start 1 1 5 (mkT (mkTracker 0 0 []) None None)) in
  scrape_times (progress t') = keep_last 100 (diffs 1 (map fst [(3, 1%Z); (8, 2%Z)])) /\
  scraped_companies (progress t') = sumZ (map snd [(3, 1%Z); (8, 2%Z)]) /\
  total_companies (progress t') = 5%Z /\
  start_time t' = Some 1.
Proof.
  assert (H1 : ~ 1 == 0) by (intros E; vm_compute in E; discriminate E).
  assert (Hf : Forall (fun e : Q * Z => ~ fst e == 0) [(3, 1%Z); (8, 2%Z)]).
  { constructor; [intros E; vm_compute in E; discriminate E|].
    constructor; [intros E; vm_compute in E; discriminate E|constructor]. }
  split; [exact H1|]. split; [exact Hf|].
  exact (tracker_keeps_last_100_durations 1 1 5 (mkT (mkTracker 0 0 []) None None)
           [(3, 1%Z); (8, 2%Z)] H1 Hf).
Defined.

Lemma percentage_bounds (t : ProgressTracker) :
  (0 < total_companies t)%Z -> (0 <= scraped_companies t <= total_companies t)%Z ->
  exists q, get_percentage t = Some (q * 100) /\ 0 <= q /\ q <= 1 /\
            q == inject_Z (scraped_companies t) / inject_Z (total_companies t).
Proof.
  intros Ht Hs. unfold get_percentage, py_div.
  assert (Hz : Z.eqb (total_companies t) 0 = false) by (apply Z.eqb_neq; lia).
  assert (Hq : Qeq_bool (inject_Z (total_companies t)) 0 = false).
  { destruct (Qeq_bool (inject_Z (total_companies t)) 0) eqn:E; [|reflexivity].
    apply Qeq_bool_iff in E. unfold Qeq in E. cbn in E. lia. }
  rewrite Hz, Hq.
  assert (Hpos : 0 < inject_Z (total_companies t)) by (unfold Qlt; cbn; lia).
  eexists. split; [reflexivity|]. split; [|split; [|reflexivity]].
  - apply Qle_shift_div_l; [exact Hpos|]. rewrite Qmult_0_l.
    unfold Qle; cbn; lia.
  - apply Qle_shift_div_r; [exact Hpos|]. rewrite Qmult_1_l.
    unfold Qle; cbn; lia.
Qed.

Lemma repeat_length_sum (f w : Z) :
  (0 <= f <= w)%Z ->
  length (app (repeat Full (Z.to_nat f)) (repeat Blank (Z.to_nat (w - f)))) = Z.to_nat w.
Proof. intros H. rewrite length_app, !repeat_length. lia. Qed.

(** Extra: when [0 <= scraped <= total] and the width is not negative, the
    progress bar has exactly [width] cells: all empty while the total is [0],
    all full once everything counted has been scraped. *)
Theorem progress_bar_has_width_cells (width : Z) (t : ProgressTracker)
    (Hw : (0 <= width)%Z)
    (Hs : (0 <= scraped_companies t <= total_companies t)%Z) :
  exists bar pct,
    get_progress_bar width t = Some (bar, pct) /\
    length bar = Z.to_nat width /\
    (total_companies t = 0%Z -> bar = repeat Blank (Z.to_nat width)) /\
    (scraped_companies t = total_companies t -> (0 < total_companies t)%Z ->
     bar = repeat Full (Z.to_nat width)).
Proof.
  unfold get_progress_bar.
  destruct (Z.eq_dec (total_companies t) 0) as [Ht0|Ht0].
  - assert (Hp : get_percentage t = Some 0) by (unfold get_percentage; rewrite Ht0; reflexivity).
    rewrite Hp. assert (Hf : py_int (inject_Z width * 0 / 100) = 0%Z).
    { assert (Hz : inject_Z width * 0 / 100 == 0) by (unfold Qdiv; ring).
      unfold py_int. destruct (Qle_bool 0 (inject_Z width * 0 / 100)) eqn:E.
      - rewrite (Qfloor_comp _ _ Hz). reflexivity.
      - exfalso. apply (proj2 (not_true_iff_false _)) in E. apply E, Qle_bool_iff.
        rewrite Hz. apply Qle_refl. }
    rewrite Hf, Z.sub_0_r. cbn [Z.to_nat repeat app].
    do 2 eexists. split; [reflexivity|]. split; [apply repeat_length|].
    split; [reflexivity|]. intros _ H. lia.
  - assert (Ht : (0 < total_companies t)%Z) by lia.
    destruct (percentage_bounds t Ht Hs) as (q & Hp & Hq0 & Hq1 & Hqe).
    rewrite Hp.
    set (x := inject_Z width * (q * 100) / 100).
    assert (Hx : x == inject_Z width * q) by (unfold x; field).
    assert (Hw' : 0 <= inject_Z width) by (unfold Qle; cbn; lia).
    assert (Hx0 : 0 <= x).
    { rewrite Hx. apply Qmult_le_0_compat; assumption. }
    assert (Hx1 : x <= inject_Z width).
    { rewrite Hx. apply Qle_trans with (inject_Z width * 1).
      - apply Qmult_le_compat_nonneg; split; (assumption || apply Qle_refl).
      - rewrite Qmult_1_r. apply Qle_refl. }
    assert (Hpi : py_int x = Qfloor x).
    { unfold py_int. apply Qle_bool_iff in Hx0. rewrite Hx0. reflexivity. }
    assert (Hfl : (0 <= Qfloor x <= width)%Z).
    { split.
      - change 0%Z with (Qfloor 0). apply Qfloor_resp_le. exact Hx0.
      - rewrite <- (Qfloor_Z width). apply Qfloor_resp_le. exact Hx1. }
    rewrite Hpi. do 2 eexists. split; [reflexivity|].
    split; [apply repeat_length_sum; exact Hfl|]. split; [intros H; lia|].
    intros He _.
    assert (Hq : q == 1).
    { rewrite Hqe, He. field. intros E. apply Ht0. unfold Qeq in E. cbn in E. lia. }
    assert (Hxw : Qfloor x = width).
    { rewrite <- (Qfloor_Z width). apply Qfloor_comp. rewrite Hx, Hq. apply Qmult_1_r. }
    rewrite Hxw, Z.sub_diag. cbn [repeat]. apply app_nil_r.
Qed.

Lemma progress_bar_has_width_cells_witness :
  (0 <= 30)%Z /\ (0 <= scraped_companies (mkTracker 10 4 []) <= total_companies (mkTracker 10 4 []))%Z /\
  exists bar pct,
    get_progress_bar 30 (mkTracker 10 4 []) = Some (bar, pct) /\
    length bar = Z.to_nat 30 /\
    (total_companies (mkTracker 10 4 []) = 0%Z -> bar = repeat Blank (Z.to_nat 30)) /\
    (scraped_companies (mkTracker 10 4 []) = total_companies (mkTracker 10 4 []) ->
     (0 < total_companies (mkTracker 10 4 []))%Z -> bar = repeat Full (Z.to_nat 30)).
Proof.
  assert (Hw : (0 <= 30)%Z) by lia.
  assert (Hs : (0 <= scraped_companies (mkTracker 10 4 []) <= total_companies (mkTracker 10 4 []))%Z)
    by (cbn; lia).
  split; [exact Hw|]. split; [exact Hs|].
  exact (progress_bar_has_width_cells 30 (mkTracker 10 4 []) Hw Hs).
Defined.

End TrackerProofs.

Section CsiProgressProofs.
Import Arcat ArcatDetail Orchestrator CsiProgress.

Lemma csi_total_acc (scraped : list string) (divs : list Division) (acc : nat) :
  fold_left (fun total d =>
               total + length (filter (fun c => negb (mem (url c) scraped)) (companies d)))
            divs acc =
  acc + length (filter (fun u => negb (mem u scraped)) (map url (companies_of divs))).
Proof.
  revert acc. induction divs as [|d ds IH]; intros acc.
  - cbn. lia.
  - cbn [fold_left companies_of flat_map]. rewrite IH.
    unfold companies_of. rewrite map_app, filter_app, length_app.
    rewrite <- (length_map url (filter _ (companies d))).
    assert (Hm : forall l : list Company,
              map url (filter (fun c => negb (mem (url c) scraped)) l) =
              filter (fun u => negb (mem u scraped)) (map url l)).
    { induction l as [|c l IHl]; [reflexivity|].
      cbn. destruct (negb (mem (url c) scraped)); cbn; rewrite IHl; reflexivity. }
    rewrite Hm. lia.
Qed.

(** Extra: a CSI-only run that finishes fetches exactly as many detail pages
    as the total its first pass gives to [progress.start], so its progress
    tracker, updated once per fetch, ends at that total. *)
Theorem csi_progress_total_reached related listing page interval resume dsk stop
    (divs : list Division) (count : nat) (scraped : list string)
    (Hr : restore resume dsk = (divs, count, scraped))
    (Hf : status (scrape_csi_only related listing page interval resume dsk stop) = Finished) :
  length (fetched (scrape_csi_only related listing page interval resume dsk stop)) =
  csi_total scraped (first_pass listing (match divs with [] => related | _ => divs end)).
Proof.
  revert Hf. unfold scrape_csi_only. rewrite Hr. intros Hf.
  destruct (detail_loop_fetched page interval
              (first_pass listing (match divs with [] => related | _ => divs end)) scraped []
              (companies_of (first_pass listing (match divs with [] => related | _ => divs end)))
              count dsk [] stop) as [_ Hfin].
  rewrite (Hfin Hf). unfold csi_total. rewrite csi_total_acc. reflexivity.
Qed.

Lemma csi_progress_total_reached_witness :
  restore false None = ([], 0, []) /\
  status (scrape_csi_only [scenario_division] scenario_listing scenario_page 10 false None None)
    = Finished /\
  length (fetched (scrape_csi_only [scenario_division] scenario_listing scenario_page 10 false None None)) =
  csi_total [] (first_pass scenario_listing [scenario_division]).
Proof.
  assert (Hr : restore false None = ([], 0, [])) by reflexivity.
  assert (Hf : status (scrape_csi_only [scenario_division] scenario_listing scenario_page 10 false None None)
               = Finished) by (vm_compute; reflexivity).
  split; [exact Hr|]. split; [exact Hf|].
  exact (csi_progress_total_reached [scenario_division] scenario_listing scenario_page 10 false None None
           [] 0 [] Hr Hf).
Defined.

End CsiProgressProofs.

Section SweetsFetchProofs.
Import Fetch SweetsFetch.

Lemma raw_loop_demote max_retries base resp todo :
  raw_loop max_retries base resp todo =
  request_loop max_retries base (fun n => demote_connection_error (resp n)) todo.
Proof.
  induction todo as [|a rest IH]; [reflexivity|].
  cbn [raw_loop request_loop]. rewrite IH.
  destruct (resp a); reflexivity.
Qed.

Lemma raw_loop_stops max_retries base resp n j k :
  j + n = max_retries -> j <= k -> k < max_retries ->
  (forall i, j <= i < k -> resp i = Timeout) -> resp k = ConnectionError ->
  fst (raw_loop max_retries base resp (seq j n)) = None /\
  filter is_get (snd (raw_loop max_retries base resp (seq j n))) = map Get (seq j (S k - j)).
Proof.
  revert j. induction n as [|n IH]; intros j Hn Hjk Hk Hpre Hc; [lia|].
  cbn [seq raw_loop].
  destruct (Nat.eq_dec j k) as [->|Hne].
  - rewrite Hc. replace (S k - k) with 1 by lia. split; reflexivity.
  - rewrite (Hpre j) by lia.
    assert (Hlt : Nat.ltb j (max_retries - 1) = true) by (apply Nat.ltb_lt; lia).
    rewrite Hlt.
    destruct (IH (S j) ltac:(lia) ltac:(lia) Hk ltac:(intros i Hi; apply Hpre; lia) Hc) as [H1 H2].
    destruct (raw_loop max_retries base resp (seq (S j) n)) as [r ev] eqn:E.
    cbn [fst snd] in *. split; [exact H1|].
    rewrite filter_app. cbn [filter is_get app]. rewrite H2.
    replace (S k - j) with (S (S k - S j)) by lia. reflexivity.
Qed.

(** Extra: SWEETS' [_make_request_raw] behaves as [_make_request] would if a
    [ConnectionError] were any other request error: after timeouts on the
    attempts before it, a [ConnectionError] ends the request with [None] and
    no further attempt is made. *)
Theorem raw_request_connection_error_not_retried (max_retries base : nat)
    (resp : nat -> Attempt) (k : nat) (Hk : k < max_retries)
    (Hpre : forall i, i < k -> resp i = Timeout) (Hc : resp k = ConnectionError) :
  _make_request_raw max_retries base resp =
  _make_request max_retries base (fun n => demote_connection_error (resp n)) /\
  fst (_make_request_raw max_retries base resp) = None /\
  filter is_get (snd (_make_request_raw max_retries base resp)) = map Get (seq 0 (S k)).
Proof.
  split; [apply raw_loop_demote|].
  destruct (raw_loop_stops max_retries base resp max_retries 0 k eq_refl ltac:(lia) Hk
              ltac:(intros i Hi; apply Hpre; lia) Hc) as [H1 H2].
  rewrite Nat.sub_0_r in H2. exact (conj H1 H2).
Qed.

Lemma raw_request_connection_error_not_retried_witness :
  1 < MAX_RETRIES /\
  fst (_make_request_raw MAX_RETRIES RETRY_DELAY_BASE
         (fun n => match n with 0 => Timeout | 1 => ConnectionError | _ => Ok "page" end)) = None.
Proof.
  assert (Hk : 1 < MAX_RETRIES) by (unfold MAX_RETRIES; lia).
  split; [exact Hk|].
  exact (proj1 (proj2 (raw_request_connection_error_not_retried MAX_RETRIES RETRY_DELAY_BASE
     (fun n => match n with 0 => Timeout | 1 => ConnectionError | _ => Ok "page" end) 1 Hk
     ltac:(intros i Hi; destruct i as [|i]; [reflexivity | lia]) eq_refl))).
Defined.

End SweetsFetchProofs.

Section SweetsCheckpointProofs.
Import ZArith ArcatCheckpoint SweetsModel.

Lemma restore_product_json (p : Product) : restore_product (product_json p) = Some p.
Proof. destruct p; reflexivity. Qed.

Lemma restore_section_json (s : Section) : restore_section (section_json s) = Some s.
Proof.
  destruct s as [c n u ic ps]. unfold restore_section, section_json.
  cbn [sec_code sec_name sec_url sec_item_count sec_products].
  change (get_str "code" _) with (Some c). change (get_str "name" _) with (Some n).
  change (get_str "url" _) with (Some u).
  change (get_int_default "item_count" _) with (Some ic).
  change (get_list "products" _) with (Some (map product_json ps)). lazy beta iota.
  rewrite (map_opt_map _ _ _ restore_product_json). reflexivity.
Qed.

Lemma restore_sweets_division_json (d : Division) :
  SweetsModel.restore_division (SweetsModel.division_json d) = Some d.
Proof.
  destruct d as [c n u ic ss]. unfold SweetsModel.restore_division, SweetsModel.division_json.
  cbn [div_code div_name div_url div_item_count div_sections].
  change (get_str "code" _) with (Some c). change (get_str "name" _) with (Some n).
  change (get_str "url" _) with (Some u).
  change (get_int_default "item_count" _) with (Some ic).
  change (get_list "sections" _) with (Some (map section_json ss)). lazy beta iota.
  rewrite (map_opt_map _ _ _ restore_section_json). reflexivity.
Qed.

(** Extra: the SWEETS checkpoint loses nothing: restoring the document
    written by [_save_checkpoint] appends the saved divisions, with all their
    sections and every field of every product, to those the scraper holds, and
    sets [products_scraped_count] to the saved count. *)
Theorem sweets_checkpoint_round_trip (timestamp : string) (saved st : SweetsState) :
  SweetsModel._restore_from_checkpoint st (SweetsModel._save_checkpoint timestamp saved) =
  Some (mkSweetsState (app (SweetsModel.divisions st) (SweetsModel.divisions saved))
                      (products_scraped_count saved)).
Proof.
  unfold SweetsModel._restore_from_checkpoint, SweetsModel._save_checkpoint.
  change (get_list "divisions" _)
    with (Some (map SweetsModel.division_json (SweetsModel.divisions saved))).
  change (get_int_default "products_scraped" _) with (Some (products_scraped_count saved)).
  lazy beta iota.
  rewrite (map_opt_map _ _ _ restore_sweets_division_json). reflexivity.
Qed.

End SweetsCheckpointProofs.

Section SweetsProductProofs.
Import Str Expand SweetsModel.

Lemma link_product_fields (sec : Section) (d : Division) (l : ProductLink) :
  let p := link_product sec d l in
  url p = (BASE_URL ++ p_href l)%string /\
  division_code p = div_code d /\ division_name p = div_name d /\
  section_code p = sec_code sec /\ section_name p = sec_name sec.
Proof.
  unfold link_product. destruct (split_once " - " (p_text l)) as [[a b]|];
    repeat split.
Qed.

Lemma product_loop_gen (sec : Section) (d : Division) (links : list ProductLink)
    (seen : list string) (found : list Product) :
  snd (fold_left (product_step sec d) links (seen, found)) =
  app found (map (link_product sec d)
                 (first_seen (fun l => before "?" (p_href l)) seen (filter product_keep links))).
Proof.
  revert seen found. induction links as [|l links IH]; intros seen found.
  - cbn. now rewrite app_nil_r.
  - cbn [fold_left filter]. unfold product_step at 2. unfold product_keep at 1.
    destruct (String.eqb (p_href l) "") eqn:Eh; cbn [orb negb andb].
    + apply IH.
    + destruct (existsb (String.eqb (before "?" (p_href l))) seen) eqn:Es.
      * destruct (String.eqb (p_text l) ""); cbn [negb first_seen]; rewrite ?Es; apply IH.
      * destruct (String.eqb (p_text l) ""); cbn [negb].
        -- apply IH.
        -- cbn [first_seen]. rewrite Es. rewrite IH. cbn [map]. now rewrite <- app_assoc.
Qed.

Lemma NoDup_map_prefix (pre : string) (l : list string) :
  NoDup l -> NoDup (map (fun h => (pre ++ h)%string) l).
Proof.
  intros Hnd. induction Hnd as [|x l Hx Hnd IH]; [constructor|].
  cbn. constructor; [|exact IH].
  intros Hin. apply in_map_iff in Hin as [y [Hy Hin]].
  apply string_app_cancel in Hy. subst y. exact (Hx Hin).
Qed.

(** Extra: [scrape_section_products] keeps the section's existing products
    and appends one product per distinct query-stripped [href], taken from
    the first link with that [href] that has a non-empty [href] and text;
    the appended products have distinct URLs and carry the division's and
    the section's code and name.  A failed request leaves the section as it
    was. *)
Theorem section_products_first_link_per_href (links : list ProductLink) (sec : Section)
    (d : Division) :
  let kept := first_seen (fun l => before "?" (p_href l)) [] (filter product_keep links) in
  let found := map (link_product sec d) kept in
  scrape_section_products None sec d = sec /\
  sec_products (scrape_section_products (Some links) sec d) = app (sec_products sec) found /\
  NoDup (map url found) /\
  Forall (fun p => division_code p = div_code d /\ division_name p = div_name d /\
                   section_code p = sec_code sec /\ section_name p = sec_name sec) found.
Proof.
  intros kept found.
  split; [reflexivity|]. split.
  { cbn [scrape_section_products sec_products]. rewrite product_loop_gen. reflexivity. }
  split.
  - assert (Hurl : map url found = map (fun h => (BASE_URL ++ h)%string) (map p_href kept)).
    { subst found. rewrite !map_map. apply map_ext. intros l.
      exact (proj1 (link_product_fields sec d l)). }
    rewrite Hurl. apply NoDup_map_prefix.
    destruct (first_seen_keys (fun l => before "?" (p_href l)) [] (filter product_keep links))
      as [Hnd _].
    fold kept in Hnd. rewrite <- (map_map p_href (before "?")) in Hnd.
    exact (NoDup_map_inv _ _ Hnd).
  - subst found. apply Forall_forall. intros p Hp.
    apply in_map_iff in Hp as [l [<- _]].
    exact (proj2 (link_product_fields sec d l)).
Qed.

End SweetsProductProofs.

Section SweetsAddressProofs.
Import Str Str2 SweetsAddress.
Variable us_match ca_match prov_match : string -> option (string * string * string).

Lemma lines_after_city (lines : list string) (s : LoopState) :
  city_state_found s = true ->
  let s' := fold_left (line_step us_match ca_match prov_match) lines s in
  address_lines s' = address_lines s /\ city_state_found s' = true /\
  city (result s') = city (result s) /\ state (result s') = state (result s) /\
  zip_code (result s') = zip_code (result s) /\ address (result s') = address (result s).
Proof.
  revert s. induction lines as [|l rest IH]; intros [r ls found] Hf s'; subst s'.
  - cbn in *. subst found. repeat split.
  - cbn in Hf. subst found. cbn [fold_left].
    cbn [line_step].
    destruct (pre_kind l) as [[]|] eqn:Ek;
      match goal with
      | |- context [fold_left _ rest ?s0] =>
          destruct (IH s0 eq_refl) as (H1 & H2 & H3 & H4 & H5 & H6);
          rewrite H1, H2, H3, H4, H5, H6; repeat split
      end.
Qed.

Lemma lines_before_city (lines : list string) (r : AddressResult) (ls0 : list string) :
  let s' := fold_left (line_step us_match ca_match prov_match) lines (mkLoopState r ls0 false) in
  let '(ls, k) := before_city us_match ca_match prov_match lines in
  address_lines s' = app ls0 ls /\ address (result s') = address r /\
  match k with
  | Some (KCity c st z m) =>
      city (result s') = strip c /\
      state (result s') = (if m then ArcatDetail.state_get (strip st) (strip st) STATE_ABBREV_TO_FULL
                           else strip st) /\
      zip_code (result s') = strip z
  | _ => city (result s') = city r /\ state (result s') = state r /\ zip_code (result s') = zip_code r
  end.
Proof.
  revert r ls0. induction lines as [|l rest IH]; intros r ls0; cbn zeta.
  - cbn. rewrite app_nil_r. repeat split.
  - cbn [fold_left before_city]. cbn [line_step].
    destruct (pre_kind l) as [k|] eqn:Ek.
    + (* a line handled before the city branches *)
      assert (Hk : forall r', city r' = city r -> state r' = state r -> zip_code r' = zip_code r ->
                address r' = address r ->
                let s' := fold_left (line_step us_match ca_match prov_match) rest
                            (mkLoopState r' ls0 false) in
                let '(ls, k) := before_city us_match ca_match prov_match rest in
                address_lines s' = app ls0 ls /\ address (result s') = address r /\
                match k with
                | Some (KCity c st z m) =>
                    city (result s') = strip c /\
                    state (result s') = (if m then ArcatDetail.state_get (strip st) (strip st)
                                                     STATE_ABBREV_TO_FULL else strip st) /\
                    zip_code (result s') = strip z
                | _ => city (result s') = city r /\ state (result s') = state r /\
                       zip_code (result s') = zip_code r
                end).
      { intros r' Hc Hs Hz Ha. specialize (IH r' ls0). cbn zeta in IH |- *.
        destruct (before_city us_match ca_match prov_match rest) as [ls [k'|]].
        - destruct IH as (H1 & H2 & H3). rewrite Hc, Hs, Hz, Ha in *.
          split; [exact H1|]. split; [exact H2|]. destruct k'; exact H3.
        - destruct IH as (H1 & H2 & H3). rewrite Hc, Hs, Hz, Ha in *. auto. }
      destruct k; apply Hk; reflexivity.
    + destruct (city_kind us_match ca_match prov_match l) as [| | | |c st z m|] eqn:Ec;
        try (specialize (IH r (app ls0 [l])); cbn zeta in IH |- *;
             destruct (before_city us_match ca_match prov_match rest) as [ls k];
             rewrite <- app_assoc in IH; exact IH).
      cbn zeta.
      match goal with
      | |- context [fold_left _ rest ?s0] =>
          destruct (lines_after_city rest s0 eq_refl) as (H1 & _ & H3 & H4 & H5 & H6)
      end.
      rewrite H1, H3, H4, H5, H6. cbn. rewrite app_nil_r. repeat split.
Qed.

(** Extra: in [_parse_address_tag], the address is the [', ']-join of the
    plain lines (not a skip phrase, [Tel:], [Fax:], e-mail or [http] line) that
    come before the first city line, without the first of them when it is the
    manufacturer's name; city, state and zip code come from the first city
    line alone, and are left as they were when there is none. *)
Theorem address_from_lines_before_city (manufacturer_name address_text : string)
    (r : AddressResult) :
  let p := parse_address_lines us_match ca_match prov_match manufacturer_name address_text r in
  let '(ls, k) := before_city us_match ca_match prov_match (text_lines address_text) in
  address p = match ls with
              | [] => address r
              | first :: rest =>
                  join ", " (if negb (String.eqb manufacturer_name "") &&
                                String.eqb (name_key first) (name_key manufacturer_name)
                             then rest else ls)
              end /\
  match k with
  | Some (KCity c st z m) =>
      city p = strip c /\
      state p = (if m then ArcatDetail.state_get (strip st) (strip st) STATE_ABBREV_TO_FULL
                 else strip st) /\
      zip_code p = strip z
  | _ => city p = city r /\ state p = state r /\ zip_code p = zip_code r
  end.
Proof.
  cbn zeta. unfold parse_address_lines.
  pose proof (lines_before_city (text_lines address_text) r []) as H. cbn zeta in H.
  destruct (before_city us_match ca_match prov_match (text_lines address_text)) as [ls k].
  destruct H as (H1 & H2 & H3). cbn [app] in H1. rewrite H1.
  destruct ls as [|first rest].
  - split; [exact H2|]. exact H3.
  - split; [reflexivity|]. exact H3.
Qed.

End SweetsAddressProofs.

Section PhoneProofs.
Import Str Str2 SweetsAddress.

Lemma take3_some (s g r : string) :
  take3 s = Some (g, r) ->
  exists a b c, g = String a (String b (String c "")) /\
                is_digit a = true /\ is_digit b = true /\ is_digit c = true.
Proof.
  unfold take3. destruct s as [|a [|b [|c rest]]]; try discriminate.
  destruct (is_digit a) eqn:Ea, (is_digit b) eqn:Eb, (is_digit c) eqn:Ec; try discriminate.
  intros H. injection H as <- _. exists a, b, c. auto.
Qed.

Lemma take4_some (s g r : string) :
  take4 s = Some (g, r) ->
  exists a b c d, g = String a (String b (String c (String d ""))) /\
                  is_digit a = true /\ is_digit b = true /\ is_digit c = true /\
                  is_digit d = true.
Proof.
  unfold take4. destruct s as [|a [|b [|c [|d rest]]]]; try discriminate.
  destruct (is_digit a) eqn:Ea, (is_digit b) eqn:Eb, (is_digit c) eqn:Ec, (is_digit d) eqn:Ed;
    try discriminate.
  intros H. injection H as <- _. exists a, b, c, d. auto.
Qed.

Lemma digit_not_space (c : ascii) : is_digit c = true -> is_space c = false.
Proof.
  unfold is_digit, is_space. intros H. apply andb_true_iff in H as [H1 H2].
  apply Nat.leb_le in H1, H2.
  destruct (Nat.eqb (nat_of_ascii c) 32) eqn:E1; [apply Nat.eqb_eq in E1; lia|].
  destruct (Nat.leb 9 (nat_of_ascii c)) eqn:E2; [|reflexivity].
  destruct (Nat.leb (nat_of_ascii c) 13) eqn:E3; [apply Nat.leb_le in E3; lia|reflexivity].
Qed.

Lemma lstrip_space_digit (d : ascii) (r : string) :
  is_digit d = true -> lstrip_by is_space (String " " (String d r)) = String d r.
Proof.
  intros Hd. cbn [lstrip_by]. change (is_space " ") with true. cbv beta iota.
  cbn [lstrip_by]. rewrite (digit_not_space d Hd). reflexivity.
Qed.

Lemma paren_match_formatted (a b c d e f w x y z : ascii) :
  is_digit a = true -> is_digit b = true -> is_digit c = true ->
  is_digit d = true -> is_digit e = true -> is_digit f = true ->
  is_digit w = true -> is_digit x = true -> is_digit y = true -> is_digit z = true ->
  paren_match ("(" ++ String a (String b (String c "")) ++ ") " ++
               String d (String e (String f "")) ++ "-" ++
               String w (String x (String y (String z "")))) =
  Some (String a (String b (String c "")), String d (String e (String f "")),
        String w (String x (String y (String z "")))).
Proof.
  intros Ha Hb Hc Hd He Hf Hw Hx Hy Hz.
  unfold paren_match. cbn [append take_char Ascii.eqb Bool.eqb].
  unfold take3 at 1. rewrite Ha, Hb, Hc. cbn [andb snd fst take_char Ascii.eqb Bool.eqb].
  rewrite (lstrip_space_digit d _ Hd).
  unfold take3. rewrite Hd, He, Hf. cbn [andb snd fst take_char Ascii.eqb Bool.eqb].
  unfold take4. rewrite Hw, Hx, Hy, Hz. reflexivity.
Qed.

Lemma paren_match_groups (raw g1 g2 g3 : string) :
  paren_match raw = Some (g1, g2, g3) ->
  (exists r r', take3 r = Some (g1, r')) /\
  (exists r r', take3 r = Some (g2, r')) /\ (exists r r', take4 r = Some (g3, r')).
Proof.
  unfold paren_match.
  destruct (take_char _ raw) as [r0|]; [|discriminate].
  destruct (take3 r0) as [[h1 s1]|] eqn:E1; [|discriminate]. cbn [fst snd].
  destruct (take_char _ s1) as [r2|]; [|discriminate].
  destruct (take3 (lstrip_by is_space r2)) as [[h2 s2]|] eqn:E2; [|discriminate].
  cbn [fst snd].
  destruct (take_char _ s2) as [r4|]; [|discriminate].
  destruct (take4 r4) as [[h3 s3]|] eqn:E3; [|discriminate].
  intros H. injection H as <- <- <-.
  split; [exists r0, s1; exact E1|].
  split; [exists (lstrip_by is_space r2), s2; exact E2 | exists r4, s3; exact E3].
Qed.

Lemma sep_match_groups (raw g1 g2 g3 : string) :
  sep_match raw = Some (g1, g2, g3) ->
  (exists r r', take3 r = Some (g1, r')) /\
  (exists r r', take3 r = Some (g2, r')) /\ (exists r r', take4 r = Some (g3, r')).
Proof.
  unfold sep_match.
  destruct (take3 raw) as [[h1 s1]|] eqn:E1; [|discriminate]. cbn [fst snd].
  destruct (take_char _ s1) as [r1|]; [|discriminate].
  destruct (take3 r1) as [[h2 s2]|] eqn:E2; [|discriminate]. cbn [fst snd].
  destruct (take_char _ s2) as [r2|]; [|discriminate].
  destruct (take4 r2) as [[h3 s3]|] eqn:E3; [|discriminate].
  intros H. injection H as <- <- <-.
  split; [exists raw, s1; exact E1|].
  split; [exists r1, s2; exact E2 | exists r2, s3; exact E3].
Qed.

Lemma normalize_formatted (g1 g2 g3 : string) :
  (exists r r', take3 r = Some (g1, r')) -> (exists r r', take3 r = Some (g2, r')) ->
  (exists r r', take4 r = Some (g3, r')) ->
  normalize_phone ("(" ++ g1 ++ ") " ++ g2 ++ "-" ++ g3) = ("(" ++ g1 ++ ") " ++ g2 ++ "-" ++ g3)%string.
Proof.
  intros [r1 [s1 H1]] [r2 [s2 H2]] [r3 [s3 H3]].
  destruct (take3_some _ _ _ H1) as (a & b & c & -> & Ha & Hb & Hc).
  destruct (take3_some _ _ _ H2) as (d & e & f & -> & Hd & He & Hf).
  destruct (take4_some _ _ _ H3) as (w & x & y & z & -> & Hw & Hx & Hy & Hz).
  unfold normalize_phone. rewrite paren_match_formatted by assumption. reflexivity.
Qed.

(** Extra: the Tel/Fax normalisation of [_parse_address_tag] either keeps
    the raw value or gives the form ["(ddd) ddd-dddd"], and normalising its
    result again changes nothing. *)
Theorem normalize_phone_idempotent (raw : string) :
  normalize_phone (normalize_phone raw) = normalize_phone raw /\
  (normalize_phone raw = raw \/
   exists g1 g2 g3, normalize_phone raw = ("(" ++ g1 ++ ") " ++ g2 ++ "-" ++ g3)%string /\
                    String.length g1 = 3 /\ String.length g2 = 3 /\ String.length g3 = 4 /\
                    all_chars is_digit (g1 ++ g2 ++ g3) = true).
Proof.
  assert (Hfmt : forall g1 g2 g3,
            (exists r r', take3 r = Some (g1, r')) -> (exists r r', take3 r = Some (g2, r')) ->
            (exists r r', take4 r = Some (g3, r')) ->
            String.length g1 = 3 /\ String.length g2 = 3 /\ String.length g3 = 4 /\
            all_chars is_digit (g1 ++ g2 ++ g3) = true).
  { intros g1 g2 g3 [r1 [s1 H1]] [r2 [s2 H2]] [r3 [s3 H3]].
    destruct (take3_some _ _ _ H1) as (a & b & c & -> & Ha & Hb & Hc).
    destruct (take3_some _ _ _ H2) as (d & e & f & -> & Hd & He & Hf).
    destruct (take4_some _ _ _ H3) as (w & x & y & z & -> & Hw & Hx & Hy & Hz).
    repeat split. cbn [append all_chars].
    rewrite Ha, Hb, Hc, Hd, He, Hf, Hw, Hx, Hy, Hz. reflexivity. }
  destruct (paren_match raw) as [[[g1 g2] g3]|] eqn:E.
  - assert (Hn : normalize_phone raw = ("(" ++ g1 ++ ") " ++ g2 ++ "-" ++ g3)%string)
      by (unfold normalize_phone; rewrite E; reflexivity).
    rewrite Hn.
    destruct (paren_match_groups raw g1 g2 g3 E) as (H1 & H2 & H3).
    split; [apply normalize_formatted; auto|].
    right. exists g1, g2, g3. split; [reflexivity|]. apply Hfmt; auto.
  - destruct (sep_match raw) as [[[g1 g2] g3]|] eqn:E2.
    + assert (Hn : normalize_phone raw = ("(" ++ g1 ++ ") " ++ g2 ++ "-" ++ g3)%string)
        by (unfold normalize_phone; rewrite E, E2; reflexivity).
      rewrite Hn.
      destruct (sep_match_groups raw g1 g2 g3 E2) as (H1 & H2 & H3).
      split; [apply normalize_formatted; auto|].
      right. exists g1, g2, g3. split; [reflexivity|]. apply Hfmt; auto.
    + assert (Hn : normalize_phone raw = raw)
        by (unfold normalize_phone; rewrite E, E2; reflexivity).
      rewrite Hn. split; [exact Hn | left; reflexivity].
Qed.

End PhoneProofs.

Section DetailRangeProofs.
Import Str Str2 ArcatDetail.

Ltac split_ifs :=
  repeat match goal with |- context [if ?b then _ else _] => destruct b end.

Lemma state_search_shape (s st : string) :
  state_search s = Some st ->
  String.length st = 2 /\ all_chars is_upper st = true.
Proof.
  induction s as [|a t IH]; cbn [state_search]; [discriminate|].
  destruct (Ascii.eqb a ","); [|exact IH].
  match goal with |- context [if ?b then Some ?x else None] =>
    destruct b eqn:E end; [|exact IH].
  intros H; injection H as <-.
  apply andb_prop in E as [E _]; apply andb_prop in E as [E1 E2].
  split; [apply Nat.eqb_eq; exact E1 | exact E2].
Qed.

Lemma upper_char_upper (c : ascii) : is_upper c = true -> upper_char c = c.
Proof.
  unfold is_upper, upper_char; intros H.
  apply andb_prop in H as [_ H2]; apply Nat.leb_le in H2.
  destruct (Nat.leb 97 (nat_of_ascii c)) eqn:E; [|reflexivity].
  apply Nat.leb_le in E; lia.
Qed.

Lemma upper_all_upper (s : string) : all_chars is_upper s = true -> upper s = s.
Proof.
  induction s as [|c t IH]; cbn; [reflexivity|].
  intros H; apply andb_prop in H as [H1 H2].
  rewrite (upper_char_upper c H1), (IH H2); reflexivity.
Qed.

Lemma state_get_cases (k d : string) (tbl : list (string * string)) :
  (state_get k d tbl = d /\ ~ In k (map fst tbl)) \/ In (state_get k d tbl) (map snd tbl).
Proof.
  induction tbl as [|[a full] rest IH]; cbn [state_get map fst snd In].
  - left; split; [reflexivity | tauto].
  - destruct (String.eqb a k) eqn:E.
    + right; left; reflexivity.
    + apply String.eqb_neq in E.
      destruct IH as [[H1 H2]|H]; [left; split; [exact H1|] | right; right; exact H].
      intros [H|H]; [exact (E H) | exact (H2 H)].
Qed.

(** Extra: [_extract_state_from_address] only ever returns one of three things:
    [""], a full state or province name of [STATE_ABBREV_TO_FULL], or a
    two-letter upper-case token that is not a key of the table. *)
Theorem extract_state_range (a : string) :
  let s := _extract_state_from_address a in
  s = "" \/ In s (map snd STATE_ABBREV_TO_FULL) \/
  (String.length s = 2 /\ all_chars is_upper s = true /\
   ~ In s (map fst STATE_ABBREV_TO_FULL)).
Proof.
  cbv zeta; unfold _extract_state_from_address.
  destruct (String.eqb a ""); [left; reflexivity|].
  destruct (state_search a) as [st|] eqn:E; [|left; reflexivity].
  destruct (state_search_shape a st E) as [Hl Hu].
  rewrite (upper_all_upper st Hu).
  destruct (state_get_cases st st STATE_ABBREV_TO_FULL) as [[H1 H2]|H].
  - right; right; rewrite H1; auto.
  - right; left; exact H.
Qed.

Lemma set_expert_ident (e : string * string * string) (c : Company) :
  name (set_expert e c) = name c /\ url (set_expert e c) = url c /\
  company_id (set_expert e c) = company_id c /\
  building_product_category (set_expert e c) = building_product_category c.
Proof. destruct e as [[n p] m]; repeat split. Qed.

Lemma apply_rendered_ident r c : ident (apply_rendered r c) = ident c.
Proof. unfold apply_rendered; cbv zeta; split_ifs; reflexivity. Qed.

Lemma apply_nuxt_ident nd c : ident (apply_nuxt nd c) = ident c.
Proof. unfold apply_nuxt; cbv zeta; split_ifs; reflexivity. Qed.

Lemma extract_with_soup_ident h c : ident (extract_with_soup h c) = ident c.
Proof.
  unfold extract_with_soup; cbv zeta.
  set (c1 := apply_nuxt _ c).
  assert (H1 : ident c1 = ident c) by apply apply_nuxt_ident.
  clearbody c1.
  unfold expert_step, email_fallback, website_fallback, phone_fallback, address_fallback.
  split_ifs; try destruct (expert h) as [[[n p] m]|]; exact H1.
Qed.

(** Extra: [scrape_company_details] never changes who a company is: a company it
    returns has the name, URL, company id and building product category of
    the company it was given; only contact fields and the product expert
    are written. *)
Theorem company_details_keep_identity (use_selenium : bool) (pg : Page) (c c' : Company) :
  scrape_company_details use_selenium pg c = Some c' ->
  name c' = name c /\ url c' = url c /\ company_id c' = company_id c /\
  building_product_category c' = building_product_category c.
Proof.
  intros H.
  enough (E : ident c' = ident c) by (unfold ident in E; injection E; auto).
  unfold scrape_company_details in H.
  destruct use_selenium; [destruct (sel pg) as [[h r]|]|];
  cbv zeta beta iota in H;
  repeat match type of H with context [if ?b then _ else _] => destruct b end;
  try destruct (req pg) as [h'|];
  try discriminate H; injection H as <-;
  rewrite ?extract_with_soup_ident, ?apply_rendered_ident; reflexivity.
Qed.

Lemma company_details_keep_identity_witness :
  let pg := mkPage None (Some (mkHtml [] "" "12 Elm St, Reno, NV 89501" "775-555-0100"
                                   "https://www.elm.com" "" "" None)) in
  let c := new_company "Elm Works" "https://www.arcat.com/company/elm-works-2" "2"
             "05 00 00 - METALS" in
  let c' := match scrape_company_details false pg c with Some x => x | None => c end in
  scrape_company_details false pg c = Some c' /\
  (name c' = name c /\ url c' = url c /\ company_id c' = company_id c /\
   building_product_category c' = building_product_category c).
Proof.
  intros pg c c'.
  split; [vm_compute; reflexivity|].
  apply (company_details_keep_identity false pg c c'); vm_compute; reflexivity.
Defined.

End DetailRangeProofs.

Section ExportProofs.
Import Arcat Expand.ArcatCategory ArcatCheckpoint ArcatExport.

Lemma or_empty_id (s : string) : or_empty s = s.
Proof. unfold or_empty; destruct (String.eqb s "") eqn:E; [apply String.eqb_eq in E|]; auto. Qed.

Lemma division_rows_companies (d : Division) :
  flat_map company_cell (division_rows d) = map (fun c => (name c, url c)) (companies d).
Proof.
  unfold division_rows; destruct (companies d) as [|c cs]; [reflexivity|].
  generalize (c :: cs); intros l.
  induction l as [|x l IH]; [reflexivity|].
  cbn [map flat_map]; rewrite IH.
  unfold company_cell, division_company_row; cbn [nth]; rewrite or_empty_id; reflexivity.
Qed.

Lemma category_rows_companies (l : list Company) :
  flat_map company_cell (map category_company_row l) = map (fun c => (name c, url c)) l.
Proof.
  induction l as [|x l IH]; [reflexivity|].
  cbn [map flat_map]; rewrite IH.
  unfold company_cell, category_company_row; cbn [nth]; rewrite or_empty_id; reflexivity.
Qed.

Lemma division_rows_shape (d : Division) :
  Forall (fun r => length r = 13 /\ nth 12 r None = Some "ARCAT") (division_rows d) /\
  length (division_rows d) = Nat.max 1 (length (companies d)).
Proof.
  unfold division_rows; destruct (companies d) as [|c cs].
  - split; [constructor; [split; reflexivity | constructor] | reflexivity].
  - rewrite length_map; split; [|reflexivity].
    apply Forall_map, Forall_forall; intros x _; split; reflexivity.
Qed.

(** Extra: The worksheet [export_to_excel] writes starts with the 13 column headers,
    and every row after it is 13 columns wide with ["ARCAT"] in the Source
    column.  There is one data row per company of each division, one row for
    a division without companies, and one row per company of each building
    product category. *)
Theorem export_layout (st : ScraperState) :
  let sheet := export_to_excel st in
  hd [] sheet = map Some headers /\
  Forall (fun r => length r = 13 /\ nth 12 r None = Some "ARCAT") (tl sheet) /\
  length (tl sheet) =
    list_sum (map (fun sd => Nat.max 1 (length (companies (div sd)))) (divisions st))
    + length (flat_map cat_companies (building_product_categories st)).
Proof.
  cbv zeta; unfold export_to_excel; cbn [hd tl].
  split; [reflexivity|].
  rewrite length_app; split.
  - apply Forall_app; split.
    + induction (divisions st) as [|sd ds IH]; [constructor|].
      cbn [flat_map]; apply Forall_app; split; [apply division_rows_shape | exact IH].
    + induction (building_product_categories st) as [|cat cs IH]; [constructor|].
      cbn [flat_map]; apply Forall_app; split; [|exact IH].
      apply Forall_map, Forall_forall; intros x _; split; reflexivity.
  - f_equal.
    + induction (divisions st) as [|sd ds IH]; [reflexivity|].
      cbn [flat_map map list_sum fold_right]; rewrite length_app, IH.
      rewrite (proj2 (division_rows_shape (div sd))); reflexivity.
    + induction (building_product_categories st) as [|cat cs IH]; [reflexivity|].
      cbn [flat_map]; rewrite !length_app, length_map, IH; reflexivity.
Qed.

(** Extra: Exporting loses no company and adds none: reading the Company and
    Company URL columns of the data rows, skipping the rows of divisions
    without companies, gives the name and URL of every company of every
    division followed by every company of every building product category,
    in order and with repetitions. *)
Theorem export_lists_every_company (st : ScraperState) :
  flat_map company_cell (tl (export_to_excel st)) =
  map (fun c => (name c, url c))
      (flat_map (fun sd => companies (div sd)) (divisions st)
       ++ flat_map cat_companies (building_product_categories st)).
Proof.
  unfold export_to_excel; cbn [tl].
  rewrite flat_map_app, map_app; f_equal.
  - induction (divisions st) as [|sd ds IH]; [reflexivity|].
    cbn [flat_map]; rewrite flat_map_app, map_app, IH, division_rows_companies; reflexivity.
  - induction (building_product_categories st) as [|cat cs IH]; [reflexivity|].
    cbn [flat_map]; rewrite flat_map_app, map_app, IH, category_rows_companies; reflexivity.
Qed.

End ExportProofs.

Section DurationProofs.
Import ZArith QArith Qround Lqa ProgressOps DurationFormat.

Lemma floor_unique (z : Z) (q : Q) :
  inject_Z z <= q -> q < inject_Z (z + 1) -> Qfloor q = z.
Proof.
  intros H1 H2. apply Z.le_antisymm.
  - assert (H : inject_Z (Qfloor q) < inject_Z (z + 1)).
    { apply Qle_lt_trans with q; [apply Qfloor_le | exact H2]. }
    rewrite <- Zlt_Qlt in H; lia.
  - rewrite <- (Qfloor_Z z) at 1. apply Qfloor_resp_le; exact H1.
Qed.

Lemma py_int_Z (z : Z) : py_int (inject_Z z) = z.
Proof.
  unfold py_int. destruct (Qle_bool 0 (inject_Z z)).
  - apply Qfloor_Z.
  - change (- inject_Z z) with (inject_Z (- z)); rewrite Qfloor_Z; lia.
Qed.

(** Extra: Both duration formatters split a non-negative number of seconds [x] into
    hours, minutes and seconds that add back up to the whole seconds of [x],
    with minutes and seconds below 60. *)
Theorem hms_decomposition (x : Q) (Hx : 0 <= x) :
  let '(h, m, s) := hms x in
  (3600 * h + 60 * m + s = Qfloor x /\ 0 <= h /\ 0 <= m < 60 /\ 0 <= s < 60)%Z.
Proof.
  unfold hms, py_floordiv, py_fmod.
  set (a := Qfloor (x / 3600)); set (b := Qfloor (x / 60)); set (f := Qfloor x).
  assert (Ha1 := Qfloor_le (x / 3600)); assert (Ha2 := Qlt_floor (x / 3600)).
  assert (Hb1 := Qfloor_le (x / 60)); assert (Hb2 := Qlt_floor (x / 60)).
  assert (Hf1 := Qfloor_le x); assert (Hf2 := Qlt_floor x).
  fold a b f in Ha1, Ha2, Hb1, Hb2, Hf1, Hf2.
  rewrite inject_Z_plus in Ha2, Hb2, Hf2.
  change (x / 3600) with (x * (1 # 3600)) in *.
  change (x / 60) with (x * (1 # 60)) in *.
  assert (Hm : Qfloor ((x - 3600 * inject_Z a) / 60) = (b - 60 * a)%Z).
  { apply floor_unique; unfold Z.sub; rewrite ?inject_Z_plus, ?inject_Z_opp, ?inject_Z_mult;
    change ((x - 3600 * inject_Z a) / 60) with ((x - 3600 * inject_Z a) * (1 # 60));
    change (inject_Z 60) with 60 in *; change (inject_Z 1) with 1 in *; lra. }
  assert (Hs0 : 0 <= x - 60 * inject_Z b) by lra.
  assert (Hs : Qfloor (x - 60 * inject_Z b) = (f - 60 * b)%Z).
  { apply floor_unique; unfold Z.sub; rewrite ?inject_Z_plus, ?inject_Z_opp, ?inject_Z_mult;
    change (inject_Z 60) with 60 in *; change (inject_Z 1) with 1 in *; lra. }
  rewrite py_int_Z, Hm, py_int_Z.
  unfold py_int; rewrite (proj2 (Qle_bool_iff _ _) Hs0), Hs.
  assert (Hz : forall u v : Z, inject_Z u < inject_Z v -> (u < v)%Z)
    by (intros u v H; rewrite <- Zlt_Qlt in H; exact H).
  assert (Hzle : forall u v : Z, inject_Z u <= inject_Z v -> (u <= v)%Z)
    by (intros u v H; rewrite <- Zle_Qle in H; exact H).
  assert (H60a : (60 * a <= b)%Z).
  { rewrite <- (Qfloor_Z (60 * a)). unfold b. apply Qfloor_resp_le.
    rewrite inject_Z_mult; change (inject_Z 60) with 60. lra. }
  assert (H60b : (b < 60 * a + 60)%Z).
  { apply Hz. rewrite inject_Z_plus, inject_Z_mult; change (inject_Z 60) with 60.
    change (inject_Z 1) with 1 in Ha2. lra. }
  assert (H60c : (60 * b <= f)%Z).
  { rewrite <- (Qfloor_Z (60 * b)). unfold f. apply Qfloor_resp_le.
    rewrite inject_Z_mult; change (inject_Z 60) with 60. lra. }
  assert (H60d : (f < 60 * b + 60)%Z).
  { apply Hz. rewrite inject_Z_plus, inject_Z_mult; change (inject_Z 60) with 60.
    change (inject_Z 1) with 1 in Hb2. lra. }
  assert (Ha0 : (0 <= a)%Z).
  { rewrite <- (Qfloor_Z 0). unfold a. apply Qfloor_resp_le.
    change (inject_Z 0) with 0; change (x / 3600) with (x * (1 # 3600)); lra. }
  lia.
Qed.

Lemma hms_decomposition_witness :
  (0 <= 3725 # 2) /\
  (let '(h, m, s) := hms (3725 # 2) in
   (3600 * h + 60 * m + s = Qfloor (3725 # 2) /\ 0 <= h /\ 0 <= m < 60 /\ 0 <= s < 60)%Z).
Proof.
  split; [unfold Qle; cbn; lia | apply (hms_decomposition (3725 # 2)); unfold Qle; cbn; lia].
Defined.

End DurationProofs.

Section SweetsExportProofs.
Import SweetsModel SweetsExport.

Lemma flat_map_map_comm {A B C} (f : B -> C) (g : A -> list B) (l : list A) :
  flat_map (fun a => map f (g a)) l = map f (flat_map g l).
Proof.
  induction l as [|a l IH]; [reflexivity|].
  cbn [flat_map]; rewrite IH, map_app; reflexivity.
Qed.

Lemma export_rows_products (use_selenium : bool) (st : SweetsState) :
  tl (export_to_excel use_selenium st) = map (product_row use_selenium) (all_products st).
Proof.
  unfold export_to_excel, all_products; cbn [tl].
  rewrite <- flat_map_map_comm; apply flat_map_ext; intros d.
  apply flat_map_map_comm.
Qed.

(** Extra: In both modes of [export_to_excel] the columns of the product rows line
    up with the header row: there is one data row per product of each
    section of each division, in order, each as wide as the header row, with
    the product URL under the "Product URL" header and "SWEETS" under the
    "Source" header. *)
Theorem sweets_export_columns_align (use_selenium : bool) (st : SweetsState) :
  let hs := headers use_selenium in
  let sheet := export_to_excel use_selenium st in
  hd [] sheet = map CStr hs /\
  nth (length hs - 2) hs "" = "Product URL" /\ nth (length hs - 1) hs "" = "Source" /\
  map (fun r => (length r, nth (length hs - 2) r (CStr ""), nth (length hs - 1) r (CStr "")))
      (tl sheet)
  = map (fun p => (length hs, CStr (url p), CStr "SWEETS")) (all_products st).
Proof.
  cbv zeta. rewrite export_rows_products, map_map.
  split; [reflexivity|].
  destruct use_selenium; (split; [reflexivity|]); (split; [reflexivity|]);
    apply map_ext; intros p; reflexivity.
Qed.

End SweetsExportProofs.

Section SweetsDetailProofs.
Import ZArith Str SweetsModel SweetsDetail.

Ltac split_matches :=
  repeat match goal with
         | |- context [match ?x with _ => _ end] => destruct x
         end.

Lemma finish_contact sp p :
  url (finish sp p) = url p /\ address (finish sp p) = address p /\
  city (finish sp p) = city p /\ state (finish sp p) = state p /\
  zip_code (finish sp p) = zip_code p /\ phone (finish sp p) = phone p /\
  fax (finish sp p) = fax p /\ email (finish sp p) = email p /\
  website (finish sp p) = website p.
Proof. repeat split. Qed.

Lemma page_step_url sp p : url (page_step sp p) = url p.
Proof. unfold page_step. cbv zeta. split_matches; reflexivity. Qed.

Lemma apply_contact_url c p : url (apply_contact c p) = url p.
Proof. unfold apply_contact. cbv zeta. split_matches; reflexivity. Qed.

Lemma mfr_fallback_url mfr cache p : url (fst (mfr_fallback mfr cache p)) = url p.
Proof.
  unfold mfr_fallback. split_matches; cbn [fst]; rewrite ?apply_contact_url; reflexivity.
Qed.

Lemma scrape_product_details_url mfr cache pg p :
  url (fst (scrape_product_details mfr cache pg p)) = url p.
Proof.
  unfold scrape_product_details. destruct pg as [sp|]; [|reflexivity].
  pose proof (mfr_fallback_url mfr cache (page_step sp p)) as H.
  destruct (mfr_fallback mfr cache (page_step sp p)) as [q c'].
  cbn [fst] in *. rewrite (proj1 (finish_contact sp q)), H. apply page_step_url.
Qed.

(** A manufacturer cache that agrees with the manufacturer pages. *)
Lemma mfr_fallback_cache mfr cache p :
  (forall k v, cache_get k cache = Some v -> v = mfr k) ->
  fst (mfr_fallback mfr cache p) = fst (mfr_fallback mfr [] p) /\
  (forall k v, cache_get k (snd (mfr_fallback mfr cache p)) = Some v -> v = mfr k).
Proof.
  intros Hc. unfold mfr_fallback.
  destruct (negb _ && _); [|split; [reflexivity|exact Hc]].
  cbn [cache_get]. destruct (cache_get (manufacturer_id p) cache) as [v|] eqn:E.
  - rewrite (Hc _ _ E). split; [reflexivity|exact Hc].
  - split; [reflexivity|]. intros k v Hk. cbn [snd cache_get] in Hk.
    destruct (String.eqb (manufacturer_id p) k) eqn:Ek.
    + apply String.eqb_eq in Ek. subst k. injection Hk. auto.
    + exact (Hc _ _ Hk).
Qed.

Lemma scrape_product_details_cache mfr cache pg p :
  (forall k v, cache_get k cache = Some v -> v = mfr k) ->
  fst (scrape_product_details mfr cache pg p) = fst (scrape_product_details mfr [] pg p) /\
  (forall k v, cache_get k (snd (scrape_product_details mfr cache pg p)) = Some v -> v = mfr k).
Proof.
  intros Hc. unfold scrape_product_details. destruct pg as [sp|]; [|split; [reflexivity|exact Hc]].
  destruct (mfr_fallback_cache mfr cache (page_step sp p) Hc) as [H1 H2].
  destruct (mfr_fallback mfr cache (page_step sp p)) as [q c'].
  destruct (mfr_fallback mfr [] (page_step sp p)) as [q' c''].
  cbn [fst snd] in *. subst q'. split; [reflexivity|exact H2].
Qed.

End SweetsDetailProofs.

Section SweetsPrecedenceProofs.
Import ZArith Str SweetsModel SweetsDetail.

Ltac split_matches :=
  repeat match goal with
         | |- context [match ?x with _ => _ end] => destruct x
         end.

Lemma get_if {A} (f : Product -> A) (b : bool) x y :
  f (if b then x else y) = if b then f x else f y.
Proof. destruct b; reflexivity. Qed.

Lemma if_same {A} (b : bool) (x : A) : (if b then x else x) = x.
Proof. destruct b; reflexivity. Qed.

(** Read a contact field through the setters and the branches of
    [apply_contact]. *)
Ltac simp_fields :=
  repeat (first [ rewrite (get_if phone) | rewrite (get_if fax) | rewrite (get_if email)
                | rewrite (get_if website) | rewrite if_same
                | progress cbn [set_phone set_fax set_email set_website set_contact
                                phone fax email website] ]).

Lemma apply_contact_fields c q :
  let r := apply_contact c q in
  phone r = (if ArcatDetail.nonempty (phone q) then phone q else SweetsAddress.phone c) /\
  fax r = (if ArcatDetail.nonempty (fax q) then fax q else SweetsAddress.fax c) /\
  email r = (if ArcatDetail.nonempty (email q) then email q else SweetsAddress.email c) /\
  website r = (if ArcatDetail.nonempty (website q) then website q else SweetsAddress.website c).
Proof.
  intros r. unfold r, apply_contact. cbv zeta.
  repeat split; simp_fields;
    [destruct (ArcatDetail.nonempty (phone q)) | destruct (ArcatDetail.nonempty (fax q))
    |destruct (ArcatDetail.nonempty (email q)) | destruct (ArcatDetail.nonempty (website q))];
    reflexivity.
Qed.

Lemma apply_contact_keeps c q :
  (ArcatDetail.nonempty (phone q) = true -> phone (apply_contact c q) = phone q) /\
  (ArcatDetail.nonempty (fax q) = true -> fax (apply_contact c q) = fax q) /\
  (ArcatDetail.nonempty (email q) = true -> email (apply_contact c q) = email q) /\
  (ArcatDetail.nonempty (website q) = true -> website (apply_contact c q) = website q).
Proof.
  destruct (apply_contact_fields c q) as (E1 & E2 & E3 & E4).
  repeat split; intros H; [rewrite E1|rewrite E2|rewrite E3|rewrite E4]; now rewrite H.
Qed.

Lemma first_email_first l e :
  first_email l = Some e ->
  exists l1 l2, l = app l1 (e :: l2)
    /\ Forall (fun x => existsb (fun exc => contains exc (lower x)) excluded_email_domains = true) l1
    /\ existsb (fun exc => contains exc (lower e)) excluded_email_domains = false.
Proof.
  induction l as [|x l IH]; intros H; [discriminate|].
  cbn [first_email] in H.
  destruct (existsb (fun exc => contains exc (lower x)) excluded_email_domains) eqn:Ex;
    cbn [negb] in H.
  - destruct (IH H) as (l1 & l2 & -> & Hf & He). exists (x :: l1), l2.
    split; [reflexivity|]. split; [constructor; assumption|exact He].
  - injection H as <-. exists [], l. split; [reflexivity|]. split; [constructor|exact Ex].
Qed.

(** SWEETS part of C5, [scrape_product_details].  With an [address] tag the
    eight contact fields come from the tag's parse; without one, the phone is
    the first telephone pattern that matches (the [tel:] link, then the
    second pattern) and the email the first match outside the excluded
    words.  The manufacturer-page fallback runs only when the address is
    still empty: otherwise all eight fields stay as the page set them, and a
    non-empty phone, fax, email or website always stays. *)
Lemma sweets_detail_precedence mfr cache sp p :
  let q := page_step sp p in
  let r := fst (scrape_product_details mfr cache (Some sp) p) in
  (forall parse, address_tag sp = Some parse ->
     let a := parse (manufacturer_name p) in
     (address q, city q, state q, zip_code q, phone q, fax q, email q, website q)
     = (SweetsAddress.address a, SweetsAddress.city a, SweetsAddress.state a,
        SweetsAddress.zip_code a, SweetsAddress.phone a, SweetsAddress.fax a,
        SweetsAddress.email a, SweetsAddress.website a)) /\
  (address_tag sp = None ->
     phone q = match tel_match sp with
               | Some g => fmt_phone g
               | None => match tel_match2 sp with Some g => fmt_phone g | None => phone p end
               end /\
     email q = match first_email (email_matches sp) with Some e => e | None => email p end) /\
  (forall l e, first_email l = Some e ->
     exists l1 l2, l = app l1 (e :: l2)
       /\ Forall (fun x => existsb (fun exc => contains exc (lower x)) excluded_email_domains = true) l1
       /\ existsb (fun exc => contains exc (lower e)) excluded_email_domains = false) /\
  (ArcatDetail.nonempty (address q) = true ->
     (address r, city r, state r, zip_code r, phone r, fax r, email r, website r)
     = (address q, city q, state q, zip_code q, phone q, fax q, email q, website q)) /\
  (ArcatDetail.nonempty (phone q) = true -> phone r = phone q) /\
  (ArcatDetail.nonempty (fax q) = true -> fax r = fax q) /\
  (ArcatDetail.nonempty (email q) = true -> email r = email q) /\
  (ArcatDetail.nonempty (website q) = true -> website r = website q).
Proof.
  intros q r.
  assert (Hr : r = finish sp (fst (mfr_fallback mfr cache q))).
  { unfold r, scrape_product_details. fold q.
    destruct (mfr_fallback mfr cache q); reflexivity. }
  assert (Hf : forall x, (address (finish sp x), city (finish sp x), state (finish sp x),
                 zip_code (finish sp x), phone (finish sp x), fax (finish sp x),
                 email (finish sp x), website (finish sp x))
                = (address x, city x, state x, zip_code x, phone x, fax x, email x, website x))
    by reflexivity.
  assert (Hm : forall (get : Product -> string),
            (forall c x, ArcatDetail.nonempty (get x) = true -> get (apply_contact c x) = get x) ->
            (forall x, get (finish sp x) = get x) ->
            ArcatDetail.nonempty (get q) = true -> get r = get q).
  { intros get Hget Hfin Hne. rewrite Hr, Hfin. unfold mfr_fallback.
    destruct (negb _ && _); [|reflexivity].
    destruct (cache_get _ _) as [[c|]|]; cbn [fst]; try reflexivity;
      destruct (mfr (manufacturer_id q)); cbn [fst]; auto. }
  split; [|split; [|split; [exact first_email_first|split; [|split; [|split; [|split]]]]]].
  - intros parse Hp. unfold q, page_step. rewrite Hp. reflexivity.
  - intros Hn. unfold q, page_step. rewrite Hn. cbv zeta.
    split; split_matches; reflexivity.
  - intros Ha. rewrite Hr, Hf. unfold mfr_fallback. rewrite Ha. reflexivity.
  - apply Hm; [intros c x; apply (apply_contact_keeps c x)|reflexivity].
  - apply Hm; [intros c x; apply (apply_contact_keeps c x)|reflexivity].
  - apply Hm; [intros c x; apply (apply_contact_keeps c x)|reflexivity].
  - apply Hm; [intros c x; apply (apply_contact_keeps c x)|reflexivity].
Qed.

(** SWEETS: an [address] tag that gives a city but no street leaves the
    address empty, and the manufacturer-page fallback then replaces the
    city read from the tag. *)
Lemma sweets_tag_city_overwritten :
  let tag := fun m : string => SweetsAddress.mkAddressResult "" "Austin" "Texas" "78701"
                                 "(512) 555-0100" "" "" "" in
  let sp := SweetsCrawl.sc_spage (Some tag) None in
  let p := new_product "Saw" "https://sweets.construction.com/manufacturer/alpha-1/products/saw-11"
             "Alpha Inc" "alpha-1" "02 00 00" "Existing Conditions" "02 41 00" "Demolition" in
  let mfr := fun _ : string => Some (SweetsAddress.mkAddressResult "9 Elm St" "Dallas" "Texas"
                                  "75201" "" "" "" "") in
  city (page_step sp p) = "Austin" /\
  city (fst (scrape_product_details mfr [] (Some sp) p)) = "Dallas".
Proof. vm_compute. split; reflexivity. Qed.

End SweetsPrecedenceProofs.

Section SweetsCrawlProofs.
Import ZArith Str SweetsModel SweetsDetail SweetsCrawl.

Lemma scrape_section_products_some links s d :
  scrape_section_products (Some links) s d
  = with_products s (app (sec_products s)
      (map (link_product s d)
           (Expand.first_seen (fun l => before "?" (p_href l)) [] (filter product_keep links)))).
Proof. cbn [scrape_section_products]. rewrite product_loop_gen. reflexivity. Qed.

Lemma link_product_congr s s' d d' l :
  sec_code s = sec_code s' -> sec_name s = sec_name s' ->
  div_code d = div_code d' -> div_name d = div_name d' ->
  link_product s d l = link_product s' d' l.
Proof. intros H1 H2 H3 H4. unfold link_product. now rewrite H1, H2, H3, H4. Qed.

Lemma expand_section_congr pp d d' s :
  div_code d = div_code d' -> div_name d = div_name d' ->
  expand_section pp d s = expand_section pp d' s.
Proof.
  intros Hc Hn. unfold expand_section. destruct (sec_products s) eqn:Es; [|reflexivity].
  destruct (pp (sec_url s)) as [links|]; [|reflexivity].
  rewrite !scrape_section_products_some. f_equal. f_equal.
  apply map_ext. intros l. now apply link_product_congr.
Qed.

Lemma expand_section_fixed pp d d' s :
  div_code d = div_code d' -> div_name d = div_name d' ->
  sec_products (expand_section pp d s) = [] ->
  expand_section pp d' (expand_section pp d s) = expand_section pp d s.
Proof.
  intros Hc Hn. destruct (sec_products s) eqn:Es.
  2: { assert (HX : expand_section pp d s = s) by (unfold expand_section; now rewrite Es).
       rewrite HX. intros H. rewrite H in Es. discriminate. }
  destruct (pp (sec_url s)) as [links|] eqn:Ep.
  - assert (HX : expand_section pp d s
                 = with_products s (map (link_product s d)
                     (Expand.first_seen (fun l => before "?" (p_href l)) []
                        (filter product_keep links)))).
    { unfold expand_section. rewrite Es, Ep, scrape_section_products_some, Es. reflexivity. }
    rewrite HX. cbn [sec_products with_products]. intros H. apply map_eq_nil in H.
    rewrite H. unfold expand_section. cbn [sec_products with_products sec_url].
    rewrite Ep, scrape_section_products_some. cbn [sec_products with_products].
    rewrite H. reflexivity.
  - assert (HX : expand_section pp d s = s).
    { unfold expand_section. rewrite Es, Ep. reflexivity. }
    rewrite HX. intros _. unfold expand_section. rewrite Es, Ep. reflexivity.
Qed.

Lemma with_sections_same d : with_sections d (div_sections d) = d.
Proof. destruct d; reflexivity. Qed.

Lemma with_products_same s : with_products s (sec_products s) = s.
Proof. destruct s; reflexivity. Qed.

Lemma expand_division_fixed sp pp d :
  (div_sections d = [] -> expand_division sp pp d = d) ->
  Forall (fun s => sec_products s = [] -> expand_section pp d s = s) (div_sections d) ->
  expand_division sp pp d = d.
Proof.
  intros H0 Hs.
  assert (Hm : map (expand_section pp d) (div_sections d) = div_sections d).
  { rewrite <- (map_id (div_sections d)) at 2. apply map_ext_in. intros x Hx.
    destruct (sec_products x) eqn:Ex.
    - exact (proj1 (Forall_forall _ _) Hs x Hx Ex).
    - unfold expand_section. now rewrite Ex. }
  destruct (div_sections d) eqn:E; [now apply H0|].
  assert (Hd : match div_sections d with
               | [] => scrape_division_sections (sp (div_url d)) d
               | _ => d
               end = d) by (rewrite E; reflexivity).
  unfold expand_division. cbv zeta. rewrite Hd. rewrite <- E in Hm. rewrite Hm. apply with_sections_same.
Qed.

Lemma sds_url soup d : div_url (scrape_division_sections soup d) = div_url d.
Proof. destruct soup; reflexivity. Qed.

Lemma sds_again soup d :
  div_sections (scrape_division_sections soup d) = [] ->
  scrape_division_sections soup (scrape_division_sections soup d)
  = scrape_division_sections soup d.
Proof.
  destruct soup as [links|]; [|reflexivity]. cbn [scrape_division_sections].
  cbn [div_sections with_sections]. intros H. rewrite H.
  apply app_eq_nil in H as [_ H]. rewrite H. reflexivity.
Qed.

Lemma expand_division_result sp pp d0 :
  let d := expand_division sp pp d0 in
  (div_sections d = [] -> expand_division sp pp d = d) /\
  Forall (fun s => sec_products s = [] -> expand_section pp d s = s) (div_sections d).
Proof.
  set (d1 := match div_sections d0 with
             | [] => scrape_division_sections (sp (div_url d0)) d0
             | _ => d0
             end).
  assert (Hd : expand_division sp pp d0
               = with_sections d1 (map (expand_section pp d1) (div_sections d1))) by reflexivity.
  cbv zeta. rewrite Hd. split.
  - cbn [div_sections with_sections]. intros H. apply map_eq_nil in H.
    assert (Hd1 : with_sections d1 (map (expand_section pp d1) (div_sections d1)) = d1).
    { rewrite H. cbn [map]. rewrite <- H. apply with_sections_same. }
    rewrite Hd1.
    assert (H1 : scrape_division_sections (sp (div_url d1)) d1 = d1).
    { unfold d1 in H |- *. destruct (div_sections d0) eqn:E0.
      - rewrite sds_url. now apply sds_again.
      - rewrite E0 in H. discriminate. }
    unfold expand_division. rewrite H. cbv zeta. rewrite H1, H. cbn [map].
    rewrite <- H. apply with_sections_same.
  - apply Forall_forall. intros s' Hs'. cbn [div_sections with_sections] in Hs'.
    apply in_map_iff in Hs' as [s [<- _]]. intros Hp.
    now apply expand_section_fixed.
Qed.

(** ** Cutting and refilling the store *)

Lemma products_of_sections_refill ss ps :
  length ps = length (products_of_sections ss) ->
  products_of_sections (refill_sections ss ps) = ps.
Proof.
  revert ps. induction ss as [|s ss IH]; intros ps Hl.
  - destruct ps; [reflexivity|discriminate].
  - cbn [refill_sections products_of_sections flat_map] in *.
    fold (products_of_sections ss) in *.
    fold (products_of_sections (refill_sections ss (skipn (length (sec_products s)) ps))).
    cbn [sec_products with_products]. rewrite length_app in Hl.
    rewrite IH; [apply firstn_skipn|]. rewrite length_skipn. lia.
Qed.

Lemma products_of_refill divs ps :
  length ps = length (products_of divs) -> products_of (refill divs ps) = ps.
Proof.
  revert ps. induction divs as [|d ds IH]; intros ps Hl.
  - destruct ps; [reflexivity|discriminate].
  - cbn [refill products_of flat_map] in *. fold (products_of ds) in *.
    fold (products_of (refill ds (skipn (length (products_of_sections (div_sections d))) ps))).
    cbn [div_sections with_sections]. rewrite length_app in Hl.
    rewrite products_of_sections_refill by (rewrite length_firstn; lia).
    rewrite IH; [apply firstn_skipn|]. rewrite length_skipn. lia.
Qed.

Lemma refill_sections_refill ss ps xs :
  length ps = length (products_of_sections ss) ->
  refill_sections (refill_sections ss ps) xs = refill_sections ss xs.
Proof.
  revert ps xs. induction ss as [|s ss IH]; intros ps xs Hl; [reflexivity|].
  cbn [refill_sections products_of_sections flat_map] in *.
  fold (products_of_sections ss) in *. rewrite length_app in Hl.
  cbn [sec_products with_products]. rewrite length_firstn, Nat.min_l by lia.
  rewrite IH by (rewrite length_skipn; lia). reflexivity.
Qed.

Lemma srefill_refill divs ps xs :
  length ps = length (products_of divs) -> refill (refill divs ps) xs = refill divs xs.
Proof.
  revert ps xs. induction divs as [|d ds IH]; intros ps xs Hl; [reflexivity|].
  cbn [refill products_of flat_map] in *. fold (products_of ds) in *.
  rewrite length_app in Hl. cbn [div_sections with_sections].
  rewrite products_of_sections_refill by (rewrite length_firstn; lia).
  rewrite length_firstn, Nat.min_l by lia.
  rewrite refill_sections_refill by (rewrite length_firstn; lia).
  rewrite IH by (rewrite length_skipn; lia). reflexivity.
Qed.

Lemma srefill_nil divs ps : refill divs ps = [] -> divs = [].
Proof. destruct divs; [reflexivity|discriminate]. Qed.

Lemma refill_sections_nil ss ps : refill_sections ss ps = [] -> ss = [].
Proof. destruct ss; [reflexivity|discriminate]. Qed.

(** ** The first pass *)

Lemma refill_sections_fixed pp d d' ss ps :
  div_code d = div_code d' -> div_name d = div_name d' ->
  Forall (fun s => sec_products s = [] -> expand_section pp d s = s) ss ->
  length ps = length (products_of_sections ss) ->
  Forall (fun s => sec_products s = [] -> expand_section pp d' s = s) (refill_sections ss ps).
Proof.
  intros Hc Hn. revert ps. induction ss as [|s ss IH]; intros ps Hf Hl; [constructor|].
  inversion Hf as [|? ? Hs Hss]; subst.
  cbn [refill_sections products_of_sections flat_map] in *.
  fold (products_of_sections ss) in *. rewrite length_app in Hl.
  constructor; [|apply IH; [exact Hss|rewrite length_skipn; lia]].
  cbn [sec_products with_products]. intros H0.
  assert (Hnil : sec_products s = []).
  { apply length_zero_iff_nil. pose proof (f_equal (@length Product) H0) as H1.
    rewrite length_firstn in H1. cbn [length] in H1. lia. }
  rewrite H0. rewrite <- Hnil, with_products_same.
  rewrite <- (expand_section_congr pp d d' s Hc Hn). exact (Hs Hnil).
Qed.

Lemma sfirst_pass_refill sp pp divs ps :
  Forall (fun d => (div_sections d = [] -> expand_division sp pp d = d) /\
                   Forall (fun s => sec_products s = [] -> expand_section pp d s = s)
                          (div_sections d)) divs ->
  length ps = length (products_of divs) ->
  first_pass sp pp (refill divs ps) = refill divs ps.
Proof.
  revert ps. induction divs as [|d ds IH]; intros ps Hf Hl; [reflexivity|].
  inversion Hf as [|? ? [H0 Hs] Hds]; subst.
  cbn [refill products_of flat_map] in *. fold (products_of ds) in *.
  rewrite length_app in Hl. unfold first_pass in *. cbn [map].
  rewrite IH by (auto; rewrite length_skipn; lia). f_equal.
  set (n := length (products_of_sections (div_sections d))).
  apply expand_division_fixed.
  - cbn [div_sections with_sections]. intros E. apply refill_sections_nil in E.
    rewrite E. cbn [refill_sections]. rewrite <- E, with_sections_same. exact (H0 E).
  - cbn [div_sections with_sections].
    apply (refill_sections_fixed pp d); [reflexivity|reflexivity|exact Hs|].
    rewrite length_firstn. lia.
Qed.

Lemma first_pass_result sp pp divs :
  Forall (fun d => (div_sections d = [] -> expand_division sp pp d = d) /\
                   Forall (fun s => sec_products s = [] -> expand_section pp d s = s)
                          (div_sections d)) (first_pass sp pp divs).
Proof.
  unfold first_pass. apply Forall_forall. intros e He.
  apply in_map_iff in He as [d [<- _]]. apply expand_division_result.
Qed.

End SweetsCrawlProofs.

Section SweetsLoopProofs.
Import ZArith Str SweetsModel SweetsDetail SweetsCrawl.

(** ** Products found by the first pass carry no contact yet *)

Lemma link_product_fresh s d l : has_contact (link_product s d l) = false.
Proof. unfold link_product. destruct (split_once " - " (p_text l)) as [[a b]|]; reflexivity. Qed.

Lemma expand_section_fresh pp d s :
  sec_products s = [] ->
  Forall (fun p => has_contact p = false) (sec_products (expand_section pp d s)).
Proof.
  intros Hs. unfold expand_section. rewrite Hs.
  destruct (pp (sec_url s)) as [links|].
  - rewrite scrape_section_products_some. cbn [sec_products with_products]. rewrite Hs.
    cbn [app]. apply Forall_forall. intros p Hp. apply in_map_iff in Hp as [l [<- _]].
    apply link_product_fresh.
  - cbn [scrape_section_products]. rewrite Hs. constructor.
Qed.

Lemma sfirst_pass_fresh sp pp divs :
  Forall (fun d => div_sections d = []) divs ->
  Forall (fun p => has_contact p = false) (products_of (first_pass sp pp divs)).
Proof.
  induction divs as [|d ds IH]; intros Hd; [constructor|].
  inversion Hd as [|? ? H0 Hds]; subst.
  cbn [first_pass map products_of flat_map]. fold (products_of (first_pass sp pp ds)).
  apply Forall_app. split; [|exact (IH Hds)].
  set (d1 := match div_sections d with
             | [] => scrape_division_sections (sp (div_url d)) d
             | _ => d
             end).
  assert (Hd1 : Forall (fun s => sec_products s = []) (div_sections d1)).
  { unfold d1. rewrite H0. destruct (sp (div_url d)) as [links|]; cbn.
    - rewrite H0. cbn [app]. apply Forall_forall. intros s Hs.
      apply in_map_iff in Hs as [x [<- _]]. reflexivity.
    - rewrite H0. constructor. }
  change (Forall (fun p => has_contact p = false)
            (products_of_sections (map (expand_section pp d1) (div_sections d1)))).
  induction Hd1 as [|s ss Hs Hss IHs]; [constructor|].
  cbn [map products_of_sections flat_map]. apply Forall_app. split; [|exact IHs].
  now apply expand_section_fresh.
Qed.

Lemma scrape_divisions_bare dp : Forall (fun d => div_sections d = []) (scrape_divisions dp).
Proof.
  destruct dp as [links|]; [|constructor]. cbn [scrape_divisions].
  apply Forall_forall. intros d Hd. apply in_flat_map in Hd as [l [_ Hl]].
  destruct (Expand.SweetsDivision.parsed l) as [[c n]|]; [|destruct Hl].
  destruct Hl as [<-|[]]. reflexivity.
Qed.

End SweetsLoopProofs.

Section SweetsDetailLoopProofs.
Import ZArith Str SweetsModel SweetsDetail SweetsCrawl.

Lemma sdetailed_url mfr page p : url (sdetailed mfr page p) = url p.
Proof. apply scrape_product_details_url. Qed.

Lemma sloop_fetched page mfr interval ts divs scraped done todo count cache dsk log stop :
  let o := detail_loop page mfr interval ts divs scraped done todo count cache dsk log stop in
  let want := app log (filter (fun u => negb (Orchestrator.mem u scraped)) (map url todo)) in
  (exists rest, app (sfetched o) rest = want) /\
  (sstatus o = Orchestrator.Finished -> sfetched o = want).
Proof.
  revert done count cache dsk log stop.
  induction todo as [|c rest IH]; intros done count cache dsk log stop o want; subst o want.
  - cbn. rewrite app_nil_r. split; [exists []; apply app_nil_r | reflexivity].
  - cbn [detail_loop map filter]. destruct (Orchestrator.mem (url c) scraped) eqn:E; cbn [negb].
    + apply IH.
    + assert (Hgo : forall stop',
        let o := (let '(p', cache') := scrape_product_details mfr cache (page (url c)) c in
                  detail_loop page mfr interval ts divs scraped (p' :: done) rest (count + 1)%Z
                    cache'
                    (if Z.ltb 0 (count + 1) && Z.eqb (Z.modulo (count + 1) interval) 0
                     then save ts (refill divs (app (rev (p' :: done)) rest)) (count + 1)
                     else dsk) (app log [url c]) stop') in
        (exists r, app (sfetched o) r
                   = app log (url c :: filter (fun u => negb (Orchestrator.mem u scraped))
                                              (map url rest))) /\
        (sstatus o = Orchestrator.Finished ->
         sfetched o = app log (url c :: filter (fun u => negb (Orchestrator.mem u scraped))
                                               (map url rest)))).
      { intros stop' o. subst o.
        destruct (scrape_product_details mfr cache (page (url c)) c) as [c' cache'].
        lazymatch goal with
        | |- context [detail_loop page mfr interval ts divs scraped ?d rest ?n ?k ?dk ?l ?s] =>
            destruct (IH d n k dk l s) as [[r Hr] Hf]
        end.
        rewrite <- app_assoc in Hr, Hf. split; [exists r; exact Hr | exact Hf]. }
      destruct stop as [[[|n] s]|]; [destruct s| |]; try apply Hgo.
      * split; [exists (url c :: filter (fun u => negb (Orchestrator.mem u scraped)) (map url rest));
                reflexivity | discriminate].
      * split; [exists (url c :: filter (fun u => negb (Orchestrator.mem u scraped)) (map url rest));
                reflexivity | discriminate].
Qed.

Lemma sloop_finish page mfr interval ts divs scraped done todo count cache dsk log :
  (forall k v, cache_get k cache = Some v -> v = mfr k) ->
  let o := detail_loop page mfr interval ts divs scraped done todo count cache dsk log None in
  sstatus o = Orchestrator.Finished /\
  sstore o = refill divs (app (rev done) (map (sresume_step mfr page scraped) todo)).
Proof.
  revert done count cache dsk log.
  induction todo as [|c rest IH]; intros done count cache dsk log Hc o; subst o.
  - cbn. rewrite app_nil_r. split; reflexivity.
  - cbn [detail_loop map]. unfold sresume_step at 1.
    destruct (Orchestrator.mem (url c) scraped) eqn:Em.
    + destruct (IH (c :: done) count cache dsk log Hc) as [H1 H2].
      split; [exact H1|]. rewrite H2. cbn [rev]. now rewrite <- app_assoc.
    + destruct (scrape_product_details_cache mfr cache (page (url c)) c Hc) as [E1 E2].
      destruct (scrape_product_details mfr cache (page (url c)) c) as [c' cache'].
      cbn [fst snd] in E1, E2. change (Orchestrator.tick None) with (@None (nat * Orchestrator.Stop)).
      lazymatch goal with
      | |- context [detail_loop page mfr interval ts divs scraped ?d rest ?n cache' ?k ?l None] =>
          destruct (IH d n cache' k l E2) as [H1 H2]
      end.
      split; [exact H1|]. rewrite H2. cbn [rev]. rewrite <- app_assoc. unfold sdetailed.
      rewrite E1. reflexivity.
Qed.


Lemma sloop_disk page mfr interval ts divs done todo count cache dsk log stop :
  (forall k v, cache_get k cache = Some v -> v = mfr k) ->
  let o := detail_loop page mfr interval ts divs [] done todo count cache dsk log stop in
  sdisk o = dsk \/
  exists m n, sdisk o = save ts (refill divs (app (rev done)
                (app (map (sdetailed mfr page) (firstn m todo)) (skipn m todo)))) n.
Proof.
  revert done count cache dsk log stop.
  induction todo as [|c rest IH]; intros done count cache dsk log stop Hc o; subst o.
  - right. exists 0, count. cbn. rewrite app_nil_r. reflexivity.
  - cbn [detail_loop Orchestrator.mem existsb].
    assert (Hmove : forall m n,
      save ts (refill divs (app (rev (sdetailed mfr page c :: done))
              (app (map (sdetailed mfr page) (firstn m rest)) (skipn m rest)))) n
      = save ts (refill divs (app (rev done)
              (app (map (sdetailed mfr page) (firstn (S m) (c :: rest)))
                   (skipn (S m) (c :: rest))))) n).
    { intros m n. cbn [rev firstn skipn map]. now rewrite <- app_assoc. }
    assert (Hgo : forall stop',
      let o := (let '(p', cache') := scrape_product_details mfr cache (page (url c)) c in
                detail_loop page mfr interval ts divs [] (p' :: done) rest (count + 1)%Z cache'
                  (if Z.ltb 0 (count + 1) && Z.eqb (Z.modulo (count + 1) interval) 0
                   then save ts (refill divs (app (rev (p' :: done)) rest)) (count + 1)
                   else dsk) (app log [url c]) stop') in
      sdisk o = dsk \/
      exists m n, sdisk o = save ts (refill divs (app (rev done)
                    (app (map (sdetailed mfr page) (firstn m (c :: rest))) (skipn m (c :: rest))))) n).
    { intros stop' o. subst o.
      destruct (scrape_product_details_cache mfr cache (page (url c)) c Hc) as [E1 E2].
      destruct (scrape_product_details mfr cache (page (url c)) c) as [c' cache'].
      cbn [fst snd] in E1, E2. change (fst (scrape_product_details mfr [] (page (url c)) c))
        with (sdetailed mfr page c) in E1. subst c'.
      destruct (Z.ltb 0 (count + 1) && Z.eqb (Z.modulo (count + 1) interval) 0).
      - destruct (IH (sdetailed mfr page c :: done) (count + 1)%Z cache'
                   (save ts (refill divs (app (rev (sdetailed mfr page c :: done)) rest)) (count + 1))
                   (app log [url c]) stop' E2) as [E | [m [n E]]].
        + right. exists 1, (count + 1)%Z. rewrite E. apply (Hmove 0).
        + right. exists (S m), n. rewrite E. apply Hmove.
      - destruct (IH (sdetailed mfr page c :: done) (count + 1)%Z cache' dsk (app log [url c])
                   stop' E2) as [E | [m [n E]]].
        + left. exact E.
        + right. exists (S m), n. rewrite E. apply Hmove. }
    destruct stop as [[[|k] [|]]|]; cbn [sdisk];
      first [ left; reflexivity
            | right; exists 0, count; reflexivity
            | apply Hgo ].
Qed.

End SweetsDetailLoopProofs.

Section SweetsResumeProofs.
Import ZArith Str ArcatCheckpoint SweetsModel SweetsDetail SweetsCrawl.

Lemma sweets_restore_saved ts divs n :
  _restore_from_checkpoint (mkSweetsState [] 0) (_save_checkpoint ts (mkSweetsState divs n))
  = Some (mkSweetsState divs n).
Proof.
  unfold _restore_from_checkpoint, _save_checkpoint.
  change (get_list "divisions" _) with (Some (map division_json divs)).
  change (get_int_default "products_scraped" _) with (Some n).
  lazy beta iota.
  rewrite (map_opt_map _ _ _ restore_sweets_division_json). reflexivity.
Qed.

Lemma scrape_all_fresh dp sp pp page mfr interval ts resume stop :
  let E := first_pass sp pp (scrape_divisions dp) in
  scrape_all dp sp pp page mfr interval ts resume None stop
  = Some (detail_loop page mfr interval ts E [] [] (products_of E) 0 [] None [] stop).
Proof. destruct resume; reflexivity. Qed.

(** SWEETS part of C1: on a resume, the product pages requested are, in
    order, a prefix of the URLs of the first-pass products that are not
    among the restored products with a phone or an email, and all of them
    when the run finishes. *)
Lemma sweets_resume_fetches_only_unscraped dp sp pp page mfr interval ts j st stop :
  load_checkpoint (Some j) = Some j ->
  _restore_from_checkpoint (mkSweetsState [] 0) j = Some st ->
  let divs := first_pass sp pp (match divisions st with [] => scrape_divisions dp | l => l end) in
  let want := filter (fun u => negb (Orchestrator.mem u (detailed_urls (divisions st))))
                     (map url (products_of divs)) in
  exists o, scrape_all dp sp pp page mfr interval ts true (Some j) stop = Some o /\
    (exists rest, app (sfetched o) rest = want) /\
    (sstatus o = Orchestrator.Finished -> sfetched o = want).
Proof.
  intros Hl Hr divs want. unfold scrape_all. rewrite Hl, Hr. cbv beta iota zeta.
  eexists. split; [reflexivity|].
  exact (sloop_fetched page mfr interval ts divs _ [] (products_of divs) _ [] (Some j) [] stop).
Qed.

Lemma NoDup_app_disjoint' {A} (l1 l2 : list A) x :
  NoDup (app l1 l2) -> In x l1 -> In x l2 -> False.
Proof.
  induction l1 as [|a l1 IH]; intros Hnd H1 H2; [exact H1|].
  inversion Hnd as [|? ? Ha Hnd']; subst.
  destruct H1 as [<-|H1].
  - apply Ha, in_or_app. now right.
  - exact (IH Hnd' H1 H2).
Qed.

Lemma mem_In' u l : Orchestrator.mem u l = true <-> In u l.
Proof.
  unfold Orchestrator.mem. rewrite existsb_exists. split.
  - intros [x [Hx E]]. apply String.eqb_eq in E. now subst.
  - intros H. exists u. split; [exact H|apply String.eqb_refl].
Qed.

(** SWEETS part of C2: when no product URL is listed twice across the
    sections and detailing a product again either finds it with a contact
    or changes nothing, a run stopped after any number of detail fetches and
    resumed from the checkpoint it left ends with the store of one
    uninterrupted run. *)
Lemma sweets_resume_equivalence dp sp pp page mfr interval ts k s :
  let E := first_pass sp pp (scrape_divisions dp) in
  NoDup (map url (products_of E)) ->
  (forall p, In p (products_of E) ->
     has_contact (sdetailed mfr page p) = true \/
     sdetailed mfr page (sdetailed mfr page p) = sdetailed mfr page p) ->
  match scrape_all dp sp pp page mfr interval ts false None None,
        scrape_all dp sp pp page mfr interval ts false None (Some (k, s)) with
  | Some w, Some c =>
      option_map sstore (scrape_all dp sp pp page mfr interval ts true (sdisk c) None)
      = Some (sstore w)
  | _, _ => False
  end.
Proof.
  intros E Hnd Hid.
  pose proof (sfirst_pass_fresh sp pp _ (scrape_divisions_bare dp)) as Hfresh. fold E in Hfresh.
  set (F := products_of E) in *.
  rewrite !scrape_all_fresh. fold E F. cbv beta iota.
  assert (Hc0 : forall k v, cache_get k [] = Some v -> v = mfr k) by discriminate.
  assert (Hwhole : sstore (detail_loop page mfr interval ts E [] [] F 0 [] None [] None)
                   = refill E (map (sdetailed mfr page) F)).
  { destruct (sloop_finish page mfr interval ts E [] [] F 0 [] None [] Hc0) as [_ H2].
    exact H2. }
  rewrite Hwhole.
  destruct (sloop_disk page mfr interval ts E [] F 0 [] None [] (Some (k, s)) Hc0)
    as [Hd | [m [n Hd]]]; cbv zeta in Hd; rewrite Hd.
  - rewrite scrape_all_fresh. fold E F. cbn [option_map]. now rewrite Hwhole.
  - cbn [rev app] in Hd |- *.
    set (F1 := firstn m F). set (F2 := skipn m F).
    set (L0 := app (map (sdetailed mfr page) F1) F2).
    assert (HF : F = app F1 F2) by (symmetry; apply firstn_skipn).
    assert (HL : length L0 = length (products_of E)).
    { fold F. unfold L0, F1, F2. rewrite length_app, length_map, length_firstn, length_skipn. lia. }
    set (S := refill E L0).
    assert (HS : products_of S = L0) by (apply products_of_refill, HL).
    assert (Hfix : first_pass sp pp (match S with [] => scrape_divisions dp | d :: l => d :: l end) = S).
    { destruct S as [|d ds] eqn:ES.
      - apply srefill_nil in ES. unfold E in ES |- *. exact ES.
      - rewrite <- ES. unfold S. apply sfirst_pass_refill; [apply first_pass_result|exact HL]. }
    unfold scrape_all, save.
    change (load_checkpoint (Some (_save_checkpoint ts (mkSweetsState S n))))
      with (Some (_save_checkpoint ts (mkSweetsState S n))).
    cbv beta iota. rewrite sweets_restore_saved. cbv beta iota zeta. cbn [divisions products_scraped_count].
    rewrite Hfix, HS.
    destruct (sloop_finish page mfr interval ts S (detailed_urls S) [] L0 n []
                (Some (_save_checkpoint ts (mkSweetsState S n))) [] Hc0) as [_ H2].
    cbn [option_map]. rewrite H2. cbn [rev app].
    assert (HRR : forall X, refill S X = refill E X) by (intros X; apply srefill_refill; exact HL).
    rewrite HRR.
    do 2 f_equal.
    assert (Hscr : forall y, Orchestrator.mem (url y) (detailed_urls S) = true ->
                   exists z, In z L0 /\ has_contact z = true /\ url z = url y).
    { intros y Hy. apply mem_In' in Hy. unfold detailed_urls in Hy. rewrite HS in Hy.
      apply in_map_iff in Hy as [z [Hz Hin]]. apply filter_In in Hin as [Hin Hc].
      exists z. auto. }
    rewrite HF, map_app. unfold L0. rewrite map_app, map_map. f_equal.
    + apply map_ext_in. intros p Hp.
      unfold sresume_step. destruct (Orchestrator.mem (url (sdetailed mfr page p)) (detailed_urls S)) eqn:Em;
        [reflexivity|].
      destruct (Hid p) as [Hct | Hidem]; [rewrite HF; apply in_or_app; now left| |exact Hidem].
      exfalso. assert (Hin : In (url (sdetailed mfr page p)) (detailed_urls S)).
      { unfold detailed_urls. rewrite HS. apply in_map, filter_In. split; [|exact Hct].
        unfold L0. apply in_or_app. left. now apply in_map. }
      apply mem_In' in Hin. fold S in Hin. congruence.
    + apply map_ext_in. intros p Hp.
      unfold sresume_step. destruct (Orchestrator.mem (url p) (detailed_urls S)) eqn:Em;
        [|reflexivity].
      exfalso. fold S in Em. destruct (Hscr p Em) as [z [Hz [Hct Hu]]].
      unfold L0 in Hz. apply in_app_or in Hz as [Hz|Hz].
      * apply in_map_iff in Hz as [p1 [<- Hp1]]. rewrite sdetailed_url in Hu.
        apply (NoDup_app_disjoint' (map url F1) (map url F2) (url p)).
        -- rewrite <- map_app, <- HF. exact Hnd.
        -- rewrite <- Hu. now apply in_map.
        -- now apply in_map.
      * assert (Hz0 : has_contact z = false).
        { apply (proj1 (Forall_forall _ _) Hfresh). rewrite HF. apply in_or_app. now right. }
        congruence.
Qed.

End SweetsResumeProofs.

Section SweetsListingProofs.
Import ZArith Str SweetsModel SweetsCrawl.

Lemma canonical_key_sweets h :
  Arcat.canonical_key (BASE_URL ++ h) = (BASE_URL ++ before "?" h)%string.
Proof. reflexivity. Qed.

(** SWEETS part of C3, [scrape_section_products]: within one section the
    products the loop appends have pairwise distinct canonical keys; links
    processed later only append; a link whose stripped [href] is already
    seen is dropped whole; and the section's product list is the old list
    followed by the products found. *)
Lemma sweets_listing_keys_unique_first_wins s d links1 links2 :
  let run := fun links => fold_left (product_step s d) links ([], []) in
  NoDup (map (fun p => Arcat.canonical_key (url p)) (snd (run (app links1 links2)))) /\
  (exists extra, snd (run (app links1 links2)) = app (snd (run links1)) extra) /\
  (forall st l, existsb (String.eqb (before "?" (p_href l))) (fst st) = true ->
     product_step s d st l = st) /\
  (forall links, sec_products (scrape_section_products (Some links) s d)
                 = app (sec_products s) (snd (run links))).
Proof.
  intros run. split; [|split; [|split]].
  - unfold run. rewrite product_loop_gen. cbn [app]. rewrite map_map.
    set (kept := Expand.first_seen (fun l => before "?" (p_href l)) []
                   (filter product_keep (app links1 links2))).
    assert (Hk : map (fun l => Arcat.canonical_key (url (link_product s d l))) kept
                 = map (fun h => (BASE_URL ++ h)%string) (map (fun l => before "?" (p_href l)) kept)).
    { rewrite map_map. apply map_ext. intros l.
      rewrite (proj1 (link_product_fields s d l)). apply canonical_key_sweets. }
    rewrite Hk. apply NoDup_map_prefix. apply first_seen_keys.
  - unfold run. rewrite fold_left_app.
    destruct (fold_left (product_step s d) links1 ([], [])) as [seen found].
    rewrite product_loop_gen. cbn [snd]. eexists. reflexivity.
  - intros [seen found] l Hm. cbn [fst] in Hm. unfold product_step. rewrite Hm.
    rewrite orb_true_r. reflexivity.
  - intros links. reflexivity.
Qed.

(** SWEETS store: the same product listed in two sections of a division is
    kept once per section. *)
Lemma sweets_store_holds_duplicate_key :
  ~ NoDup (map (fun p => Arcat.canonical_key (url p))
             (products_of (first_pass sc_two_sections_page sc_one_product_page
                             (scrape_divisions sc_divisions_page)))).
Proof. vm_compute. intros H. inversion H as [|x xs Hn _]. apply Hn. left. reflexivity. Qed.

(** SWEETS: when the first product's page yields no phone and no email,
    the resumed run requests that page again although its detail fetch had
    completed. *)
Lemma sweets_detailed_without_contact_fetched_again :
  let first := scrape_all sc_divisions_page sc_sections_page sc_products_page sc_bare_page sc_mfr
                 2 "t" false None (Some (2, Orchestrator.HardKill)) in
  let again := match first with
               | Some o => scrape_all sc_divisions_page sc_sections_page sc_products_page
                             sc_bare_page sc_mfr 2 "t" true (sdisk o) None
               | None => None end in
  option_map sfetched first
  = Some [BASE_URL ++ "/manufacturer/alpha-1/products/saw-11";
          BASE_URL ++ "/manufacturer/beta-2/products/drill-22"]
  /\ option_map sfetched again
  = Some [BASE_URL ++ "/manufacturer/alpha-1/products/saw-11";
          BASE_URL ++ "/manufacturer/gamma-3/products/hammer-33"].
Proof. vm_compute. split; reflexivity. Qed.

(** SWEETS: the same product listed in two sections.  The uninterrupted
    run details both entries; a run stopped by an exception after the first
    detail fetch and resumed skips the second entry, whose URL is already
    scraped. *)
Lemma sweets_cross_listed_left_undetailed :
  let run := scrape_all sc_divisions_page sc_two_sections_page sc_one_product_page sc_page sc_mfr
               10 "t" in
  let cut := run false None (Some (1, Orchestrator.Raise)) in
  option_map (fun o => map phone (products_of (sstore o))) (run false None None)
    = Some ["(512) 555-0100"; "(512) 555-0100"]
  /\ option_map (fun o => map phone (products_of (sstore o)))
       (match cut with Some o => run true (sdisk o) None | None => None end)
    = Some ["(512) 555-0100"; ""].
Proof. vm_compute. split; reflexivity. Qed.

(** SWEETS: detailing a product again can change it.  The first fetch
    stores the page's [selectedProductID] as the manufacturer id; on resume
    the product, still without contact, is detailed again, and the fallback
    now reads the manufacturer page of that id. *)
Lemma sweets_redetail_differs :
  let run := scrape_all sc_divisions_page sc_sections_page sc_products_page sc_id_page sc_id_mfr
               10 "t" in
  let cut := run false None (Some (1, Orchestrator.Raise)) in
  option_map (fun o => map address (products_of (sstore o))) (run false None None)
    = Some [""; ""; ""]
  /\ option_map (fun o => map address (products_of (sstore o)))
       (match cut with Some o => run true (sdisk o) None | None => None end)
    = Some ["9 Elm St"; ""; ""].
Proof. vm_compute. split; reflexivity. Qed.

End SweetsListingProofs.

(** * The claims, on both crawlers *)

Section ClaimProofs.
Import ZArith ArcatDetail Orchestrator.

(** C1 (amended).  On a resume, each crawler skips exactly the entities of
    the restored store that look detailed, and requests the pages of the
    other first-pass entities, in order: a prefix of them, and all of them
    when the run finishes.  ARCAT ([scrape_csi_only], from a [csi-only]
    checkpoint) skips the companies with a non-empty address; SWEETS
    ([scrape_all], with no mode check) skips the products with a phone or
    an email.  Neither records completed detail fetches. *)
Theorem resume_fetches_only_unscraped :
  (forall related listing page interval ck stop,
     mode ck = "csi-only" ->
     let o := scrape_csi_only related listing page interval true (Some ck) stop in
     let divs := first_pass listing
                   (match ck_divisions ck with [] => related | l => l end) in
     let want := filter (fun u => negb (mem u (scraped_urls (ck_divisions ck))))
                        (map url (companies_of divs)) in
     (exists rest, app (fetched o) rest = want) /\ (status o = Finished -> fetched o = want))
  /\
  (forall dp sp pp page mfr interval ts j st stop,
     SweetsCrawl.load_checkpoint (Some j) = Some j ->
     SweetsModel._restore_from_checkpoint (SweetsModel.mkSweetsState [] 0%Z) j = Some st ->
     let divs := SweetsCrawl.first_pass sp pp
                   (match SweetsModel.divisions st with
                    | [] => SweetsCrawl.scrape_divisions dp | l => l end) in
     let want := filter (fun u => negb (mem u (SweetsCrawl.detailed_urls (SweetsModel.divisions st))))
                        (map SweetsModel.url (SweetsCrawl.products_of divs)) in
     exists o, SweetsCrawl.scrape_all dp sp pp page mfr interval ts true (Some j) stop = Some o /\
       (exists rest, app (SweetsCrawl.sfetched o) rest = want) /\
       (SweetsCrawl.sstatus o = Finished -> SweetsCrawl.sfetched o = want)).
Proof.
  split; [exact arcat_resume_fetches_only_unscraped
         |exact sweets_resume_fetches_only_unscraped].
Qed.

(** C1, the spec's scenario on both crawlers: three entities, checkpoint
    interval 2, the run killed before the third detail fetch; the resumed
    run fetches only the third entity's page. *)
Lemma resume_fetches_only_unscraped_witness :
  (let first := scrape_csi_only [scenario_division] scenario_listing scenario_page 2
                  false None (Some (2, HardKill)) in
   let ck := match disk first with Some ck => ck | None => mkCheckpoint "" 0 [] end in
   fetched first = ["https://www.arcat.com/company/alpha-1"; "https://www.arcat.com/company/beta-2"]
   /\ disk first = Some ck /\ mode ck = "csi-only"
   /\ fetched (scrape_csi_only [scenario_division] scenario_listing scenario_page 2
                 true (Some ck) None) = ["https://www.arcat.com/company/gamma-3"])
  /\
  (let run := SweetsCrawl.scrape_all SweetsCrawl.sc_divisions_page SweetsCrawl.sc_sections_page
                SweetsCrawl.sc_products_page SweetsCrawl.sc_page SweetsCrawl.sc_mfr 2 "t" in
   let first := run false None (Some (2, HardKill)) in
   let j := match first with
            | Some o => match SweetsCrawl.sdisk o with Some j => j | None => ArcatCheckpoint.JNull end
            | None => ArcatCheckpoint.JNull end in
   let st := match SweetsModel._restore_from_checkpoint (SweetsModel.mkSweetsState [] 0%Z) j with
             | Some st => st | None => SweetsModel.mkSweetsState [] 0%Z end in
   option_map SweetsCrawl.sfetched first
     = Some [(SweetsModel.BASE_URL ++ "/manufacturer/alpha-1/products/saw-11")%string;
             (SweetsModel.BASE_URL ++ "/manufacturer/beta-2/products/drill-22")%string]
   /\ SweetsCrawl.load_checkpoint (Some j) = Some j
   /\ SweetsModel._restore_from_checkpoint (SweetsModel.mkSweetsState [] 0%Z) j = Some st
   /\ option_map SweetsCrawl.sfetched (run true (Some j) None)
      = Some [(SweetsModel.BASE_URL ++ "/manufacturer/gamma-3/products/hammer-33")%string]).
Proof.
  split.
  - intros first ck.
    split; [vm_compute; reflexivity|].
    split; [vm_compute; reflexivity|].
    split; [vm_compute; reflexivity|].
    destruct (proj1 resume_fetches_only_unscraped [scenario_division] scenario_listing
                scenario_page 2 ck None ltac:(vm_compute; reflexivity)) as [_ Hf].
    rewrite Hf by (vm_compute; reflexivity).
    vm_compute. reflexivity.
  - intros run first j st.
    assert (H1 : SweetsCrawl.load_checkpoint (Some j) = Some j) by (vm_compute; reflexivity).
    assert (H2 : SweetsModel._restore_from_checkpoint (SweetsModel.mkSweetsState [] 0%Z) j = Some st)
      by (vm_compute; reflexivity).
    split; [vm_compute; reflexivity|].
    split; [exact H1|]. split; [exact H2|].
    destruct (proj2 resume_fetches_only_unscraped SweetsCrawl.sc_divisions_page
                SweetsCrawl.sc_sections_page SweetsCrawl.sc_products_page SweetsCrawl.sc_page
                SweetsCrawl.sc_mfr 2%Z "t" j st None H1 H2) as [o [Ho [_ Hf]]].
    unfold run. rewrite Ho. cbn [option_map].
    assert (Hst : SweetsCrawl.sstatus o = Finished).
    { assert (Hv := Ho). vm_compute in Hv. injection Hv as <-. reflexivity. }
    rewrite (Hf Hst). vm_compute. reflexivity.
Defined.

(** C1 (counterexample).  On both crawlers, when the first entity's page
    yields nothing the skip test sees (no address on ARCAT, no phone and no
    email on SWEETS), the resumed run requests that page again although its
    detail fetch had completed. *)
Lemma completed_detail_fetched_again :
  (let first := scrape_csi_only [scenario_division] scenario_listing bare_first_page 2
                  false None (Some (2, HardKill)) in
   let again := scrape_csi_only [scenario_division] scenario_listing bare_first_page 2
                  true (disk first) None in
   fetched first = ["https://www.arcat.com/company/alpha-1"; "https://www.arcat.com/company/beta-2"]
   /\ fetched again = ["https://www.arcat.com/company/alpha-1"; "https://www.arcat.com/company/gamma-3"])
  /\
  (let first := SweetsCrawl.scrape_all SweetsCrawl.sc_divisions_page SweetsCrawl.sc_sections_page
                  SweetsCrawl.sc_products_page SweetsCrawl.sc_bare_page SweetsCrawl.sc_mfr
                  2 "t" false None (Some (2, HardKill)) in
   let again := match first with
                | Some o => SweetsCrawl.scrape_all SweetsCrawl.sc_divisions_page
                              SweetsCrawl.sc_sections_page SweetsCrawl.sc_products_page
                              SweetsCrawl.sc_bare_page SweetsCrawl.sc_mfr 2 "t" true
                              (SweetsCrawl.sdisk o) None
                | None => None end in
   option_map SweetsCrawl.sfetched first
   = Some [(SweetsModel.BASE_URL ++ "/manufacturer/alpha-1/products/saw-11")%string;
           (SweetsModel.BASE_URL ++ "/manufacturer/beta-2/products/drill-22")%string]
   /\ option_map SweetsCrawl.sfetched again
   = Some [(SweetsModel.BASE_URL ++ "/manufacturer/alpha-1/products/saw-11")%string;
           (SweetsModel.BASE_URL ++ "/manufacturer/gamma-3/products/hammer-33")%string]).
Proof.
  split; [exact arcat_completed_detail_fetched_again
         |exact sweets_detailed_without_contact_fetched_again].
Qed.

(** C2 (amended).  On both crawlers, a run stopped after any number of
    detail fetches (killed, or by an exception that saves a checkpoint) and
    resumed from the checkpoint it left on disk ends with the same store as
    one uninterrupted run, when the first pass lists no entity URL twice.
    ARCAT also needs the related divisions to start without companies;
    SWEETS needs that detailing a product a second time either finds it
    with a phone or an email or leaves it unchanged. *)
Theorem resume_equivalence :
  (forall related listing page interval k s,
     Forall (fun d => companies d = []) related ->
     NoDup (map url (companies_of (first_pass listing related))) ->
     let whole := scrape_csi_only related listing page interval false None None in
     let cut := scrape_csi_only related listing page interval false None (Some (k, s)) in
     let resumed := scrape_csi_only related listing page interval true (disk cut) None in
     store resumed = store whole)
  /\
  (forall dp sp pp page mfr interval ts k s,
     let E := SweetsCrawl.first_pass sp pp (SweetsCrawl.scrape_divisions dp) in
     NoDup (map SweetsModel.url (SweetsCrawl.products_of E)) ->
     (forall p, In p (SweetsCrawl.products_of E) ->
        SweetsCrawl.has_contact (SweetsCrawl.sdetailed mfr page p) = true \/
        SweetsCrawl.sdetailed mfr page (SweetsCrawl.sdetailed mfr page p)
        = SweetsCrawl.sdetailed mfr page p) ->
     match SweetsCrawl.scrape_all dp sp pp page mfr interval ts false None None,
           SweetsCrawl.scrape_all dp sp pp page mfr interval ts false None (Some (k, s)) with
     | Some w, Some c =>
         option_map SweetsCrawl.sstore
           (SweetsCrawl.scrape_all dp sp pp page mfr interval ts true (SweetsCrawl.sdisk c) None)
         = Some (SweetsCrawl.sstore w)
     | _, _ => False
     end).
Proof.
  split; [exact arcat_resume_equivalence|exact sweets_resume_equivalence].
Qed.

(** C2, the spec's scenario on both crawlers: the run killed after two
    detail fetches and resumed ends with the store of the uninterrupted
    run. *)
Lemma resume_equivalence_witness :
  (Forall (fun d => companies d = []) [scenario_division]
   /\ NoDup (map url (companies_of (first_pass scenario_listing [scenario_division])))
   /\ store (scrape_csi_only [scenario_division] scenario_listing scenario_page 2 true
        (disk (scrape_csi_only [scenario_division] scenario_listing scenario_page 2
                 false None (Some (2, HardKill)))) None)
      = store (scrape_csi_only [scenario_division] scenario_listing scenario_page 2
                 false None None))
  /\
  (let E := SweetsCrawl.first_pass SweetsCrawl.sc_sections_page SweetsCrawl.sc_products_page
              (SweetsCrawl.scrape_divisions SweetsCrawl.sc_divisions_page) in
   let run := SweetsCrawl.scrape_all SweetsCrawl.sc_divisions_page SweetsCrawl.sc_sections_page
                SweetsCrawl.sc_products_page SweetsCrawl.sc_page SweetsCrawl.sc_mfr 2 "t" in
   NoDup (map SweetsModel.url (SweetsCrawl.products_of E))
   /\ (forall p, In p (SweetsCrawl.products_of E) ->
         SweetsCrawl.has_contact
           (SweetsCrawl.sdetailed SweetsCrawl.sc_mfr SweetsCrawl.sc_page p) = true \/
         SweetsCrawl.sdetailed SweetsCrawl.sc_mfr SweetsCrawl.sc_page
           (SweetsCrawl.sdetailed SweetsCrawl.sc_mfr SweetsCrawl.sc_page p)
         = SweetsCrawl.sdetailed SweetsCrawl.sc_mfr SweetsCrawl.sc_page p)
   /\ match run false None None, run false None (Some (2, HardKill)) with
      | Some w, Some c =>
          option_map SweetsCrawl.sstore (run true (SweetsCrawl.sdisk c) None)
          = Some (SweetsCrawl.sstore w)
      | _, _ => False
      end).
Proof.
  split.
  - assert (H1 : Forall (fun d => companies d = []) [scenario_division])
      by (repeat constructor).
    assert (H2 : NoDup (map url (companies_of (first_pass scenario_listing [scenario_division])))).
    { vm_compute. repeat constructor; simpl; intuition discriminate. }
    split; [exact H1|]. split; [exact H2|].
    exact (proj1 resume_equivalence [scenario_division] scenario_listing scenario_page 2 2
             HardKill H1 H2).
  - intros E run.
    assert (H1 : NoDup (map SweetsModel.url (SweetsCrawl.products_of E))).
    { vm_compute. repeat constructor; simpl; intuition discriminate. }
    assert (H2 : forall p, In p (SweetsCrawl.products_of E) ->
         SweetsCrawl.has_contact
           (SweetsCrawl.sdetailed SweetsCrawl.sc_mfr SweetsCrawl.sc_page p) = true \/
         SweetsCrawl.sdetailed SweetsCrawl.sc_mfr SweetsCrawl.sc_page
           (SweetsCrawl.sdetailed SweetsCrawl.sc_mfr SweetsCrawl.sc_page p)
         = SweetsCrawl.sdetailed SweetsCrawl.sc_mfr SweetsCrawl.sc_page p).
    { intros p Hp. vm_compute in Hp.
      destruct Hp as [<-|[<-|[<-|[]]]]; left; vm_compute; reflexivity. }
    split; [exact H1|]. split; [exact H2|].
    exact (proj2 resume_equivalence SweetsCrawl.sc_divisions_page SweetsCrawl.sc_sections_page
             SweetsCrawl.sc_products_page SweetsCrawl.sc_page SweetsCrawl.sc_mfr 2%Z "t" 2
             HardKill H1 H2).
Defined.

(** C2 (counterexample).  On both crawlers, the same entity listed twice
    (in two ARCAT divisions, in two SWEETS sections): the uninterrupted run
    details both entries, but a run stopped by an exception after the first
    detail fetch and resumed skips the second entry, whose URL is already
    scraped.  On SWEETS, a product detailed twice can also change: the
    second detail reads the manufacturer page of the id the first one
    stored, so the resumed store differs from the uninterrupted one. *)
Lemma cross_listed_company_left_undetailed :
  (let rel := [scenario_division; scenario_division2] in
   let whole := scrape_csi_only rel acme_listing scenario_page CHECKPOINT_INTERVAL
                  false None None in
   let cut := scrape_csi_only rel acme_listing scenario_page CHECKPOINT_INTERVAL
                false None (Some (1, Raise)) in
   let resumed := scrape_csi_only rel acme_listing scenario_page CHECKPOINT_INTERVAL
                    true (disk cut) None in
   map address (companies_of (store whole))
     = ["123 Oak Rd., Austin, TX 78701"; "123 Oak Rd., Austin, TX 78701"]
   /\ map address (companies_of (store resumed)) = ["123 Oak Rd., Austin, TX 78701"; ""])
  /\
  (let run := SweetsCrawl.scrape_all SweetsCrawl.sc_divisions_page
                SweetsCrawl.sc_two_sections_page SweetsCrawl.sc_one_product_page
                SweetsCrawl.sc_page SweetsCrawl.sc_mfr 10 "t" in
   let cut := run false None (Some (1, Raise)) in
   option_map (fun o => map SweetsModel.phone (SweetsCrawl.products_of (SweetsCrawl.sstore o)))
     (run false None None)
     = Some ["(512) 555-0100"; "(512) 555-0100"]
   /\ option_map (fun o => map SweetsModel.phone (SweetsCrawl.products_of (SweetsCrawl.sstore o)))
        (match cut with Some o => run true (SweetsCrawl.sdisk o) None | None => None end)
     = Some ["(512) 555-0100"; ""])
  /\
  (let run := SweetsCrawl.scrape_all SweetsCrawl.sc_divisions_page SweetsCrawl.sc_sections_page
                SweetsCrawl.sc_products_page SweetsCrawl.sc_id_page SweetsCrawl.sc_id_mfr 10 "t" in
   let cut := run false None (Some (1, Raise)) in
   option_map (fun o => map SweetsModel.address (SweetsCrawl.products_of (SweetsCrawl.sstore o)))
     (run false None None)
     = Some [""; ""; ""]
   /\ option_map (fun o => map SweetsModel.address (SweetsCrawl.products_of (SweetsCrawl.sstore o)))
        (match cut with Some o => run true (SweetsCrawl.sdisk o) None | None => None end)
     = Some ["9 Elm St"; ""; ""]).
Proof.
  split; [exact arcat_cross_listed_company_left_undetailed|].
  split; [exact sweets_cross_listed_left_undetailed|exact sweets_redetail_differs].
Qed.

(** C3 (amended).  Within one expansion of a listing, ARCAT's division
    listing ([scrape_division_manufacturers]) and SWEETS's section listing
    ([scrape_section_products]), the kept entities have pairwise distinct
    keys (the [href] with its query stripped); links processed later only
    append entities, never modify or replace a kept one; and a later link
    whose key is already kept is dropped whole, so none of its fields, empty
    or not, reaches the kept entity.  On SWEETS the section's product list
    is its old list followed by the products found. *)
Theorem listing_keys_unique_first_wins :
  (forall cat links1 links2,
     NoDup (map fst (fst (manufacturers_loop cat (app links1 links2)))) /\
     (exists extra,
        fst (manufacturers_loop cat (app links1 links2))
        = app (fst (manufacturers_loop cat links1)) extra) /\
     (forall st l, seen_mem (Str.before "?" (href l)) (fst st) = true ->
        manufacturers_step cat st l = st))
  /\
  (forall s d links1 links2,
     let run := fun links => fold_left (SweetsModel.product_step s d) links ([], []) in
     NoDup (map (fun p => Arcat.canonical_key (SweetsModel.url p)) (snd (run (app links1 links2)))) /\
     (exists extra, snd (run (app links1 links2)) = app (snd (run links1)) extra) /\
     (forall st l, existsb (String.eqb (Str.before "?" (SweetsModel.p_href l))) (fst st) = true ->
        SweetsModel.product_step s d st l = st) /\
     (forall links, SweetsModel.sec_products (SweetsModel.scrape_section_products (Some links) s d)
                    = app (SweetsModel.sec_products s) (snd (run links)))).
Proof.
  split; [exact arcat_listing_keys_unique_first_wins
         |exact sweets_listing_keys_unique_first_wins].
Qed.

(** C3 (counterexample).  The entity store of a crawl can hold two entities
    with the same canonical key: on ARCAT a company listed in two divisions,
    on SWEETS a product listed in two sections of a division; each listing
    keeps its own copy. *)
Lemma store_holds_duplicate_key :
  (let l := mkLink "/company/acme-1" "Acme Corp" in
   let d1 := fst (scrape_division_manufacturers (Some [l])
                    (mkDivision "02 00 00" "EXISTING CONDITIONS" "u1" [])) in
   let d2 := fst (scrape_division_manufacturers (Some [l])
                    (mkDivision "03 00 00" "CONCRETE" "u2" [])) in
   ~ NoDup (map (fun c => canonical_key (url c)) (companies_of [d1; d2])))
  /\
  ~ NoDup (map (fun p => canonical_key (SweetsModel.url p))
             (SweetsCrawl.products_of
                (SweetsCrawl.first_pass SweetsCrawl.sc_two_sections_page
                   SweetsCrawl.sc_one_product_page
                   (SweetsCrawl.scrape_divisions SweetsCrawl.sc_divisions_page)))).
Proof.
  split; [exact arcat_store_holds_duplicate_key|exact sweets_store_holds_duplicate_key].
Qed.

(** C5 (amended).  Within one extraction pass, for the fields of each group
    the first strategy that matches gives the value.  ARCAT, default
    (non-Selenium) mode, for a company with no contact field yet: the
    serialized (NUXT) data first, then the page-text or link fallback (for
    email: mailto link, then a text match outside the excluded words).
    SWEETS ([scrape_product_details]): the [address] tag gives all eight
    contact fields; without it the first telephone pattern that matches
    gives the phone and the first email outside the excluded words the
    email; the manufacturer-page fallback runs only when the address is
    still empty, and never replaces a non-empty phone, fax, email or
    website (it does replace city, state and zip code). *)
Theorem detail_precedence :
  (forall pg h c,
     req pg = Some h -> address c = "" -> phone c = "" -> website c = "" -> email c = "" ->
     let nd := _extract_from_nuxt_data (blob h) (blob_website h) in
     option_map (fun c' => (address c', phone c', website c', email c'))
       (scrape_company_details false pg c)
     = Some ((if nonempty (nuxt_full_address nd) then nuxt_full_address nd
              else if nonempty (text_address h) then Str2.strip (text_address h) else ""),
             (if nonempty (n_phone nd) then n_phone nd
              else if nonempty (text_phone h) then Str2.strip (text_phone h) else ""),
             (if nonempty (n_website nd) then n_website nd else link_website h),
             (if nonempty (n_email nd) then n_email nd
              else if nonempty (mailto_email h) then Str2.strip (mailto_email h)
              else if nonempty (text_email h)
                      && negb (existsb (fun x => Str.contains x (Str.lower (text_email h)))
                                       EXCLUDED_EMAIL)
              then text_email h else "")))
  /\
  (forall mfr cache sp p,
     let q := SweetsDetail.page_step sp p in
     let r := fst (SweetsDetail.scrape_product_details mfr cache (Some sp) p) in
     (forall parse, SweetsDetail.address_tag sp = Some parse ->
        let a := parse (SweetsModel.manufacturer_name p) in
        (SweetsModel.address q, SweetsModel.city q, SweetsModel.state q, SweetsModel.zip_code q,
         SweetsModel.phone q, SweetsModel.fax q, SweetsModel.email q, SweetsModel.website q)
        = (SweetsAddress.address a, SweetsAddress.city a, SweetsAddress.state a,
           SweetsAddress.zip_code a, SweetsAddress.phone a, SweetsAddress.fax a,
           SweetsAddress.email a, SweetsAddress.website a)) /\
     (SweetsDetail.address_tag sp = None ->
        SweetsModel.phone q
        = match SweetsDetail.tel_match sp with
          | Some g => SweetsDetail.fmt_phone g
          | None => match SweetsDetail.tel_match2 sp with
                    | Some g => SweetsDetail.fmt_phone g | None => SweetsModel.phone p end
          end /\
        SweetsModel.email q
        = match SweetsDetail.first_email (SweetsDetail.email_matches sp) with
          | Some e => e | None => SweetsModel.email p end) /\
     (forall l e, SweetsDetail.first_email l = Some e ->
        exists l1 l2, l = app l1 (e :: l2)
          /\ Forall (fun x => existsb (fun exc => Str.contains exc (Str.lower x))
                                SweetsDetail.excluded_email_domains = true) l1
          /\ existsb (fun exc => Str.contains exc (Str.lower e))
               SweetsDetail.excluded_email_domains = false) /\
     (nonempty (SweetsModel.address q) = true ->
        (SweetsModel.address r, SweetsModel.city r, SweetsModel.state r, SweetsModel.zip_code r,
         SweetsModel.phone r, SweetsModel.fax r, SweetsModel.email r, SweetsModel.website r)
        = (SweetsModel.address q, SweetsModel.city q, SweetsModel.state q, SweetsModel.zip_code q,
           SweetsModel.phone q, SweetsModel.fax q, SweetsModel.email q, SweetsModel.website q)) /\
     (nonempty (SweetsModel.phone q) = true -> SweetsModel.phone r = SweetsModel.phone q) /\
     (nonempty (SweetsModel.fax q) = true -> SweetsModel.fax r = SweetsModel.fax q) /\
     (nonempty (SweetsModel.email q) = true -> SweetsModel.email r = SweetsModel.email q) /\
     (nonempty (SweetsModel.website q) = true -> SweetsModel.website r = SweetsModel.website q)).
Proof.
  split; [exact arcat_detail_precedence|exact sweets_detail_precedence].
Qed.

(** C5 on concrete pages.  ARCAT: the serialized data and the page text both
    give a phone, website and email; the serialized values are kept.
    SWEETS: the [address] tag gives the contact, and the fallback leaves the
    phone it read. *)
Lemma detail_precedence_witness :
  (let h := mkHtml scenario_blob "" "" "999-999-9999" "https://www.oak.com" "sales@oak.com"
              "" None in
   let pg := mkPage None (Some h) in
   let c := new_company "Oak Supply" "https://www.arcat.com/company/oak-supply-1" "1"
              "02 00 00 - EXISTING CONDITIONS" in
   (req pg = Some h /\ address c = "" /\ phone c = "" /\ website c = "" /\ email c = "") /\
   option_map (fun c' => (address c', phone c', website c', email c'))
     (scrape_company_details false pg c)
   = Some ("123 Oak Rd., Austin, TX 78701", "512-555-0100", "https://www.oak.com",
           "info@example.com"))
  /\
  (let sp := SweetsCrawl.sc_spage (Some SweetsCrawl.sc_contact) None in
   let p := SweetsModel.new_product "Saw"
              "https://sweets.construction.com/manufacturer/alpha-1/products/saw-11"
              "Alpha Inc" "alpha-1" "02 00 00" "Existing Conditions" "02 41 00" "Demolition" in
   let q := SweetsDetail.page_step sp p in
   SweetsDetail.address_tag sp = Some SweetsCrawl.sc_contact
   /\ nonempty (SweetsModel.phone q) = true
   /\ (SweetsModel.address q, SweetsModel.city q, SweetsModel.phone q)
      = ("1 Main St", "Austin", "(512) 555-0100")
   /\ SweetsModel.phone (fst (SweetsDetail.scrape_product_details SweetsCrawl.sc_mfr []
                                (Some sp) p)) = "(512) 555-0100").
Proof.
  split.
  - intros h pg c.
    split; [repeat split|].
    rewrite (proj1 detail_precedence pg h c eq_refl eq_refl eq_refl eq_refl eq_refl).
    vm_compute. reflexivity.
  - intros sp p q.
    destruct (proj2 detail_precedence SweetsCrawl.sc_mfr [] sp p)
      as (_ & _ & _ & _ & Hph & _).
    assert (H1 : SweetsDetail.address_tag sp = Some SweetsCrawl.sc_contact) by reflexivity.
    assert (H2 : nonempty (SweetsModel.phone q) = true) by (vm_compute; reflexivity).
    split; [exact H1|]. split; [exact H2|].
    split; [vm_compute; reflexivity|].
    rewrite (Hph H2). vm_compute. reflexivity.
Defined.

(** C5 (counterexample).  ARCAT with Selenium enabled: a phone taken from
    the rendered page is overwritten by the phone of the serialized data,
    read afterwards.  SWEETS: a tag that gives a city but no street leaves
    the address empty, and the manufacturer-page fallback then replaces the
    city the tag gave. *)
Lemma rendered_phone_overwritten :
  (let r := mkRendered "12 Elm St, Austin, TX 78701" "TX" "111-111-1111" "" "" in
   let h := mkHtml scenario_blob "" "" "" "" "" "" None in
   let c := new_company "Oak Supply" "https://www.arcat.com/company/oak-supply-1" "1"
              "02 00 00 - EXISTING CONDITIONS" in
   phone (apply_rendered r c) = "111-111-1111" /\
   option_map phone (scrape_company_details true (mkPage (Some (h, r)) None) c)
   = Some "512-555-0100")
  /\
  (let tag := fun m : string => SweetsAddress.mkAddressResult "" "Austin" "Texas" "78701"
                                  "(512) 555-0100" "" "" "" in
   let sp := SweetsCrawl.sc_spage (Some tag) None in
   let p := SweetsModel.new_product "Saw"
              "https://sweets.construction.com/manufacturer/alpha-1/products/saw-11"
              "Alpha Inc" "alpha-1" "02 00 00" "Existing Conditions" "02 41 00" "Demolition" in
   let mfr := fun _ : string => Some (SweetsAddress.mkAddressResult "9 Elm St" "Dallas" "Texas"
                                   "75201" "" "" "" "") in
   SweetsModel.city (SweetsDetail.page_step sp p) = "Austin" /\
   SweetsModel.city (fst (SweetsDetail.scrape_product_details mfr [] (Some sp) p)) = "Dallas").
Proof.
  split; [exact arcat_rendered_phone_overwritten|exact sweets_tag_city_overwritten].
Qed.

End ClaimProofs.
